(** * Gym Manager Pro (index.py): a shallow embedding and its checked properties

    The script is a Streamlit page over a pandas DataFrame persisted as a
    CSV file.  Python objects are embedded as follows.

    - [datetime.date] is its proleptic Gregorian ordinal ([date.toordinal()]),
      a [Z] between 1 and 3652059; date arithmetic raises [OverflowError]
      outside that range, as CPython does.
    - a pandas [Timestamp] (datetime64[ns]) is the number of nanoseconds since
      1970-01-01, a [Z] in the int64 range; [NaT] is [None].
    - Python [str] is a [string] holding the UTF-8 encoding of the text.
    - float64 is Rocq's primitive binary64 [float].
    - a [DataFrame] is an ordered list of named, typed columns; DataFrames are
      mutable objects and live in a heap, so that copies and in-place column
      assignment are observable.
    - effects (heap, file system, Streamlit cache, clock, UI log) are threaded
      through a state-and-exception monad [M].

    The embedding comes first (calendar, strings, frames, CSV text, the
    script itself), then the vocabulary the statements use, then the
    properties with their proofs. *)

From Stdlib Require Import ZArith String Ascii List Bool Floats Lia Sorted.
From stdpp Require Import gmap strings list.

Local Open Scope string_scope.
Local Open Scope Z_scope.

(** ** Exceptions and results *)

Inductive exn : Type :=
| KeyError (key : string)
| AttributeError (what : string)
| TypeError (what : string)
| ValueError (what : string)
| OverflowError (what : string)
| OutOfBoundsDatetime
| EmptyDataError
| ParserError
| OSError
| Unsupported (what : string).
(* [Unsupported] marks library behaviour that lies outside this embedding;
   it is never the outcome of a run discussed below. *)

Inductive result (A : Type) : Type :=
| Ok (a : A)
| Raise (e : exn).
Arguments Ok {A} a.
Arguments Raise {A} e.

Definition rbind {A B} (r : result A) (k : A -> result B) : result B :=
  match r with Ok a => k a | Raise e => Raise e end.

Fixpoint rmap {A B} (f : A -> result B) (l : list A) : result (list B) :=
  match l with
  | [] => Ok []
  | x :: l' => rbind (f x) (fun y => rbind (rmap f l') (fun ys => Ok (y :: ys)))
  end.

(** ** The calendar of [datetime.date] (CPython's Lib/_pydatetime.py) *)

Module Calendar.

Definition MINYEAR : Z := 1.
Definition MAXYEAR : Z := 9999.
Definition MAXORDINAL : Z := 3652059.   (* date.max.toordinal() *)

Definition DAYS_IN_MONTH : list Z := [-1; 31; 28; 31; 30; 31; 30; 31; 31; 30; 31; 30; 31].
Definition DAYS_BEFORE_MONTH : list Z := [-1; 0; 31; 59; 90; 120; 151; 181; 212; 243; 273; 304; 334].

Definition is_leap (year : Z) : bool :=
  (year mod 4 =? 0) && (negb (year mod 100 =? 0) || (year mod 400 =? 0)).

Definition days_before_year (year : Z) : Z :=
  let y := year - 1 in y * 365 + y / 4 - y / 100 + y / 400.

Definition days_in_month (year month : Z) : Z :=
  if (month =? 2) && is_leap year then 29
  else nth (Z.to_nat month) DAYS_IN_MONTH 0.

Definition days_before_month (year month : Z) : Z :=
  nth (Z.to_nat month) DAYS_BEFORE_MONTH 0
  + (if (2 <? month) && is_leap year then 1 else 0).

Definition ymd2ord (year month day : Z) : Z :=
  days_before_year year + days_before_month year month + day.

Definition DI400Y : Z := 146097.
Definition DI100Y : Z := 36524.
Definition DI4Y : Z := 1461.

Definition ord2ymd (n : Z) : Z * Z * Z :=
  let n := n - 1 in
  let n400 := n / DI400Y in let n := n mod DI400Y in
  let year := n400 * 400 + 1 in
  let n100 := n / DI100Y in let n := n mod DI100Y in
  let n4 := n / DI4Y in let n := n mod DI4Y in
  let n1 := n / 365 in let n := n mod 365 in
  let year := year + n100 * 100 + n4 * 4 + n1 in
  if (n1 =? 4) || (n100 =? 4) then (year - 1, 12, 31)
  else
    let leapyear := (n1 =? 3) && (negb (n4 =? 24) || (n100 =? 3)) in
    let month := Z.shiftr (n + 50) 5 in
    let preceding :=
      nth (Z.to_nat month) DAYS_BEFORE_MONTH 0
      + (if (2 <? month) && leapyear then 1 else 0) in
    if n <? preceding then
      let month := month - 1 in
      let preceding :=
        preceding
        - (nth (Z.to_nat month) DAYS_IN_MONTH 0
           + (if (month =? 2) && leapyear then 1 else 0)) in
      (year, month, n - preceding + 1)
    else (year, month, n - preceding + 1).

(** A [date] object exists only for ordinals 1 .. MAXORDINAL. *)
Definition valid_ordinal (o : Z) : bool := (1 <=? o) && (o <=? MAXORDINAL).

(** [timedelta(days=d)]: the constructor refuses magnitudes above 999999999. *)
Definition MAX_DELTA_DAYS : Z := 999999999.

Definition timedelta (days : Z) : result Z :=
  if (- MAX_DELTA_DAYS <=? days) && (days <=? MAX_DELTA_DAYS) then Ok days
  else Raise (OverflowError "days; must have magnitude <= 999999999").

(** [date + timedelta]. *)
Definition date_add (o delta_days : Z) : result Z :=
  let o' := o + delta_days in
  if valid_ordinal o' then Ok o' else Raise (OverflowError "date value out of range").

(** Timestamps: nanoseconds since the epoch, whose ordinal is 719163. *)
Definition EPOCH_ORDINAL : Z := 719163.
Definition NS_PER_DAY : Z := 86400000000000.
Definition TS_MIN : Z := - 9223372036854775807.
Definition TS_MAX : Z := 9223372036854775807.

Definition ts_in_bounds (ns : Z) : bool := (TS_MIN <=? ns) && (ns <=? TS_MAX).

(** [Timestamp.date()]: the calendar day the instant falls on. *)
Definition ts_date (ns : Z) : Z := ns / NS_PER_DAY + EPOCH_ORDINAL.

(** [pd.to_datetime(d)] for a [date] d: midnight of that day. *)
Definition to_datetime (o : Z) : result Z :=
  let ns := (o - EPOCH_ORDINAL) * NS_PER_DAY in
  if ts_in_bounds ns then Ok ns else Raise OutOfBoundsDatetime.

(** [Timestamp + timedelta(days=d)]. *)
Definition ts_add_days (ns delta_days : Z) : result Z :=
  let ns' := ns + delta_days * NS_PER_DAY in
  if ts_in_bounds ns' then Ok ns' else Raise OutOfBoundsDatetime.

(** [Series.dt.to_period("M").dt.to_timestamp()] on one value: midnight of the
    first day of the value's calendar month. *)
Definition month_start (ns : Z) : Z :=
  let '(y, m, _) := ord2ymd (ts_date ns) in
  (ymd2ord y m 1 - EPOCH_ORDINAL) * NS_PER_DAY.

End Calendar.

(** ** Python [str] operations on UTF-8 text *)

Module PyStr.

Definition byte (c : ascii) : N := N_of_ascii c.

(** Code points for which [str.isspace()] holds (CPython's
    [_PyUnicode_IsWhitespace]). *)
Definition py_whitespace : list N :=
  [9; 10; 11; 12; 13; 28; 29; 30; 31; 32; 133; 160; 5760;
   8192; 8193; 8194; 8195; 8196; 8197; 8198; 8199; 8200; 8201; 8202;
   8232; 8233; 8239; 8287; 12288]%N.

(** UTF-8 encoding of one code point (up to U+FFFF, which covers the table). *)
Definition utf8 (cp : N) : string :=
  (if cp <? 128 then String (ascii_of_N cp) EmptyString
   else if cp <? 2048 then
     String (ascii_of_N (192 + cp / 64))
       (String (ascii_of_N (128 + cp mod 64)) EmptyString)
   else
     String (ascii_of_N (224 + cp / 4096))
       (String (ascii_of_N (128 + (cp / 64) mod 64))
          (String (ascii_of_N (128 + cp mod 64)) EmptyString)))%N.

(** The byte patterns the stripping loop recognises as one whitespace
    character, by encoded length. *)
Definition space1 (c : ascii) : bool :=
  let n := byte c in
  ((9 <=? n) && (n <=? 13) || (28 <=? n) && (n <=? 32))%N.

Definition space2 (c1 c2 : ascii) : bool :=
  ((byte c1 =? 194) && ((byte c2 =? 133) || (byte c2 =? 160)))%N.

Definition space3 (c1 c2 c3 : ascii) : bool :=
  let a := byte c1 in let b := byte c2 in let c := byte c3 in
  ((a =? 225) && (b =? 154) && (c =? 128)
   || (a =? 226) && (b =? 128)
        && ((128 <=? c) && (c <=? 138) || (c =? 168) || (c =? 169) || (c =? 175))
   || (a =? 226) && (b =? 129) && (c =? 159)
   || (a =? 227) && (b =? 128) && (c =? 128))%N.

(** [s.lstrip()]. *)
Fixpoint lstrip (s : string) : string :=
  match s with
  | EmptyString => EmptyString
  | String c1 r1 =>
      if space1 c1 then lstrip r1
      else match r1 with
           | String c2 r2 =>
               if space2 c1 c2 then lstrip r2
               else match r2 with
                    | String c3 r3 => if space3 c1 c2 c3 then lstrip r3 else s
                    | EmptyString => s
                    end
           | EmptyString => s
           end
  end.

Fixpoint rev_onto (s acc : string) : string :=
  match s with
  | EmptyString => acc
  | String c r => rev_onto r (String c acc)
  end.

Definition reverse (s : string) : string := rev_onto s EmptyString.

(** The same loop run from the right end, over the reversed bytes. *)
Fixpoint lstrip_reversed (s : string) : string :=
  match s with
  | EmptyString => EmptyString
  | String c1 r1 =>
      if space1 c1 then lstrip_reversed r1
      else match r1 with
           | String c2 r2 =>
               if space2 c2 c1 then lstrip_reversed r2
               else match r2 with
                    | String c3 r3 =>
                        if space3 c3 c2 c1 then lstrip_reversed r3 else s
                    | EmptyString => s
                    end
           | EmptyString => s
           end
  end.

Definition rstrip (s : string) : string := reverse (lstrip_reversed (reverse s)).

(** [s.strip()]. *)
Definition strip (s : string) : string := rstrip (lstrip s).

(** Truth value of a [str]: non-empty. *)
Definition truthy (s : string) : bool :=
  match s with EmptyString => false | String _ _ => true end.

(** Text made only of whitespace characters (possibly none). *)
Inductive whitespace_only : string -> Prop :=
| ws_empty : whitespace_only EmptyString
| ws_more (cp : N) (s : string) :
    In cp py_whitespace -> whitespace_only s -> whitespace_only (utf8 cp +:+ s).

(** Decimal rendering of integers, as [str(int)] prints them. *)
Definition digit (d : Z) : ascii := ascii_of_N (48 + Z.to_N d).

Fixpoint digits_fuel (fuel : nat) (n : Z) (acc : string) : string :=
  match fuel with
  | O => acc
  | S fuel' =>
      let acc' := String (digit (n mod 10)) acc in
      if n <? 10 then acc' else digits_fuel fuel' (n / 10) acc'
  end.

Definition str_nat (n : Z) : string := digits_fuel (S (Z.to_nat (Z.log2 n))) n EmptyString.

Definition str_int (n : Z) : string :=
  if n <? 0 then String "-" (str_nat (- n)) else str_nat n.

(** [f"{n:0{w}d}"] for a non-negative [n]. *)
Fixpoint pad_fuel (fuel w : nat) (s : string) : string :=
  match fuel with
  | O => s
  | S fuel' => if (String.length s <? w)%nat then pad_fuel fuel' w (String "0" s) else s
  end.

Definition zfill (w : nat) (n : Z) : string := pad_fuel w w (str_nat n).

(** Reading an unsigned decimal numeral; [None] unless every character is a
    digit and there is at least one. *)
Definition is_digit (c : ascii) : bool := ((48 <=? byte c) && (byte c <=? 57))%N.

Fixpoint read_digits (s : string) (acc : Z) : option Z :=
  match s with
  | EmptyString => Some acc
  | String c r =>
      if is_digit c then read_digits r (acc * 10 + (Z.of_N (byte c) - 48)) else None
  end.

Definition read_nat (s : string) : option Z :=
  match s with
  | EmptyString => None
  | _ => read_digits s 0
  end.

(** [needle in haystack]. *)
Fixpoint contains (needle haystack : string) : bool :=
  String.prefix needle haystack
  || match haystack with
     | EmptyString => false
     | String _ r => contains needle r
     end.

End PyStr.

(** ** pandas values, columns and frames *)

(** Python objects that can sit in an object-dtype column or be passed to the
    script's lambdas. *)
Inductive pyval : Type :=
| PStr (s : string)
| PInt (n : Z)
| PFloat (f : float)
| PBool (b : bool)
| PTimestamp (ns : Z)
| PNaT
| PDate (ordinal : Z)
| PTimedelta (days : Z).

(** A column with its dtype. *)
Inductive Series : Type :=
| SObject (vs : list pyval)
| SInt64 (vs : list Z)
| SFloat64 (vs : list float)
| SBool (vs : list bool)
| SDatetime (vs : list (option Z)).      (* datetime64[ns]; [None] is NaT *)

Definition series_len (s : Series) : nat :=
  match s with
  | SObject vs => length vs
  | SInt64 vs => length vs
  | SFloat64 vs => length vs
  | SBool vs => length vs
  | SDatetime vs => length vs
  end.

(** The elements of a column as Python objects. *)
Definition box_ts (o : option Z) : pyval :=
  match o with Some ns => PTimestamp ns | None => PNaT end.

Definition series_values (s : Series) : list pyval :=
  match s with
  | SObject vs => vs
  | SInt64 vs => map PInt vs
  | SFloat64 vs => map PFloat vs
  | SBool vs => map PBool vs
  | SDatetime vs => map box_ts vs
  end.

(** A frame: its columns in order.  All columns of a frame built by the
    operations below have one length, the number of rows. *)
Definition DataFrame : Type := list (string * Series).

Definition columns (d : DataFrame) : list string := map fst d.

Definition nrows (d : DataFrame) : nat :=
  match d with
  | [] => O
  | (_, s) :: _ => series_len s
  end.

(** [df.empty]: no rows or no columns. *)
Definition empty (d : DataFrame) : bool := (nrows d =? 0)%nat.

Fixpoint get_col (name : string) (d : DataFrame) : option Series :=
  match d with
  | [] => None
  | (k, s) :: d' => if String.eqb k name then Some s else get_col name d'
  end.

(** [df[name] = s]: replaces the column in place, or appends a new last one. *)
Fixpoint set_col (name : string) (s : Series) (d : DataFrame) : DataFrame :=
  match d with
  | [] => [(name, s)]
  | (k, s0) :: d' =>
      if String.eqb k name then (k, s) :: d' else (k, s0) :: set_col name s d'
  end.

(** [pd.DataFrame(columns=names)]: no rows, object columns. *)
Definition empty_frame (names : list string) : DataFrame :=
  map (fun k => (k, SObject [])) names.

(** int64 -> float64, correctly rounded. *)
Definition Z_to_f64 (z : Z) : float :=
  match z with
  | Z0 => 0%float
  | Zpos p => SF2Prim (binary_round prec emax false p 0)
  | Zneg p => SF2Prim (binary_round prec emax true p 0)
  end.

(** Result dtype inference of [Series.apply] / [DataFrame([...])] over the
    produced objects: homogeneous ints, floats, bools and timestamps get their
    native dtype, anything else stays object. *)
Definition as_int (v : pyval) : option Z := match v with PInt n => Some n | _ => None end.
Definition as_float (v : pyval) : option float := match v with PFloat f => Some f | _ => None end.
Definition as_bool (v : pyval) : option bool := match v with PBool b => Some b | _ => None end.
Definition as_ts (v : pyval) : option (option Z) :=
  match v with PTimestamp ns => Some (Some ns) | PNaT => Some None | _ => None end.

Fixpoint all_some {A B} (f : A -> option B) (l : list A) : option (list B) :=
  match l with
  | [] => Some []
  | x :: l' =>
      match f x, all_some f l' with
      | Some y, Some ys => Some (y :: ys)
      | _, _ => None
      end
  end.

Definition infer_objects (vs : list pyval) : Series :=
  match vs with
  | [] => SObject []
  | _ =>
      match all_some as_int vs with
      | Some l => SInt64 l
      | None =>
          match all_some as_float vs with
          | Some l => SFloat64 l
          | None =>
              match all_some as_bool vs with
              | Some l => SBool l
              | None =>
                  match all_some as_ts vs with
                  | Some l => SDatetime l
                  | None => SObject vs
                  end
              end
          end
      end
  end.

(** [series.dt.date]: needs a datetime column; yields [date] objects. *)
Definition dt_date (s : Series) : result Series :=
  match s with
  | SDatetime vs =>
      Ok (SObject (map (fun o => match o with
                                 | Some ns => PDate (Calendar.ts_date ns)
                                 | None => PNaT
                                 end) vs))
  | _ => Raise (AttributeError "Can only use .dt accessor with datetimelike values")
  end.

(** [series.dt.to_period("M").dt.to_timestamp()]. *)
Definition dt_month_start (s : Series) : result Series :=
  match s with
  | SDatetime vs =>
      rbind (rmap (fun o => match o with
                            | Some ns =>
                                let m := Calendar.month_start ns in
                                if Calendar.ts_in_bounds m then Ok (Some m)
                                else Raise OutOfBoundsDatetime
                            | None => Ok None
                            end) vs)
            (fun l => Ok (SDatetime l))
  | _ => Raise (AttributeError "Can only use .dt accessor with datetimelike values")
  end.

(** [a < b], [a <= b] and [a - b] as the script uses them on [date] objects;
    every other pairing of operand types is a [TypeError]. *)
Definition py_lt (a b : pyval) : result bool :=
  match a, b with
  | PDate x, PDate y => Ok (x <? y)
  | _, _ => Raise (TypeError "'<' not supported between these operands")
  end.

Definition py_le (a b : pyval) : result bool :=
  match a, b with
  | PDate x, PDate y => Ok (x <=? y)
  | _, _ => Raise (TypeError "'<=' not supported between these operands")
  end.

Definition py_sub (a b : pyval) : result pyval :=
  match a, b with
  | PDate x, PDate y => Ok (PTimedelta (x - y))
  | _, _ => Raise (TypeError "unsupported operand type(s) for -")
  end.

(** [x.days]. *)
Definition py_days (x : pyval) : result pyval :=
  match x with
  | PTimedelta d => Ok (PInt d)
  | _ => Raise (AttributeError "days")
  end.

(** [series - value] on an object column, element by element. *)
Definition series_sub (s : Series) (v : pyval) : result Series :=
  match s with
  | SObject vs => rbind (rmap (fun x => py_sub x v) vs) (fun l => Ok (SObject l))
  | _ => Raise (Unsupported "arithmetic on a native-dtype column")
  end.

(** [(series == text).sum()]: how many elements equal the given [str]. *)
Definition eq_str (text : string) (v : pyval) : bool :=
  match v with PStr s => String.eqb s text | _ => false end.

Definition count_eq_str (s : Series) (text : string) : Z :=
  Z.of_nat (length (filter (fun v => eq_str text v = true) (series_values s))).

(** ** Text forms of floating-point numbers

    How numpy prints a float64 and how the CSV reader turns a numeric token
    into one, and the float64 reduction used by [groupby(...).sum()], are
    library routines; the embedding takes them as an interface, so that every
    result below holds whatever these routines compute.  A reference instance
    is given further down. *)

Class Float64Lib : Type := {
  f64_repr : float -> string;
  f64_parse : string -> option float;
  f64_sum : list float -> float
}.

(** ** CSV files: [DataFrame.to_csv] and [pd.read_csv]

    A stored file is its sequence of lines, each line its sequence of cell
    texts, the header line first.  (Quoting of cells that contain separators
    is lossless and is not represented.)  The empty sequence is a file of zero
    bytes. *)

Definition csv_file : Type := list (list string).

Module Csv.
Import Calendar PyStr.

(** *** Writing *)

Definition fmt_ymd (o : Z) : string :=
  let '(y, m, d) := ord2ymd o in
  str_int y +:+ "-" +:+ zfill 2 m +:+ "-" +:+ zfill 2 d.

Definition time_of_day (ns : Z) : Z := ns mod NS_PER_DAY.

Definition fmt_hms (ns : Z) : string :=
  let t := time_of_day ns / 1000000000 in
  zfill 2 (t / 3600) +:+ ":" +:+ zfill 2 (t / 60 mod 60) +:+ ":" +:+ zfill 2 (t mod 60).

Definition frac_ns (ns : Z) : Z := ns mod 1000000000.

(** The coarsest unit that shows every value of a datetime column exactly. *)
Inductive resolution : Type := ResDay | ResSecond | ResMilli | ResMicro | ResNano.

Definition value_resolution (ns : Z) : resolution :=
  if time_of_day ns =? 0 then ResDay
  else if frac_ns ns =? 0 then ResSecond
  else if frac_ns ns mod 1000000 =? 0 then ResMilli
  else if frac_ns ns mod 1000 =? 0 then ResMicro
  else ResNano.

Definition res_rank (r : resolution) : nat :=
  match r with ResDay => 0 | ResSecond => 1 | ResMilli => 2 | ResMicro => 3 | ResNano => 4 end.

Definition res_max (a b : resolution) : resolution :=
  if (res_rank a <? res_rank b)%nat then b else a.

Fixpoint column_resolution (vs : list (option Z)) : resolution :=
  match vs with
  | [] => ResDay
  | Some ns :: vs' => res_max (value_resolution ns) (column_resolution vs')
  | None :: vs' => column_resolution vs'
  end.

Definition fmt_timestamp (r : resolution) (ns : Z) : string :=
  let day := fmt_ymd (ts_date ns) in
  match r with
  | ResDay => day
  | ResSecond => day +:+ " " +:+ fmt_hms ns
  | ResMilli => day +:+ " " +:+ fmt_hms ns +:+ "." +:+ zfill 3 (frac_ns ns / 1000000)
  | ResMicro => day +:+ " " +:+ fmt_hms ns +:+ "." +:+ zfill 6 (frac_ns ns / 1000)
  | ResNano => day +:+ " " +:+ fmt_hms ns +:+ "." +:+ zfill 9 (frac_ns ns)
  end.

(** [str(ts)] of a single [Timestamp]: always with the time of day. *)
Definition str_timestamp (ns : Z) : string :=
  fmt_timestamp (res_max ResSecond
                   (match value_resolution ns with
                    | ResMilli => ResMicro
                    | r => r
                    end)) ns.

(** [str(d)] of a [date]: zero-padded ISO form. *)
Definition str_date (o : Z) : string :=
  let '(y, m, d) := ord2ymd o in
  zfill 4 y +:+ "-" +:+ zfill 2 m +:+ "-" +:+ zfill 2 d.

Definition str_timedelta (days : Z) : string :=
  if days =? 0 then "0:00:00"
  else if Z.abs days =? 1 then str_int days +:+ " day, 0:00:00"
  else str_int days +:+ " days, 0:00:00".

Definition str_bool (b : bool) : string := if b then "True" else "False".

Section WithFloats.
Context `{Float64Lib}.

(** Missing values (NaN, NaT) are written as the empty cell. *)
Definition cell_of_float (f : float) : string :=
  if PrimFloat.is_nan f then "" else f64_repr f.

Definition cell_of_obj (v : pyval) : string :=
  match v with
  | PStr s => s
  | PInt n => str_int n
  | PFloat f => cell_of_float f
  | PBool b => str_bool b
  | PTimestamp ns => str_timestamp ns
  | PNaT => ""
  | PDate o => str_date o
  | PTimedelta d => str_timedelta d
  end.

Definition cells_of_series (s : Series) : list string :=
  match s with
  | SObject vs => map cell_of_obj vs
  | SInt64 vs => map str_int vs
  | SFloat64 vs => map cell_of_float vs
  | SBool vs => map str_bool vs
  | SDatetime vs =>
      let r := column_resolution vs in
      map (fun o => match o with Some ns => fmt_timestamp r ns | None => "" end) vs
  end.

(** The data lines: line [i] holds cell [i] of every column. *)
Definition csv_rows (d : DataFrame) : list (list string) :=
  map (fun i => map (fun kc => nth i (cells_of_series (snd kc)) "") d)
      (seq 0 (nrows d)).

(** [df.to_csv(index=False)]: the header line, then one line per row. *)
Definition to_csv (d : DataFrame) : csv_file := columns d :: csv_rows d.


(** *** Reading *)

(** Cell texts the reader takes for a missing value (the default
    [na_values] with [keep_default_na=True]). *)
Definition NA_VALUES : list string :=
  [""; "#N/A"; "#N/A N/A"; "#NA"; "-1.#IND"; "-1.#QNAN"; "-NaN"; "-nan";
   "1.#IND"; "1.#QNAN"; "<NA>"; "N/A"; "NA"; "NULL"; "NaN"; "None"; "n/a";
   "nan"; "null"].

Definition is_na (cell : string) : bool := existsb (String.eqb cell) NA_VALUES.

(** Integer tokens ([str_to_int64] of the C tokenizer): blanks, an optional
    sign, at least one digit, blanks. *)
Definition c_space (c : ascii) : bool :=
  ((9 <=? byte c) && (byte c <=? 13) || (byte c =? 32))%N.

Fixpoint skip_spaces (s : string) : string :=
  match s with
  | String c r => if c_space c then skip_spaces r else s
  | EmptyString => s
  end.

Fixpoint span_digits (s : string) (acc : Z) (seen : bool) : option Z * string :=
  match s with
  | String c r =>
      if is_digit c then span_digits r (acc * 10 + (Z.of_N (byte c) - 48)) true
      else (if seen then Some acc else None, s)
  | EmptyString => (if seen then Some acc else None, s)
  end.

Inductive int_token : Type := IntOk (n : Z) | IntOverflow | NotInt.

Definition INT64_MIN : Z := - 9223372036854775808.
Definition INT64_MAX : Z := 9223372036854775807.

Definition parse_int64 (cell : string) : int_token :=
  let s := skip_spaces cell in
  let '(neg, s) :=
    match s with
    | String "-" r => (true, r)
    | String "+" r => (false, r)
    | _ => (false, s)
    end in
  match span_digits s 0 false with
  | (Some n, rest) =>
      match skip_spaces rest with
      | EmptyString =>
          let v := if neg then - n else n in
          if (INT64_MIN <=? v) && (v <=? INT64_MAX) then IntOk v else IntOverflow
      | _ => NotInt
      end
  | (None, _) => NotInt
  end.

Definition parse_bool (cell : string) : option bool :=
  if existsb (String.eqb cell) ["True"; "TRUE"; "true"] then Some true
  else if existsb (String.eqb cell) ["False"; "FALSE"; "false"] then Some false
  else None.

Definition int_of_token (cell : string) : option Z :=
  match parse_int64 cell with IntOk n => Some n | _ => None end.

Definition int_like (cell : string) : bool :=
  match parse_int64 cell with NotInt => false | _ => true end.

Definition float_of_cell (cell : string) : option float :=
  if is_na cell then Some PrimFloat.nan else f64_parse cell.

Definition obj_of_cell (bools : bool) (cell : string) : pyval :=
  if is_na cell then PFloat PrimFloat.nan
  else match parse_bool cell with
       | Some b => if bools then PBool b else PStr cell
       | None => PStr cell
       end.

(** dtype inference for one column, in the reader's order of attempts:
    int64, float64, bool, object. *)
Definition infer_column (cells : list string) : result Series :=
  match cells with
  | [] => Ok (SObject [])
  | _ =>
      let present := List.filter (fun c => negb (is_na c)) cells in
      match present with
      | [] => Ok (SFloat64 (map (fun _ => PrimFloat.nan) cells))
      | _ =>
          if forallb int_like present
             && negb (forallb (fun c => match parse_int64 c with IntOk _ => true | _ => false end) present)
          then Raise (Unsupported "integer token beyond int64")
          else
            match all_some int_of_token cells with
            | Some l => Ok (SInt64 l)
            | None =>
                match all_some float_of_cell cells with
                | Some l => Ok (SFloat64 l)
                | None =>
                    match all_some parse_bool cells with
                    | Some l => Ok (SBool l)
                    | None =>
                        let bools :=
                          forallb (fun c => match parse_bool c with Some _ => true | None => false end)
                                  present in
                        Ok (SObject (map (obj_of_cell bools) cells))
                    end
                end
            end
      end
  end.

(** Date columns ([parse_dates]): ISO 8601 text, as [to_csv] writes it. *)
Definition parse_ymd (s : string) : option Z :=
  if (String.length s =? 10)%nat
     && String.eqb (substring 4 1 s) "-" && String.eqb (substring 7 1 s) "-"
  then
    match read_nat (substring 0 4 s), read_nat (substring 5 2 s), read_nat (substring 8 2 s) with
    | Some y, Some m, Some d =>
        if (1 <=? y) && (1 <=? m) && (m <=? 12) && (1 <=? d) && (d <=? days_in_month y m)
        then Some (ymd2ord y m d) else None
    | _, _, _ => None
    end
  else None.

Definition parse_hms (s : string) : option Z :=
  if (String.length s =? 8)%nat
     && String.eqb (substring 2 1 s) ":" && String.eqb (substring 5 1 s) ":"
  then
    match read_nat (substring 0 2 s), read_nat (substring 3 2 s), read_nat (substring 6 2 s) with
    | Some h, Some m, Some sec =>
        if (h <? 24) && (m <? 60) && (sec <? 60)
        then Some ((h * 3600 + m * 60 + sec) * 1000000000) else None
    | _, _, _ => None
    end
  else None.

Definition parse_fraction (s : string) : option Z :=
  match s with
  | EmptyString => Some 0
  | String "." digits =>
      let k := String.length digits in
      if (k <=? 9)%nat then
        match read_nat digits with
        | Some v => Some (v * 10 ^ Z.of_nat (9 - k))
        | None => None
        end
      else None
  | _ => None
  end.

Definition parse_time (s : string) : option Z :=
  match s with
  | EmptyString => Some 0
  | String sep r =>
      if Ascii.eqb sep " " || Ascii.eqb sep "T" then
        match parse_hms (substring 0 8 r),
              parse_fraction (substring 8 (String.length r - 8) r) with
        | Some t, Some f => Some (t + f)
        | _, _ => None
        end
      else None
  end.

Definition parse_iso (s : string) : option Z :=
  match parse_ymd (substring 0 10 s), parse_time (substring 10 (String.length s - 10) s) with
  | Some o, Some t =>
      let ns := (o - EPOCH_ORDINAL) * NS_PER_DAY + t in
      if ts_in_bounds ns then Some ns else None
  | _, _ => None
  end.

Definition date_of_cell (cell : string) : result (option Z) :=
  if is_na cell then Ok None
  else match parse_iso cell with
       | Some ns => Ok (Some ns)
       | None => Raise (Unsupported "date text outside the ISO forms or the Timestamp range")
       end.

Definition parse_date_column (cells : list string) : result Series :=
  rbind (rmap date_of_cell cells) (fun l => Ok (SDatetime l)).

(** Cell [i] of every data line; a short line reads as missing cells. *)
Definition column_cells (i : nat) (rows : list (list string)) : list string :=
  map (fun r => nth i r "") rows.

Definition mem_str (k : string) (l : list string) : bool := existsb (String.eqb k) l.

Fixpoint has_dup (l : list string) : bool :=
  match l with
  | [] => false
  | k :: l' => mem_str k l' || has_dup l'
  end.

Fixpoint read_columns (names : list string) (i : nat) (rows : list (list string))
    (parse_dates : list string) : result DataFrame :=
  match names with
  | [] => Ok []
  | k :: names' =>
      rbind (if mem_str k parse_dates
             then parse_date_column (column_cells i rows)
             else infer_column (column_cells i rows))
        (fun s => rbind (read_columns names' (S i) rows parse_dates)
                    (fun d => Ok ((k, s) :: d)))
  end.

(** [pd.read_csv(file, parse_dates=...)] on the content of a file. *)
Definition read_csv (f : csv_file) (parse_dates : list string) : result DataFrame :=
  match f with
  | [] => Raise EmptyDataError
  | [] :: _ => Raise EmptyDataError
  | header :: rows =>
      if has_dup header then Raise (Unsupported "duplicate column names")
      else if negb (forallb (fun k => mem_str k header) parse_dates)
      then Raise (ValueError "Missing column provided to 'parse_dates'")
      else if negb (forallb (fun r => (length r <=? length header)%nat) rows)
      then Raise ParserError
      else read_columns header 0 rows parse_dates
  end.

End WithFloats.
End Csv.

(** ** Frame concatenation and grouping *)

Section Frames.
Context `{Float64Lib}.

Definition missing_like (s : Series) (n : nat) : Series :=
  match s with
  | SObject _ => SObject (repeat (PFloat PrimFloat.nan) n)
  | SInt64 _ => SFloat64 (repeat PrimFloat.nan n)
  | SFloat64 _ => SFloat64 (repeat PrimFloat.nan n)
  | SBool _ => SObject (repeat (PFloat PrimFloat.nan) n)
  | SDatetime _ => SDatetime (repeat None n)
  end.

(** One column of [pd.concat]: a piece without rows has no say in the dtype;
    equal dtypes are kept; int64 meets float64 in float64; any other mix
    becomes an object column of the boxed values. *)
Definition concat_series (a b : Series) : Series :=
  if (series_len a =? 0)%nat then b
  else if (series_len b =? 0)%nat then a
  else
    match a, b with
    | SObject x, SObject y => SObject (x ++ y)%list
    | SInt64 x, SInt64 y => SInt64 (x ++ y)%list
    | SFloat64 x, SFloat64 y => SFloat64 (x ++ y)%list
    | SBool x, SBool y => SBool (x ++ y)%list
    | SDatetime x, SDatetime y => SDatetime (x ++ y)%list
    | SInt64 x, SFloat64 y => SFloat64 (map Z_to_f64 x ++ y)%list
    | SFloat64 x, SInt64 y => SFloat64 (x ++ map Z_to_f64 y)%list
    | _, _ => SObject (series_values a ++ series_values b)%list
    end.

(** [pd.concat([a, b], ignore_index=True)]: the columns of [a], then those
    only [b] has; a column one frame lacks is missing on that frame's rows. *)
Definition concat (a b : DataFrame) : DataFrame :=
  (map (fun kc =>
          match get_col (fst kc) b with
          | Some sb => (fst kc, concat_series (snd kc) sb)
          | None => (fst kc, concat_series (snd kc) (missing_like (snd kc) (nrows b)))
          end) a
   ++ map (fun kc => (fst kc, concat_series (missing_like (snd kc) (nrows a)) (snd kc)))
        (List.filter (fun kc => negb (Csv.mem_str (fst kc) (columns a))) b))%list.

(** Sorted, duplicate-free keys. *)
Fixpoint insert_uniq (k : Z) (l : list Z) : list Z :=
  match l with
  | [] => [k]
  | x :: r =>
      if k <? x then k :: l
      else if k =? x then l
      else x :: insert_uniq k r
  end.

Definition sorted_keys (keys : list (option Z)) : list Z :=
  fold_right (fun o acc => match o with Some k => insert_uniq k acc | None => acc end)
             [] keys.

(** The values of the rows whose key is [k], in row order. *)
Fixpoint group_values {A} (k : Z) (keys : list (option Z)) (xs : list A) : list A :=
  match keys, xs with
  | Some k' :: keys', x :: xs' =>
      if k' =? k then x :: group_values k keys' xs' else group_values k keys' xs'
  | None :: keys', _ :: xs' => group_values k keys' xs'
  | _, _ => []
  end.

Definition not_nan (f : float) : bool := negb (PrimFloat.is_nan f).

Definition sum_Z (l : list Z) : Z := fold_left Z.add l 0.

(** [df.groupby(key)[value].sum().reset_index()] for a datetime key: one row
    per distinct key, keys ascending, rows with a missing key left out,
    missing values skipped in the sums. *)
Definition groupby_sum (d : DataFrame) (key value : string) : result DataFrame :=
  match get_col key d with
  | None => Raise (KeyError key)
  | Some (SDatetime keys) =>
      let ks := sorted_keys keys in
      match get_col value d with
      | None => Raise (KeyError value)
      | Some (SFloat64 xs) =>
          Ok [(key, SDatetime (map Some ks));
              (value, SFloat64 (map (fun k => f64_sum (List.filter not_nan (group_values k keys xs))) ks))]
      | Some (SInt64 xs) =>
          Ok [(key, SDatetime (map Some ks));
              (value, SInt64 (map (fun k => sum_Z (group_values k keys xs)) ks))]
      | Some _ => Raise (Unsupported "groupby sum over a non-numeric column")
      end
  | Some _ => Raise (Unsupported "grouping by a non-datetime key")
  end.

End Frames.

(** ** The world the script runs in *)

Definition loc : Type := positive.

(** What the next write to the disk will meet. *)
Inductive disk : Type :=
| DiskOk
| PermissionDenied               (* the file cannot be opened for writing *)
| DiskFull (written : nat).      (* the device fills up after so many lines *)

Inductive ui_event : Type :=
| SidebarError (msg : string)
| SidebarSuccess (msg : string)
| SidebarDownload (data : csv_file) (file_name : string)
| StError (msg : string)
| StSuccess (msg : string)
| StInfo (msg : string)
| StDataframe (d : DataFrame) (sorted_by : string)
| StMetric (label : string) (value : Z)
| StPie (d : DataFrame) (names : string)
| StBar (d : DataFrame) (x y : string).

Record world : Type := mkWorld {
  w_heap : gmap loc DataFrame;     (* live DataFrame objects *)
  w_fs : gmap string csv_file;     (* files by path *)
  w_cache : gmap string DataFrame; (* st.cache_data entries of load_data, by argument *)
  w_today : Z;                     (* date.today() *)
  w_uuid : nat -> string;          (* the values uuid.uuid4() will draw *)
  w_drawn : nat;
  w_disk : disk;
  w_ui : list ui_event             (* what was rendered, oldest first *)
}.

Definition with_heap (h : gmap loc DataFrame) (w : world) : world :=
  mkWorld h (w_fs w) (w_cache w) (w_today w) (w_uuid w) (w_drawn w) (w_disk w) (w_ui w).
Definition with_fs (fs : gmap string csv_file) (w : world) : world :=
  mkWorld (w_heap w) fs (w_cache w) (w_today w) (w_uuid w) (w_drawn w) (w_disk w) (w_ui w).
Definition with_cache (c : gmap string DataFrame) (w : world) : world :=
  mkWorld (w_heap w) (w_fs w) c (w_today w) (w_uuid w) (w_drawn w) (w_disk w) (w_ui w).
Definition with_drawn (n : nat) (w : world) : world :=
  mkWorld (w_heap w) (w_fs w) (w_cache w) (w_today w) (w_uuid w) n (w_disk w) (w_ui w).
Definition with_ui (ui : list ui_event) (w : world) : world :=
  mkWorld (w_heap w) (w_fs w) (w_cache w) (w_today w) (w_uuid w) (w_drawn w) (w_disk w) ui.

(** State and exceptions: a raised exception keeps the state reached. *)
Definition M (A : Type) : Type := world -> result A * world.

Definition ret {A} (a : A) : M A := fun w => (Ok a, w).
Definition raise {A} (e : exn) : M A := fun w => (Raise e, w).
Definition bind {A B} (m : M A) (k : A -> M B) : M B :=
  fun w => match m w with
           | (Ok a, w') => k a w'
           | (Raise e, w') => (Raise e, w')
           end.
Definition lift {A} (r : result A) : M A := fun w => (r, w).

#[global] Instance M_ret : MRet M := @ret.
#[global] Instance M_bind : MBind M := fun A B k m => bind m k.

Fixpoint mapM {A B} (f : A -> M B) (l : list A) : M (list B) :=
  match l with
  | [] => ret []
  | x :: l' => y ← f x; ys ← mapM f l'; ret (y :: ys)
  end.

(** Heap access.  A reference always designates a live object; the
    [Unsupported] branch is never taken from a well-formed state. *)
Definition deref (l : loc) : M DataFrame :=
  fun w => match w_heap w !! l with
           | Some d => (Ok d, w)
           | None => (Raise (Unsupported "dangling reference"), w)
           end.

Definition alloc (d : DataFrame) : M loc :=
  fun w => let l := fresh (dom (w_heap w)) in
           (Ok l, with_heap (<[l := d]> (w_heap w)) w).

Definition store (l : loc) (d : DataFrame) : M unit :=
  fun w => (Ok tt, with_heap (<[l := d]> (w_heap w)) w).

Definition emit (e : ui_event) : M unit :=
  fun w => (Ok tt, with_ui (w_ui w ++ [e])%list w).

(** [df.copy()]: a new object with the same columns. *)
Definition df_copy (df : loc) : M loc := d ← deref df; alloc d.

(** [df[name]]. *)
Definition getitem (df : loc) (name : string) : M Series :=
  d ← deref df;
  match get_col name d with
  | Some s => ret s
  | None => raise (KeyError name)
  end.

(** [df[name] = s], for a column [s] computed from [df]'s own rows. *)
Definition setitem (df : loc) (name : string) (s : Series) : M unit :=
  d ← deref df;
  if (series_len s =? nrows d)%nat then store df (set_col name s d)
  else raise (Unsupported "assignment of a column of another length").

(** [date.today()]. *)
Definition date_today : M Z := fun w => (Ok (w_today w), w).

(** [series.apply(f)]. *)
Definition series_apply (f : pyval -> M pyval) (s : Series) : M Series :=
  vs ← mapM f (series_values s); ret (infer_objects vs).

(** ** index.py *)

Section Script.
Context `{Float64Lib}.
Import PyStr.

Definition DATA_PATH : string := "abonnements.csv".

Definition DEFAULT_SUBS : list (string * option Z) :=
  [("Mensuel (30j)", Some 30);
   ("Trimestriel (90j)", Some 90);
   ("Semestriel (180j)", Some 180);
   ("Annuel (365j)", Some 365);
   ("Personnalisé…", None)].

Definition COLUMNS : list string :=
  ["ID"; "Nom"; "Telephone"; "Abonnement"; "DureeJours"; "Montant"; "Debut";
   "Expiration"; "Remarques"].

(** [def gen_id(): return str(uuid.uuid4())] *)
Definition gen_id : M string :=
  fun w => (Ok (w_uuid w (w_drawn w)), with_drawn (S (w_drawn w)) w).

(** The body of [load_data], before the decorator. *)
Definition load_data_body (path : string) : M DataFrame :=
  fun w => match w_fs w !! path with
           | Some f => (Csv.read_csv f ["Debut"; "Expiration"], w)
           | None => (Ok (empty_frame COLUMNS), w)
           end.

(** [@st.cache_data]: the first call with an argument runs the function and
    keeps its value; later calls hand out a fresh copy of the kept value. *)
Definition st_cache_data (f : string -> M DataFrame) (arg : string) : M loc :=
  fun w => match w_cache w !! arg with
           | Some d => alloc d w
           | None =>
               match f arg w with
               | (Ok d, w') => alloc d (with_cache (<[arg := d]> (w_cache w')) w')
               | (Raise e, w') => (Raise e, w')
               end
           end.

Definition load_data : string -> M loc := st_cache_data load_data_body.

(** [st.cache_data.clear()] *)
Definition st_cache_data_clear : M unit := fun w => (Ok tt, with_cache ∅ w).

(** [df.to_csv(path, index=False)]: opens [path] for writing, which truncates
    it, then writes the lines. *)
Definition to_csv_path (d : DataFrame) (path : string) : M unit :=
  fun w => match w_disk w with
           | DiskOk => (Ok tt, with_fs (<[path := Csv.to_csv d]> (w_fs w)) w)
           | PermissionDenied => (Raise OSError, w)
           | DiskFull n =>
               (Raise OSError, with_fs (<[path := take n (Csv.to_csv d)]> (w_fs w)) w)
           end.

Definition save_data (df : loc) (path : string) : M unit :=
  d ← deref df;
  to_csv_path d path;;
  st_cache_data_clear.

Definition status_for (exp_date : pyval) (warn_days : Z) : M pyval :=
  today ← date_today;
  expired ← lift (py_lt exp_date (PDate today));
  if expired : bool then ret (PStr "❌ Expiré")
  else
    delta ← lift (Calendar.timedelta warn_days);
    limit ← lift (Calendar.date_add today delta);
    soon ← lift (py_le exp_date (PDate limit));
    if soon : bool then ret (PStr "⏳ Bientôt") else ret (PStr "✅ Actif").

Definition df_with_status (df : loc) (warn_days : Z) : M loc :=
  df2 ← df_copy df;
  d2 ← deref df2;
  if empty d2 then ret df2
  else
    today ← date_today;
    exp ← getitem df2 "Expiration";
    dates ← lift (dt_date exp);
    statut ← series_apply (fun d => status_for d warn_days) dates;
    setitem df2 "Statut" statut;;
    exp ← getitem df2 "Expiration";
    dates ← lift (dt_date exp);
    deltas ← lift (series_sub dates (PDate today));
    jours ← series_apply (fun x => lift (py_days x)) deltas;
    setitem df2 "JoursRestants" jours;;
    ret df2.

(** The sidebar widgets' values in one run of the page. *)
Record form : Type := mkForm {
  abo_choice : string;      (* selectbox over the keys of DEFAULT_SUBS *)
  duree_custom : Z;         (* number_input, min_value=1 *)
  nom : string;
  tel : string;
  montant : float;          (* number_input, min_value=0.0 *)
  debut : Z;                (* date_input: a date *)
  rem : string;
  enregistrer : bool;       (* the button was pressed *)
  warn_days : Z             (* slider 1..30 *)
}.

Fixpoint dict_get {V} (k : string) (d : list (string * V)) : result V :=
  match d with
  | [] => Raise (KeyError k)
  | (k', v) :: d' => if String.eqb k' k then Ok v else dict_get k d'
  end.

(** [DEFAULT_SUBS[abo_choice] if DEFAULT_SUBS[abo_choice] else number_input(...)] *)
Definition duree_of (f : form) : result Z :=
  rbind (dict_get (abo_choice f) DEFAULT_SUBS)
    (fun v => match v with
              | Some n => if n =? 0 then Ok (duree_custom f) else Ok n
              | None => Ok (duree_custom f)
              end).

(** [pd.DataFrame([{...}])]: one row, each column typed by its value. *)
Definition frame_of_record (r : list (string * pyval)) : DataFrame :=
  map (fun kv => (fst kv, infer_objects [snd kv])) r.

Definition new_row (f : form) (duree : Z) : M DataFrame :=
  id ← gen_id;
  start ← lift (Calendar.to_datetime (debut f));
  start' ← lift (Calendar.to_datetime (debut f));
  delta ← lift (Calendar.timedelta duree);
  expiration ← lift (Calendar.ts_add_days start' delta);
  ret (frame_of_record
         [("ID", PStr id);
          ("Nom", PStr (strip (nom f)));
          ("Telephone", PStr (strip (tel f)));
          ("Abonnement", PStr (abo_choice f));
          ("DureeJours", PInt duree);
          ("Montant", PFloat (montant f));
          ("Debut", PTimestamp start);
          ("Expiration", PTimestamp expiration);
          ("Remarques", PStr (strip (rem f)))]).

(** The body of [if st.sidebar.button("✅ Enregistrer"):]; returns the
    object the global [df] designates afterwards. *)
Definition on_enregistrer (df : loc) (f : form) (duree : Z) : M loc :=
  if negb (truthy (strip (nom f))) then
    emit (SidebarError "⚠️ Le nom est obligatoire");;
    ret df
  else
    row ← new_row f duree;
    d ← deref df;
    df' ← alloc (concat d row);
    save_data df' DATA_PATH;;
    emit (SidebarSuccess "🎉 Abonnement ajouté avec succès");;
    ret df'.

(** [str(v)] inside an f-string. *)
Definition py_str (v : pyval) : string :=
  match v with
  | PFloat f => if PrimFloat.is_nan f then "nan" else f64_repr f
  | PNaT => "NaT"
  | _ => Csv.cell_of_obj v
  end.

Definition row_item (d : DataFrame) (i : nat) (name : string) : result pyval :=
  match get_col name d with
  | None => Raise (KeyError name)
  | Some s =>
      match nth_error (series_values s) i with
      | Some v => Ok v
      | None => Raise (Unsupported "row index out of range")
      end
  end.

Definition ts_date_method (v : pyval) : result pyval :=
  match v with
  | PTimestamp ns => Ok (PDate (Calendar.ts_date ns))
  | _ => Raise (Unsupported "date() of a value that is not a Timestamp")
  end.

Definition str_contains (needle : string) (v : pyval) : result bool :=
  match v with
  | PStr s => Ok (contains needle s)
  | _ => Raise (TypeError "argument of this type is not iterable")
  end.

(** One turn of the notification loop: the alert of row [i], if any. *)
Definition alert_of_row (d : DataFrame) (i : nat) : result (option (pyval * string * string)) :=
  rbind (row_item d i "Statut") (fun st =>
  rbind (str_contains "Expiré" st) (fun expired =>
  if expired then
    rbind (row_item d i "Nom") (fun n =>
    rbind (rbind (row_item d i "Expiration") ts_date_method) (fun e =>
    Ok (Some (n, "Expiré le " +:+ py_str e, "❌"))))
  else
    rbind (row_item d i "Statut") (fun st' =>
    rbind (str_contains "Bientôt" st') (fun soon =>
    if soon then
      rbind (row_item d i "Nom") (fun n =>
      rbind (row_item d i "JoursRestants") (fun j =>
      rbind (rbind (row_item d i "Expiration") ts_date_method) (fun e =>
      Ok (Some (n, "Expire dans " +:+ py_str j +:+ " jours (" +:+ py_str e +:+ ")", "⏳")))))
    else Ok None)))).

Definition notifications (df_status : loc) : M unit :=
  d ← deref df_status;
  found ← lift (rmap (alert_of_row d) (seq 0 (nrows d)));
  match omap id found with
  | [] => emit (StSuccess "✅ Aucun abonnement expiré ou proche d’expiration.")
  | alerts =>
      mapM (fun a => match a with
                     | (n, msg, icon) =>
                         emit (StError (icon +:+ " **" +:+ py_str n +:+ "** — " +:+ msg))
                     end) alerts;;
      ret tt
  end.

Definition tableau (df_status : loc) : M unit :=
  d ← deref df_status;
  if empty d then emit (StInfo "Aucun enregistrement pour le moment.")
  else emit (StDataframe d "Expiration").

(** The four metrics of the statistics row. *)
Definition stats (df_status : loc) : M unit :=
  d ← deref df_status;
  emit (StMetric "Total abonnements" (Z.of_nat (nrows d)));;
  s ← getitem df_status "Statut";
  emit (StMetric "Actifs" (count_eq_str s "✅ Actif"));;
  s ← getitem df_status "Statut";
  emit (StMetric "Bientôt expirés" (count_eq_str s "⏳ Bientôt"));;
  s ← getitem df_status "Statut";
  emit (StMetric "Expirés" (count_eq_str s "❌ Expiré")).

(** Lines 127-128: the month column, then revenue per month. *)
Definition revenue_by_month (df_status : loc) : M DataFrame :=
  start ← getitem df_status "Debut";
  mois ← lift (dt_month_start start);
  setitem df_status "Mois" mois;;
  d ← deref df_status;
  lift (groupby_sum d "Mois" "Montant").

Definition charts (df_status : loc) : M unit :=
  d ← deref df_status;
  if empty d then ret tt
  else
    emit (StPie d "Statut");;
    g ← revenue_by_month df_status;
    emit (StBar g "Mois" "Montant").

(** One run of the page, top to bottom. *)
Definition page (f : form) : M unit :=
  df ← load_data DATA_PATH;
  duree ← lift (duree_of f);
  df ← (if enregistrer f then on_enregistrer df f duree else ret df);
  d ← deref df;
  emit (SidebarDownload (Csv.to_csv d) "abonnements.csv");;
  df_status ← df_with_status df (warn_days f);
  notifications df_status;;
  tableau df_status;;
  stats df_status;;
  charts df_status.

End Script.

(** ** A reference instance of the float64 text interface

    Shortest round-trip printing (what [repr] of a Python float shows),
    correctly rounded reading of decimal numerals, and left-to-right float64
    addition.  It serves the concrete runs below. *)

Module RefFloat.
Import PyStr.

(** A positive rational [num / den], [den > 0]. *)
Definition qle (a b c d : Z) : bool := a * d <=? c * b.   (* a/b <= c/d *)
Definition qlt (a b c d : Z) : bool := a * d <? c * b.

(** [c * 10^q] as a fraction. *)
Definition dec_num (c q : Z) : Z := if 0 <=? q then c * 10 ^ q else c.
Definition dec_den (q : Z) : Z := if 0 <=? q then 1 else 10 ^ (- q).

(** floor (log10 (n/d)), by correcting an estimate from the bit lengths. *)
Fixpoint adjust_up (fuel : nat) (n d p : Z) : Z :=
  match fuel with
  | O => p
  | S fuel' =>
      if qle (dec_num 1 (p + 1)) (dec_den (p + 1)) n d then adjust_up fuel' n d (p + 1) else p
  end.

Fixpoint adjust_down (fuel : nat) (n d p : Z) : Z :=
  match fuel with
  | O => p
  | S fuel' =>
      if qlt n d (dec_num 1 p) (dec_den p) then adjust_down fuel' n d (p - 1) else p
  end.

Definition floor_log10 (n d : Z) : Z :=
  let est := (Z.log2 n - Z.log2 d) * 30103 / 100000 in
  adjust_up 4 n d (adjust_down 4 n d est).

(** The rounding interval of the float [m * 2^e] and the float itself, as
    fractions over a common denominator: (low, value, high, den). *)
Definition interval (m e : Z) : Z * Z * Z * Z :=
  let boundary := (m =? 2 ^ 52) && (-1074 <? e) in
  let lo := if boundary then 4 * m - 1 else 4 * m - 2 in
  let hi := 4 * m + 2 in
  let e' := e - 2 in
  if 0 <=? e' then (lo * 2 ^ e', 4 * m * 2 ^ e', hi * 2 ^ e', 1)
  else (lo, 4 * m, hi, 2 ^ (- e')).

Definition inside (even : bool) (lo hi den cn cd : Z) : bool :=
  if even then qle lo den cn cd && qle cn cd hi den
  else qlt lo den cn cd && qlt cn cd hi den.

(** With [n] digits: the decimal [c * 10^q] nearest the float, if it reads
    back as the float. *)
Definition candidate (m e p : Z) (n : Z) : option (Z * Z) :=
  let '(lo, v, hi, den) := interval m e in
  let q := p - n + 1 in
  let c := (v * dec_den q) / (den * dec_num 1 q) in
  let ok c := inside (Z.even m) lo hi den (dec_num c q) (dec_den q) in
  (* twice the distance of v to c and to c+1, over one denominator *)
  let below := 2 * (v * dec_den q) - 2 * c * (den * dec_num 1 q) in
  let step := 2 * (den * dec_num 1 q) in
  let prefer_up := (step - below <? below) || ((step - below =? below) && Z.odd c) in
  if ok (c + 1) && (prefer_up || negb (ok c)) then Some (c + 1, q)
  else if ok c then Some (c, q)
  else None.

Fixpoint shortest (fuel : nat) (m e p n : Z) : Z * Z :=
  match fuel with
  | O => (m, 0)
  | S fuel' =>
      match candidate m e p n with
      | Some cq => cq
      | None => shortest fuel' m e p (n + 1)
      end
  end.

Fixpoint strip_zeros (fuel : nat) (c q : Z) : Z * Z :=
  match fuel with
  | O => (c, q)
  | S fuel' => if (c mod 10 =? 0) && negb (c =? 0) then strip_zeros fuel' (c / 10) (q + 1) else (c, q)
  end.

Fixpoint zeros (n : nat) : string :=
  match n with O => EmptyString | S n' => String "0" (zeros n') end.

(** The layout rules of [repr]: plain notation when the decimal point falls
    within -4 < decpt <= 16, exponent notation otherwise. *)
Definition layout (ds : string) (decpt : Z) : string :=
  let len := Z.of_nat (String.length ds) in
  if (decpt <? -3) || (16 <? decpt) then
    let ex := decpt - 1 in
    let mant :=
      match ds with
      | String d EmptyString => String d EmptyString
      | String d r => String d (String "." r)
      | EmptyString => EmptyString
      end in
    mant +:+ "e" +:+ (if ex <? 0 then "-" else "+") +:+ zfill 2 (Z.abs ex)
  else if decpt <=? 0 then "0." +:+ zeros (Z.to_nat (- decpt)) +:+ ds
  else if len <=? decpt then ds +:+ zeros (Z.to_nat (decpt - len)) +:+ ".0"
  else substring 0 (Z.to_nat decpt) ds +:+ "."
       +:+ substring (Z.to_nat decpt) (Z.to_nat (len - decpt)) ds.

Definition repr (f : float) : string :=
  match Prim2SF f with
  | S754_nan => "nan"
  | S754_infinity s => if s then "-inf" else "inf"
  | S754_zero s => if s then "-0.0" else "0.0"
  | S754_finite s m e =>
      let '(lo, v, hi, den) := interval (Zpos m) e in
      let p := floor_log10 v den in
      let '(c, q) := shortest 17 (Zpos m) e p 1 in
      let '(c, q) := strip_zeros 17 c q in
      let ds := str_nat c in
      (if s then "-" else "") +:+ layout ds (q + Z.of_nat (String.length ds))
  end.

(** Reading: [sign digits [. digits] [e sign digits]], rounded to nearest. *)
Fixpoint split_at_char (sep : ascii) (s : string) : string * option string :=
  match s with
  | EmptyString => (EmptyString, None)
  | String c r =>
      if Ascii.eqb c sep then (EmptyString, Some r)
      else let '(a, b) := split_at_char sep r in (String c a, b)
  end.

Definition read_signed (s : string) : option Z :=
  match s with
  | String "-" r => option_map Z.opp (read_nat r)
  | String "+" r => read_nat r
  | _ => read_nat s
  end.

Fixpoint lower_e (s : string) : string :=
  match s with
  | EmptyString => EmptyString
  | String c r => String (if Ascii.eqb c "E" then "e"%char else c) (lower_e r)
  end.

Definition round_ratio (neg : bool) (n d : Z) : float :=
  match n with
  | Zpos _ =>
      let s := 64 + Z.log2_up d in
      let q := (n * 2 ^ s) / d in
      let sticky := if (n * 2 ^ s) mod d =? 0 then 0 else 1 in
      match (2 * q + sticky)%Z with
      | Zpos mm => SF2Prim (binary_round prec emax neg mm (- (s + 1)))
      | _ => if neg then (-0)%float else 0%float
      end
  | _ => if neg then (-0)%float else 0%float
  end.

Definition parse (s : string) : option float :=
  let '(neg, body) :=
    match s with
    | String "-" r => (true, r)
    | String "+" r => (false, r)
    | _ => (false, s)
    end in
  let '(mant, ex) := split_at_char "e" (lower_e body) in
  let '(ip, fp) := split_at_char "." mant in
  let fp := match fp with Some x => x | None => EmptyString end in
  let digits := ip +:+ fp in
  match read_nat digits, (match ex with Some x => read_signed x | None => Some 0 end) with
  | Some m, Some e10 =>
      let e := e10 - Z.of_nat (String.length fp) in
      Some (round_ratio neg (dec_num m e) (dec_den e))
  | _, _ => None
  end.

Definition sum (l : list float) : float := fold_left PrimFloat.add l 0%float.

#[export] Instance lib : Float64Lib :=
  {| f64_repr := repr; f64_parse := parse; f64_sum := sum |}.

End RefFloat.

(** * The vocabulary of the statements *)

(** ** Statuses *)

(** The three statuses of the specification. *)
Inductive Status : Type := Active | ExpiringSoon | Expired.

(** The text the script uses for each status. *)
Definition label (s : Status) : string :=
  match s with
  | Active => "✅ Actif"
  | ExpiringSoon => "⏳ Bientôt"
  | Expired => "❌ Expiré"
  end.

(** The rule as the specification words it, over day ordinals. *)
Definition spec_status (expirationDate warnDays today : Z) : Status :=
  if expirationDate <? today then Expired
  else if expirationDate <=? today + warnDays then ExpiringSoon
  else Active.

(** [today + timedelta(days=warnDays)] denotes a date. *)
Definition window_ok (today warnDays : Z) : Prop :=
  - Calendar.MAX_DELTA_DAYS <= warnDays <= Calendar.MAX_DELTA_DAYS
  /\ 1 <= today + warnDays <= Calendar.MAXORDINAL.

(** The [Statut] cell of a record that expires at the instant [ns]. *)
Definition status_cell (warn today ns : Z) : pyval :=
  PStr (label (spec_status (Calendar.ts_date ns) warn today)).

(** The [JoursRestants] cell of a record that expires at the instant [ns]. *)
Definition days_remaining (today ns : Z) : Z := Calendar.ts_date ns - today.

(** The frame [df_with_status] builds from a non-empty frame whose
    [Expiration] column holds timestamps. *)
Definition annotated (d : DataFrame) (warn today : Z) (exps : list Z) : DataFrame :=
  set_col "JoursRestants" (SInt64 (map (days_remaining today) exps))
    (set_col "Statut" (SObject (map (status_cell warn today) exps)) d).

(** Equality of statuses, as a test. *)
Definition status_eqb (a b : Status) : bool :=
  match a, b with
  | Active, Active | ExpiringSoon, ExpiringSoon | Expired, Expired => true
  | _, _ => false
  end.

(** How many of the records expiring at the instants [exps] have status [s]:
    the specification's count by status. *)
Definition count_status (s : Status) (warn today : Z) (exps : list Z) : Z :=
  Z.of_nat (length (List.filter
                      (fun ns => status_eqb (spec_status (Calendar.ts_date ns) warn today) s)
                      exps)).

(** The order in which a record goes through the statuses. *)
Definition status_rank (s : Status) : nat :=
  match s with Active => 0 | ExpiringSoon => 1 | Expired => 2 end.

(** ** Frames and columns *)

(** Every column has as many cells as the frame has rows. *)
Definition rectangular (d : DataFrame) : Prop :=
  Forall (fun kc => series_len (snd kc) = nrows d) d.

(** Every timestamp of the column can be held by a [Timestamp]. *)
Definition in_bounds (vs : list (option Z)) : Prop :=
  List.Forall (fun o => match o with Some ns => Calendar.ts_in_bounds ns = true | None => True end) vs.

(** The amounts of the records that start in the month beginning at [m], in
    record order: the specification's grouping. *)
Definition amounts_of_month (m : Z) (debuts : list Z) (amounts : list float) : list float :=
  map snd (List.filter (fun p => Calendar.month_start (fst p) =? m) (combine debuts amounts)).

(** ** Relations between worlds *)

(** Computations all of whose steps stay within a reflexive, transitive
    relation between worlds, whether they return or raise. *)
Definition respects (R : world -> world -> Prop) {A} (m : M A) : Prop :=
  forall w, R w (snd (m w)).

(** [w2] is [w1] except, possibly, for the object at [l]. *)
Definition only_at (l : loc) (w1 w2 : world) : Prop :=
  (forall l', l' <> l -> w_heap w2 !! l' = w_heap w1 !! l')
  /\ w_fs w2 = w_fs w1 /\ w_cache w2 = w_cache w1 /\ w_today w2 = w_today w1
  /\ w_uuid w2 = w_uuid w1 /\ w_drawn w2 = w_drawn w1 /\ w_disk w2 = w_disk w1
  /\ w_ui w2 = w_ui w1.

(** A computation that touches nothing but the object at [l]. *)
Definition local_to (l : loc) {A} (m : M A) : Prop := respects (only_at l) m.

(** From [w1] to [w2] no file was written, and the display only got more
    elements at its end. *)
Definition shows_only (w1 w2 : world) : Prop :=
  w_fs w2 = w_fs w1 /\ exists more, w_ui w2 = (w_ui w1 ++ more)%list.

(** A computation that writes no file and only adds to the display. *)
Definition reads_only {A} (m : M A) : Prop := respects shows_only m.

(** ** Parts of the script *)

(** What [df_with_status] runs once the copy exists. *)
Definition annotate_copy (df2 : loc) (warn_days : Z) : M loc :=
  d2 ← deref df2;
  if empty d2 then ret df2
  else
    today ← date_today;
    exp ← getitem df2 "Expiration";
    dates ← lift (dt_date exp);
    statut ← series_apply (fun d => status_for d warn_days) dates;
    setitem df2 "Statut" statut;;
    exp ← getitem df2 "Expiration";
    dates ← lift (dt_date exp);
    deltas ← lift (series_sub dates (PDate today));
    jours ← series_apply (fun x => lift (py_days x)) deltas;
    setitem df2 "JoursRestants" jours;;
    ret df2.

Section PageParts.
Context `{Float64Lib}.

(** The page below the sidebar form: everything from the download button
    down, for the frame [df] the form left. *)
Definition render (df : loc) (warn : Z) : M unit :=
  d ← deref df;
  emit (SidebarDownload (Csv.to_csv d) "abonnements.csv");;
  df_status ← df_with_status df warn;
  notifications df_status;;
  tableau df_status;;
  stats df_status;;
  charts df_status.

(** The one-row frame of a new record, given the drawn identifier. *)
Definition created_row (f : form) (duree : Z) (id : string) : DataFrame :=
  let start := (debut f - Calendar.EPOCH_ORDINAL) * Calendar.NS_PER_DAY in
  [("ID", SObject [PStr id]);
   ("Nom", SObject [PStr (PyStr.strip (nom f))]);
   ("Telephone", SObject [PStr (PyStr.strip (tel f))]);
   ("Abonnement", SObject [PStr (abo_choice f)]);
   ("DureeJours", SInt64 [duree]);
   ("Montant", SFloat64 [montant f]);
   ("Debut", SDatetime [Some start]);
   ("Expiration", SDatetime [Some (start + duree * Calendar.NS_PER_DAY)]);
   ("Remarques", SObject [PStr (PyStr.strip (rem f))])].

(** Reading a file: each column of the frame is computed from the cells of
    the column of that name, and from nothing else. *)
Definition read_cells (parse_dates : list string) (k : string) (cells : list string) :
    result Series :=
  if Csv.mem_str k parse_dates then Csv.parse_date_column cells else Csv.infer_column cells.

(** The world after a successful append of [row] to the frame [d]. *)
Definition appended (w : world) (d row : DataFrame) : world :=
  let df' := fresh (dom (w_heap w)) in
  let all := concat d row in
  with_ui (w_ui w ++ [SidebarSuccess "🎉 Abonnement ajouté avec succès"])%list
    (with_cache ∅
       (with_fs (<[DATA_PATH := Csv.to_csv all]> (w_fs w))
          (with_heap (<[df' := all]> (w_heap w))
             (with_drawn (S (w_drawn w)) w)))).

End PageParts.

(** A record is created from the form, then annotated: its status cell and
    its days-remaining cell. *)
Definition created_then_annotated (f : form) (duree warn : Z) : M (option Series * option Series) :=
  row ← new_row f duree;
  df ← alloc row;
  df2 ← df_with_status df warn;
  d ← deref df2;
  ret (get_col "Statut" d, get_col "JoursRestants" d).

(** ** What the page displays *)

Section DisplayTerms.
Context `{Float64Lib}.

(** The alert the notification loop keeps for a record named [name] that
    expires at the instant [ns]: none while the record is active. *)
Definition alert_of (warn today : Z) (name : pyval) (ns : Z) : option (pyval * string * string) :=
  match spec_status (Calendar.ts_date ns) warn today with
  | Expired => Some (name, "Expiré le " +:+ Csv.str_date (Calendar.ts_date ns), "❌")
  | ExpiringSoon =>
      Some (name,
            "Expire dans " +:+ PyStr.str_int (Calendar.ts_date ns - today) +:+ " jours ("
            +:+ Csv.str_date (Calendar.ts_date ns) +:+ ")",
            "⏳")
  | Active => None
  end.

(** What the notification section displays for a list of alerts. *)
Definition alert_events (alerts : list (pyval * string * string)) : list ui_event :=
  match alerts with
  | [] => [StSuccess "✅ Aucun abonnement expiré ou proche d’expiration."]
  | _ => map (fun a => match a with
                       | (n, msg, icon) => StError (icon +:+ " **" +:+ py_str n +:+ "** — " +:+ msg)
                       end) alerts
  end.

(** The alerts of the records with the given names and expirations, in
    record order. *)
Definition alerts_of (warn today : Z) (names : list pyval) (exps : list Z) :
    list (pyval * string * string) :=
  omap (fun p => alert_of warn today (fst p) (snd p)) (combine names exps).

(** The frame of the revenue chart: one row per month in which a record
    starts, with the sum of the amounts of the records that start in it. *)
Definition revenue_frame (debuts : list Z) (amounts : list float) : DataFrame :=
  let months := sorted_keys (map (fun ns => Some (Calendar.month_start ns)) debuts) in
  [("Mois", SDatetime (map Some months));
   ("Montant",
    SFloat64 (map (fun m => f64_sum (List.filter not_nan (amounts_of_month m debuts amounts)))
                  months))].

End DisplayTerms.

(** ** Text cells *)

Section TextTerms.
Context `{Float64Lib}.

(** A cell that can only be text: not a missing-value marker, not an
    integer or floating-point numeral, not a truth value. *)
Definition plain_text (c : string) : Prop :=
  Csv.is_na c = false /\ Csv.parse_int64 c = Csv.NotInt /\ f64_parse c = None
  /\ Csv.parse_bool c = None.

(** A text cell as the reader returns it in a text column. *)
Definition text_read_back (c : string) : pyval :=
  if Csv.is_na c then PFloat PrimFloat.nan else PStr c.

End TextTerms.

(** ** Sample data *)

(** A world to run examples in: nothing on disk, nothing cached, no live
    object, the clock at the given day. *)
Definition blank_world (today : Z) : world :=
  mkWorld ∅ ∅ ∅ today (fun n => "id-" +:+ PyStr.str_int (Z.of_nat n)) 0 DiskOk [].

(** A stored record: started 2024-01-01 for 30 days. *)
Definition sample_record : DataFrame :=
  [("ID", SObject [PStr "7d0c2c1e"]);
   ("Nom", SObject [PStr "Amine"]);
   ("Telephone", SObject [PStr "0550123456"]);
   ("Abonnement", SObject [PStr "Mensuel (30j)"]);
   ("DureeJours", SInt64 [30]);
   ("Montant", SFloat64 [1000%float]);
   ("Debut", SDatetime [Some ((Calendar.ymd2ord 2024 1 1 - 719163) * 86400000000000)]);
   ("Expiration", SDatetime [Some ((Calendar.ymd2ord 2024 1 31 - 719163) * 86400000000000)]);
   ("Remarques", SObject [PStr ""])].

(** A world whose only live object, at reference 1, holds [sample_record]. *)
Definition sample_world (today : Z) : world :=
  with_heap (<[1%positive := sample_record]> ∅) (blank_world today).

(** A world with one stored record: the file, the cached load of it and the
    live frame all hold [sample_record]. *)
Definition stocked_world (today : Z) (dk : disk) : world :=
  mkWorld (<[1%positive := sample_record]> ∅)
          (<[DATA_PATH := Csv.to_csv (H := RefFloat.lib) sample_record]> ∅)
          (<[DATA_PATH := sample_record]> ∅)
          today (fun n => "id-" +:+ PyStr.str_int (Z.of_nat n)) 1 dk [].

(** Two records that start in January 2024. *)
Definition two_in_january : DataFrame :=
  [("ID", SObject [PStr "id-0"; PStr "id-1"]);
   ("Nom", SObject [PStr "Amine"; PStr "Lina"]);
   ("Telephone", SObject [PStr "0550123456"; PStr "0661000000"]);
   ("Abonnement", SObject [PStr "Mensuel (30j)"; PStr "Mensuel (30j)"]);
   ("DureeJours", SInt64 [30; 30]);
   ("Montant", SFloat64 [1000%float; 1500%float]);
   ("Debut", SDatetime [Some ((Calendar.ymd2ord 2024 1 1 - 719163) * 86400000000000);
                        Some ((Calendar.ymd2ord 2024 1 20 - 719163) * 86400000000000)]);
   ("Expiration", SDatetime [Some ((Calendar.ymd2ord 2024 1 31 - 719163) * 86400000000000);
                             Some ((Calendar.ymd2ord 2024 2 19 - 719163) * 86400000000000)]);
   ("Remarques", SObject [PStr ""; PStr ""])].

(** The form left as it loads: first plan, nothing typed, button idle,
    slider at 7. *)
Definition idle_form (today : Z) : form :=
  mkForm "Mensuel (30j)" 30 "" "" 0%float today "" false 7.

(** A name of three whitespace characters: a space, a no-break space and an
    ideographic space. *)
Definition blank_form (today : Z) : form :=
  mkForm "Mensuel (30j)" 30
         (" " +:+ PyStr.utf8 160 +:+ PyStr.utf8 12288)
         "0550123456" 1000%float today "" true 7.

(** The form filled for a month starting 2024-01-01. *)
Definition january_form : form :=
  mkForm "Mensuel (30j)" 30 " Amine " "0550123456" 1000%float
         (Calendar.ymd2ord 2024 1 1) "" true 7.

(** The form filled for a custom plan of 10 days starting 2024-01-05. *)
Definition lina_form : form :=
  mkForm "Personnalisé…" 10 "Lina" "0661000000" 1500%float
         (Calendar.ymd2ord 2024 1 5) "essai" true 7.

(** A world at the start of a session: [sample_record] is in the file, and
    nothing is cached or live yet. *)
Definition stored_world (today : Z) : world :=
  with_fs (<[DATA_PATH := Csv.to_csv (H := RefFloat.lib) sample_record]> ∅)
          (blank_world today).

(** The world after a first load of the page's file from [blank_world]. *)
Definition first_load : world :=
  snd (load_data (H := RefFloat.lib) DATA_PATH (blank_world 738886)).

(** ** Checking a range of integers *)

(** [p] holds on [fuel] consecutive integers from [o] on. *)
Fixpoint all_from (fuel : nat) (o : Z) (p : Z -> bool) : bool :=
  match fuel with
  | O => true
  | S fuel' => p o && all_from fuel' (o + 1) p
  end.

(** Day 1 of month [m] of year [y] reads back as (y, m, 1). *)
Definition first_day_ok (y m : Z) : bool :=
  match Calendar.ord2ymd (Calendar.ymd2ord y m 1) with
  | (y', m', d') => (y' =? y) && (m' =? m) && (d' =? 1)
  end.

(** * Properties *)

(** ** The monad, unfolded *)

Lemma bind_run {A B} (m : M A) (k : A -> M B) (w : world) :
  (x ← m; k x) w
  = match m w with
    | (Ok a, w') => k a w'
    | (Raise e, w') => (Raise e, w')
    end.
Proof. reflexivity. Qed.

Lemma bind_ok {A B} (m : M A) (k : A -> M B) (w w' : world) (a : A) :
  m w = (Ok a, w') -> (x ← m; k x) w = k a w'.
Proof. intros E. rewrite bind_run, E. reflexivity. Qed.

Lemma bind_raise {A B} (m : M A) (k : A -> M B) (w w' : world) (e : exn) :
  m w = (Raise e, w') -> (x ← m; k x) w = (Raise e, w').
Proof. intros E. rewrite bind_run, E. reflexivity. Qed.

Lemma lift_run {A} (r : result A) (w : world) : lift r w = (r, w).
Proof. reflexivity. Qed.

Lemma ret_run {A} (a : A) (w : world) : ret a w = (Ok a, w).
Proof. reflexivity. Qed.

Lemma bind_assoc {A B C} (m : M A) (k0 : A -> M B) (k : B -> M C) (w : world) :
  (y ← (x ← m; k0 x); k y) w = (x ← m; y ← k0 x; k y) w.
Proof. rewrite !bind_run. destruct (m w) as [[a|e] w1]; reflexivity. Qed.

(** One step of a run whose first action is known to return. *)
Ltac run_ok E := rewrite ?bind_assoc; rewrite (bind_ok _ _ _ _ _ E); cbv beta.
Ltac run_raise E := rewrite ?bind_assoc; rewrite (bind_raise _ _ _ _ _ E); cbv beta.

(** ** status_for *)

Lemma timedelta_ok (d : Z) :
  - Calendar.MAX_DELTA_DAYS <= d <= Calendar.MAX_DELTA_DAYS -> Calendar.timedelta d = Ok d.
Proof.
  intros [Hl Hu]. unfold Calendar.timedelta.
  apply Z.leb_le in Hl. apply Z.leb_le in Hu. rewrite Hl, Hu. reflexivity.
Qed.

Lemma date_add_ok (o d : Z) :
  1 <= o + d <= Calendar.MAXORDINAL -> Calendar.date_add o d = Ok (o + d).
Proof.
  intros [Hl Hu]. unfold Calendar.date_add, Calendar.valid_ordinal.
  apply Z.leb_le in Hl. apply Z.leb_le in Hu. rewrite Hl, Hu. reflexivity.
Qed.

(** The run of [status_for] on a date, whatever the rest of the world is. *)
Lemma status_for_run (w : world) (e warn : Z) :
  (e < w_today w \/ window_ok (w_today w) warn) ->
  status_for (PDate e) warn w = (Ok (PStr (label (spec_status e warn (w_today w)))), w).
Proof.
  intros Hw. unfold status_for, spec_status.
  rewrite bind_run. unfold date_today. rewrite bind_run, lift_run. cbn [py_lt].
  destruct (e <? w_today w) eqn:Hlt; [reflexivity|].
  destruct Hw as [Hw | [Hd Hs]]; [apply Z.ltb_ge in Hlt; lia|].
  rewrite bind_run, lift_run, (timedelta_ok _ Hd).
  rewrite bind_run, lift_run, (date_add_ok _ _ Hs).
  rewrite bind_run, lift_run. cbn [py_le].
  destruct (e <=? w_today w + warn); reflexivity.
Qed.

(** C1. For every expiration date, warning window and current date such that
    [today + warnDays] is a date, [status_for] returns Expired when the
    expiration date is before today, otherwise ExpiringSoon when it is at most
    [today + warnDays], otherwise Active; a record expiring today (with a
    non-negative window) is ExpiringSoon, not Expired.  The world is left as
    it was. *)
Theorem status_for_three_way (w : world) (expirationDate warnDays : Z) :
  window_ok (w_today w) warnDays ->
  status_for (PDate expirationDate) warnDays w
  = (Ok (PStr (label (spec_status expirationDate warnDays (w_today w)))), w)
  /\ (expirationDate < w_today w ->
      status_for (PDate expirationDate) warnDays w = (Ok (PStr "❌ Expiré"), w))
  /\ (w_today w <= expirationDate <= w_today w + warnDays ->
      status_for (PDate expirationDate) warnDays w = (Ok (PStr "⏳ Bientôt"), w))
  /\ (w_today w <= expirationDate /\ w_today w + warnDays < expirationDate ->
      status_for (PDate expirationDate) warnDays w = (Ok (PStr "✅ Actif"), w))
  /\ (0 <= warnDays ->
      status_for (PDate (w_today w)) warnDays w = (Ok (PStr "⏳ Bientôt"), w)).
Proof.
  intros Hw.
  assert (R : forall e, status_for (PDate e) warnDays w
                        = (Ok (PStr (label (spec_status e warnDays (w_today w)))), w))
    by (intros e; apply status_for_run; right; exact Hw).
  split; [apply R|]. unfold spec_status in R.
  repeat split; intros Hc; rewrite R.
  - replace (expirationDate <? w_today w) with true by (symmetry; apply Z.ltb_lt; lia).
    reflexivity.
  - replace (expirationDate <? w_today w) with false by (symmetry; apply Z.ltb_ge; lia).
    replace (expirationDate <=? w_today w + warnDays) with true
      by (symmetry; apply Z.leb_le; lia).
    reflexivity.
  - replace (expirationDate <? w_today w) with false
      by (symmetry; apply Z.ltb_ge; lia).
    replace (expirationDate <=? w_today w + warnDays) with false
      by (symmetry; apply Z.leb_gt; lia).
    reflexivity.
  - rewrite Z.ltb_irrefl.
    replace (w_today w <=? w_today w + warnDays) with true by (symmetry; apply Z.leb_le; lia).
    reflexivity.
Qed.

Lemma status_for_three_way_witness :
  let w := blank_world (Calendar.ymd2ord 2024 1 31) in
  status_for (PDate (Calendar.ymd2ord 2024 1 1 + 30)) 7 w
  = (Ok (PStr (label (spec_status (Calendar.ymd2ord 2024 1 1 + 30) 7 (w_today w)))), w)
  /\ status_for (PDate (w_today w)) 7 w = (Ok (PStr "⏳ Bientôt"), w).
Proof.
  intros w.
  assert (Hw : window_ok (w_today w) 7) by (vm_compute; intuition discriminate).
  pose proof (status_for_three_way w (Calendar.ymd2ord 2024 1 1 + 30) 7 Hw) as T.
  split; [exact (proj1 T)|].
  apply (proj2 (proj2 (proj2 (proj2 T)))). lia.
Defined.

(** ** Heap reasoning *)

Lemma alloc_run (d : DataFrame) (w : world) :
  alloc d w = (Ok (fresh (dom (w_heap w))),
               with_heap (<[fresh (dom (w_heap w)) := d]> (w_heap w)) w).
Proof. reflexivity. Qed.

Lemma fresh_not_live (w : world) : w_heap w !! fresh (dom (w_heap w)) = None.
Proof. apply not_elem_of_dom, is_fresh. Qed.

Lemma fresh_differs (w : world) (l : loc) (d : DataFrame) :
  w_heap w !! l = Some d -> fresh (dom (w_heap w)) <> l.
Proof. intros E F. rewrite <- F, fresh_not_live in E. discriminate. Qed.

Lemma deref_run (l : loc) (d : DataFrame) (w : world) :
  w_heap w !! l = Some d -> deref l w = (Ok d, w).
Proof. intros E. unfold deref. rewrite E. reflexivity. Qed.

Section Respects.
Variable R : world -> world -> Prop.
Hypothesis R_refl : forall w, R w w.
Hypothesis R_trans : forall w1 w2 w3, R w1 w2 -> R w2 w3 -> R w1 w3.

Lemma respects_ret {A} (a : A) : respects R (ret a).
Proof. intros w. apply R_refl. Qed.

Lemma respects_raise {A} (e : exn) : respects R (@raise A e).
Proof. intros w. apply R_refl. Qed.

Lemma respects_lift {A} (r : result A) : respects R (lift r).
Proof. intros w. apply R_refl. Qed.

Lemma respects_bind {A B} (m : M A) (k : A -> M B) :
  respects R m -> (forall a, respects R (k a)) -> respects R (x ← m; k x).
Proof.
  intros Hm Hk w. rewrite bind_run. specialize (Hm w).
  destruct (m w) as [[a|e] w1]; cbn [snd] in *; [|exact Hm].
  eapply R_trans; [exact Hm | apply Hk].
Qed.

Lemma respects_mapM {A B} (f : A -> M B) (xs : list A) :
  (forall a, respects R (f a)) -> respects R (mapM f xs).
Proof.
  intros Hf. induction xs as [|x xs IH]; cbn [mapM]; [apply respects_ret|].
  apply respects_bind; [apply Hf|]. intros y.
  apply respects_bind; [exact IH|]. intros ys. apply respects_ret.
Qed.

Lemma respects_date_today : respects R date_today.
Proof. intros w. apply R_refl. Qed.

Lemma respects_deref (l : loc) : respects R (deref l).
Proof. intros w. unfold deref. destruct (w_heap w !! l); apply R_refl. Qed.

Lemma respects_status_for (v : pyval) (warn : Z) : respects R (status_for v warn).
Proof.
  unfold status_for.
  apply respects_bind; [apply respects_date_today|]. intros today.
  apply respects_bind; [apply respects_lift|]. intros [|]; [apply respects_ret|].
  apply respects_bind; [apply respects_lift|]. intros delta.
  apply respects_bind; [apply respects_lift|]. intros limit.
  apply respects_bind; [apply respects_lift|]. intros [|]; apply respects_ret.
Qed.

Lemma respects_series_apply (f : pyval -> M pyval) (s : Series) :
  (forall v, respects R (f v)) -> respects R (series_apply f s).
Proof.
  intros Hf. unfold series_apply.
  apply respects_bind; [apply respects_mapM, Hf|]. intros vs. apply respects_ret.
Qed.

Lemma respects_getitem (l : loc) (name : string) : respects R (getitem l name).
Proof.
  unfold getitem. apply respects_bind; [apply respects_deref|].
  intros d. destruct (get_col name d); [apply respects_ret | apply respects_raise].
Qed.

End Respects.

Lemma only_at_refl (l : loc) (w : world) : only_at l w w.
Proof. unfold only_at. tauto. Qed.

Lemma only_at_trans (l : loc) (w1 w2 w3 : world) :
  only_at l w1 w2 -> only_at l w2 w3 -> only_at l w1 w3.
Proof.
  unfold only_at. intros (A1 & A2 & A3 & A4 & A5 & A6 & A7 & A8)
                         (B1 & B2 & B3 & B4 & B5 & B6 & B7 & B8).
  repeat split; try congruence.
  intros l' Hl. rewrite B1, A1; auto.
Qed.

Lemma local_store (l : loc) (d : DataFrame) : local_to l (store l d).
Proof.
  intros w. unfold store, only_at. cbn. repeat split; try reflexivity.
  intros l' Hl. apply lookup_insert_ne. congruence.
Qed.

Lemma local_setitem (l : loc) (name : string) (s : Series) : local_to l (setitem l name s).
Proof.
  unfold setitem, local_to.
  pose proof (only_at_refl l) as Rr. pose proof (only_at_trans l) as Rt.
  apply respects_bind; auto using respects_deref.
  intros d. destruct (series_len s =? nrows d)%nat;
    [apply local_store | apply respects_raise; auto].
Qed.

Lemma df_with_status_unfold (df : loc) (warn_days : Z) :
  df_with_status df warn_days = (df2 ← df_copy df; annotate_copy df2 warn_days).
Proof. reflexivity. Qed.

Lemma local_annotate_copy (df2 : loc) (warn_days : Z) :
  local_to df2 (annotate_copy df2 warn_days).
Proof.
  pose proof (only_at_refl df2) as Rr. pose proof (only_at_trans df2) as Rt.
  unfold annotate_copy, local_to.
  apply respects_bind; auto using respects_deref. intros d2.
  destruct (empty d2); [apply respects_ret; auto|].
  apply respects_bind; auto using respects_date_today. intros today.
  apply respects_bind; auto using respects_getitem. intros exp.
  apply respects_bind; auto using respects_lift. intros dates.
  apply respects_bind; auto using respects_series_apply, respects_status_for.
  intros statut.
  apply respects_bind; auto. { apply local_setitem. } intros _.
  apply respects_bind; auto using respects_getitem. intros exp'.
  apply respects_bind; auto using respects_lift. intros dates'.
  apply respects_bind; auto using respects_lift. intros deltas.
  apply respects_bind; auto using respects_series_apply, respects_lift.
  intros jours.
  apply respects_bind; auto. apply local_setitem.
Qed.

(** C10. [df_with_status] leaves its input as it was: whatever the outcome
    (a result or an exception), every DataFrame object that was live before
    the call, the argument included, holds the same columns afterwards (no
    [Statut] or [JoursRestants] column is added to it, no cell is changed),
    and the files and the cache are untouched; a returned frame is a new
    object, distinct from every object that was live. *)
Theorem df_with_status_keeps_input (w : world) (df : loc) (warn_days : Z) :
  let out := df_with_status df warn_days w in
  (forall (l : loc) (d : DataFrame),
      w_heap w !! l = Some d -> w_heap (snd out) !! l = Some d)
  /\ w_fs (snd out) = w_fs w
  /\ w_cache (snd out) = w_cache w
  /\ (forall df2 : loc, fst out = Ok df2 -> w_heap w !! df2 = None).
Proof.
  cbv zeta. destruct (df_with_status df warn_days w) as [r wf] eqn:E. cbn [fst snd].
  rewrite df_with_status_unfold, bind_run in E.
  unfold df_copy in E. rewrite bind_run in E. unfold deref at 1 in E.
  destruct (w_heap w !! df) as [d0|] eqn:Hdf.
  - rewrite alloc_run in E.
    set (l2 := fresh (dom (w_heap w))) in *.
    set (w1 := with_heap (<[l2 := d0]> (w_heap w)) w) in *.
    pose proof (local_annotate_copy l2 warn_days w1) as L.
    assert (R : r = Ok l2 \/ exists e, r = Raise e).
    { revert E. unfold annotate_copy. rewrite bind_run.
      destruct (deref l2 w1) as [[d2|e] w2]; [|intros E; inversion E; eauto].
      destruct (empty d2); [intros E; inversion E; auto|].
      repeat (rewrite bind_run;
              match goal with
              | |- context [match ?m ?x with _ => _ end] =>
                  destruct (m x) as [[?|?] ?]
              end; [|intros E; inversion E; eauto]).
      intros E; inversion E; auto. }
    rewrite E in L. cbn [snd] in L.
    destruct L as (Lh & Lfs & Lc & _).
    repeat split.
    + intros l d Hl. rewrite Lh.
      * subst w1. cbn. rewrite lookup_insert_ne; [exact Hl|].
        subst l2. eapply fresh_differs; eauto.
      * intros ->. subst l2. rewrite fresh_not_live in Hl. discriminate.
    + rewrite Lfs. reflexivity.
    + rewrite Lc. reflexivity.
    + intros df2 Hr. destruct R as [->|[e ->]]; [|discriminate].
      inversion Hr; subst df2. apply fresh_not_live.
  - inversion E; subst. repeat split; auto. intros df2 Hr. discriminate.
Qed.

(** ** Columns of a frame *)

Lemma get_col_set_col_eq (k : string) (s : Series) (d : DataFrame) :
  get_col k (set_col k s d) = Some s.
Proof.
  induction d as [|[k0 s0] d IH]; cbn.
  - rewrite String.eqb_refl. reflexivity.
  - destruct (String.eqb k0 k) eqn:E; cbn; rewrite E; [reflexivity | exact IH].
Qed.

Lemma get_col_set_col_ne (k k' : string) (s : Series) (d : DataFrame) :
  k <> k' -> get_col k' (set_col k s d) = get_col k' d.
Proof.
  intros Hne. induction d as [|[k0 s0] d IH]; cbn.
  - destruct (String.eqb k k') eqn:E; [apply String.eqb_eq in E; contradiction | reflexivity].
  - destruct (String.eqb k0 k) eqn:E; cbn.
    + apply String.eqb_eq in E. subst k0.
      destruct (String.eqb k k') eqn:E'; [apply String.eqb_eq in E'; contradiction | reflexivity].
    + rewrite IH. reflexivity.
Qed.

Lemma nrows_set_col (k : string) (s : Series) (d : DataFrame) :
  series_len s = nrows d -> nrows (set_col k s d) = nrows d.
Proof.
  intros Hlen. destruct d as [|[k0 s0] d]; cbn in *; [exact Hlen|].
  destruct (String.eqb k0 k); cbn; [exact Hlen | reflexivity].
Qed.

Lemma get_col_len (k : string) (s : Series) (d : DataFrame) :
  rectangular d -> get_col k d = Some s -> series_len s = nrows d.
Proof.
  unfold rectangular. intros R. generalize (nrows d) as n, R. clear R.
  induction d as [|[k0 s0] d IH]; cbn; intros n R E; [discriminate|].
  apply Forall_cons in R as [Hh Ht]. cbn [snd] in Hh.
  destruct (String.eqb k0 k); [injection E as <-; exact Hh | eauto].
Qed.

Lemma getitem_run (l : loc) (k : string) (d : DataFrame) (s : Series) (w : world) :
  w_heap w !! l = Some d -> get_col k d = Some s -> getitem l k w = (Ok s, w).
Proof.
  intros Hl Hk. unfold getitem. rewrite (bind_ok _ _ _ _ _ (deref_run _ _ _ Hl)), Hk.
  reflexivity.
Qed.

Lemma getitem_missing (l : loc) (k : string) (d : DataFrame) (w : world) :
  w_heap w !! l = Some d -> get_col k d = None -> getitem l k w = (Raise (KeyError k), w).
Proof.
  intros Hl Hk. unfold getitem. rewrite (bind_ok _ _ _ _ _ (deref_run _ _ _ Hl)), Hk.
  reflexivity.
Qed.

Lemma setitem_run (l : loc) (k : string) (d : DataFrame) (s : Series) (w : world) :
  w_heap w !! l = Some d -> series_len s = nrows d ->
  setitem l k s w = (Ok tt, with_heap (<[l := set_col k s d]> (w_heap w)) w).
Proof.
  intros Hl Hn. unfold setitem. rewrite (bind_ok _ _ _ _ _ (deref_run _ _ _ Hl)).
  rewrite Hn, Nat.eqb_refl. reflexivity.
Qed.

(** ** df_with_status, row by row *)

Lemma mapM_status_for (w : world) (warn : Z) (exps : list Z) :
  window_ok (w_today w) warn ->
  mapM (fun d => status_for d warn) (map (fun ns => PDate (Calendar.ts_date ns)) exps) w
  = (Ok (map (status_cell warn (w_today w)) exps), w).
Proof.
  intros Hw. induction exps as [|ns exps IH]; cbn [mapM map]; [reflexivity|].
  rewrite (bind_ok _ _ _ _ _ (status_for_run w _ warn (or_intror Hw))).
  rewrite (bind_ok _ _ _ _ _ IH). reflexivity.
Qed.

Lemma mapM_days (w : world) (today : Z) (exps : list Z) :
  mapM (fun x => lift (py_days x))
       (map (fun ns => PTimedelta (days_remaining today ns)) exps) w
  = (Ok (map (fun ns => PInt (days_remaining today ns)) exps), w).
Proof.
  induction exps as [|ns exps IH]; cbn [mapM map]; [reflexivity|].
  rewrite bind_run, lift_run. cbn [py_days]. rewrite (bind_ok _ _ _ _ _ IH). reflexivity.
Qed.

Lemma rmap_sub_today (today : Z) (exps : list Z) :
  rmap (fun x => py_sub x (PDate today)) (map (fun ns => PDate (Calendar.ts_date ns)) exps)
  = Ok (map (fun ns => PTimedelta (days_remaining today ns)) exps).
Proof.
  induction exps as [|ns exps IH]; cbn [rmap map]; [reflexivity|].
  rewrite IH. reflexivity.
Qed.

Lemma all_some_as_int_map (l : list Z) : all_some as_int (map PInt l) = Some l.
Proof. induction l as [|x l IH]; cbn; [reflexivity | rewrite IH; reflexivity]. Qed.

Lemma infer_objects_ints (f : Z -> Z) (x : Z) (l : list Z) :
  infer_objects (map (fun ns => PInt (f ns)) (x :: l)) = SInt64 (map f (x :: l)).
Proof.
  rewrite <- (map_map f PInt). unfold infer_objects.
  rewrite all_some_as_int_map. reflexivity.
Qed.

Lemma infer_objects_statuses (warn today x : Z) (l : list Z) :
  infer_objects (map (status_cell warn today) (x :: l))
  = SObject (map (status_cell warn today) (x :: l)).
Proof. reflexivity. Qed.

Lemma map_Some_inj {A} (l l' : list A) : map Some l = map Some l' -> l = l'.
Proof.
  revert l'. induction l as [|x l IH]; intros [|y l'] E; cbn in E; try discriminate.
  - reflexivity.
  - inversion E. f_equal. auto.
Qed.

Lemma df_with_status_run (w : world) (df : loc) (d : DataFrame) (warn : Z) (exps : list Z) :
  w_heap w !! df = Some d ->
  rectangular d ->
  empty d = false ->
  get_col "Expiration" d = Some (SDatetime (map Some exps)) ->
  window_ok (w_today w) warn ->
  exists w',
    df_with_status df warn w = (Ok (fresh (dom (w_heap w))), w')
    /\ w_heap w' !! fresh (dom (w_heap w)) = Some (annotated d warn (w_today w) exps).
Proof.
  intros Hdf Hrect Hne Hexp Hwin.
  pose proof (get_col_len _ _ _ Hrect Hexp) as Hlen. cbn [series_len] in Hlen.
  rewrite length_map in Hlen.
  assert (Hex : exists x l, exps = x :: l).
  { destruct exps as [|x l]; [|eauto]. unfold empty in Hne.
    rewrite <- Hlen in Hne. discriminate. }
  destruct Hex as (x0 & l0 & Hx).
  rewrite df_with_status_unfold. unfold df_copy.
  rewrite (bind_ok _ _ _ _ _ (bind_ok _ _ _ _ _ (deref_run _ _ _ Hdf))).
  set (l2 := fresh (dom (w_heap w))).
  set (w1 := with_heap (<[l2 := d]> (w_heap w)) w).
  assert (H1 : w_heap w1 !! l2 = Some d) by (subst w1; cbn; apply lookup_insert_eq).
  unfold annotate_copy.
  rewrite (bind_ok _ _ _ _ _ (deref_run _ _ _ H1)), Hne.
  rewrite bind_run. unfold date_today at 1.
  rewrite (bind_ok _ _ _ _ _ (getitem_run _ _ _ _ _ H1 Hexp)).
  rewrite bind_run, lift_run. cbn [dt_date]. rewrite map_map.
  unfold series_apply. cbn [series_values].
  assert (Hw1 : window_ok (w_today w1) warn) by exact Hwin.
  rewrite (bind_ok _ _ _ _ _ (bind_ok _ _ _ _ _ (mapM_status_for w1 warn exps Hw1))).
  cbv beta.
  replace (w_today w1) with (w_today w) by reflexivity.
  set (statut := infer_objects (map (status_cell warn (w_today w)) exps)).
  assert (Hst : statut = SObject (map (status_cell warn (w_today w)) exps)).
  { subst statut. rewrite Hx. apply infer_objects_statuses. }
  assert (Hsl : series_len statut = nrows d).
  { rewrite Hst. cbn [series_len]. rewrite length_map. exact Hlen. }
  rewrite (bind_ok _ _ _ _ _ (setitem_run _ _ _ _ _ H1 Hsl)).
  set (d1 := set_col "Statut" statut d).
  set (w2 := with_heap (<[l2 := d1]> (w_heap w1)) w1).
  assert (H2 : w_heap w2 !! l2 = Some d1) by (subst w2; cbn; apply lookup_insert_eq).
  assert (Hexp1 : get_col "Expiration" d1 = Some (SDatetime (map Some exps))).
  { subst d1. rewrite get_col_set_col_ne; [exact Hexp | discriminate]. }
  rewrite (bind_ok _ _ _ _ _ (getitem_run _ _ _ _ _ H2 Hexp1)).
  rewrite bind_run, lift_run. cbn [dt_date]. rewrite map_map.
  rewrite bind_run, lift_run. cbn [series_sub]. rewrite rmap_sub_today. cbn [rbind].
  cbn [series_values].
  rewrite (bind_ok _ _ _ _ _ (bind_ok _ _ _ _ _ (mapM_days w2 (w_today w) exps))).
  cbv beta.
  set (jours := infer_objects (map (fun ns => PInt (days_remaining (w_today w) ns)) exps)).
  assert (Hj : jours = SInt64 (map (days_remaining (w_today w)) exps)).
  { subst jours. rewrite Hx. apply infer_objects_ints. }
  assert (Hn1 : nrows d1 = nrows d) by (subst d1; apply nrows_set_col; exact Hsl).
  assert (Hjl : series_len jours = nrows d1).
  { rewrite Hj, Hn1. cbn [series_len]. rewrite length_map. exact Hlen. }
  rewrite (bind_ok _ _ _ _ _ (setitem_run _ _ _ _ _ H2 Hjl)).
  rewrite ret_run. eexists. split; [reflexivity|].
  cbn. rewrite lookup_insert_eq. unfold annotated. subst d1. rewrite Hj, Hst. reflexivity.
Qed.

Lemma df_with_status_empty (w : world) (df : loc) (d : DataFrame) (warn : Z) :
  w_heap w !! df = Some d ->
  empty d = true ->
  df_with_status df warn w
  = (Ok (fresh (dom (w_heap w))),
     with_heap (<[fresh (dom (w_heap w)) := d]> (w_heap w)) w).
Proof.
  intros Hdf He. rewrite df_with_status_unfold. unfold df_copy.
  rewrite (bind_ok _ _ _ _ _ (bind_ok _ _ _ _ _ (deref_run _ _ _ Hdf))).
  unfold annotate_copy.
  erewrite bind_ok; [|apply deref_run; cbn; apply lookup_insert_eq].
  rewrite He. reflexivity.
Qed.

(** C2. For a frame whose [Expiration] column holds timestamps,
    [df_with_status] returns a frame of the same rows in which, for every
    record, [JoursRestants] is the signed number of days from today to the
    day of expiration, [(expirationDate - today).days], next to the status of
    C1; run one day later on the same records, every [JoursRestants] is
    smaller by exactly one.  On an empty frame it returns an (empty) copy
    without raising. *)
Theorem df_with_status_days_remaining (w : world) (df : loc) (d : DataFrame) (warnDays : Z) :
  w_heap w !! df = Some d ->
  rectangular d ->
  (empty d = true ->
   exists df2 w',
     df_with_status df warnDays w = (Ok df2, w')
     /\ w_heap w' !! df2 = Some d)
  /\ (forall exps : list Z,
        empty d = false ->
        get_col "Expiration" d = Some (SDatetime (map Some exps)) ->
        window_ok (w_today w) warnDays ->
        (exists df2 w' d2,
            df_with_status df warnDays w = (Ok df2, w')
            /\ w_heap w' !! df2 = Some d2
            /\ nrows d2 = nrows d
            /\ get_col "JoursRestants" d2
               = Some (SInt64 (map (fun ns => Calendar.ts_date ns - w_today w) exps))
            /\ get_col "Statut" d2
               = Some (SObject
                         (map (fun ns =>
                                 PStr (label (spec_status (Calendar.ts_date ns) warnDays (w_today w))))
                              exps))
            /\ get_col "Expiration" d2 = get_col "Expiration" d)
        /\ (forall w1 : world,
              w_heap w1 !! df = Some d ->
              w_today w1 = w_today w + 1 ->
              window_ok (w_today w1) warnDays ->
              exists df2 w' d2,
                df_with_status df warnDays w1 = (Ok df2, w')
                /\ w_heap w' !! df2 = Some d2
                /\ get_col "JoursRestants" d2
                   = Some (SInt64 (map (fun ns => Calendar.ts_date ns - w_today w - 1) exps)))).
Proof.
  intros Hdf Hrect. split.
  - intros He. rewrite (df_with_status_empty _ _ _ _ Hdf He).
    eexists _, _. split; [reflexivity|]. cbn. apply lookup_insert_eq.
  - intros exps Hne Hexp Hwin.
    assert (Hlen : length exps = nrows d).
    { pose proof (get_col_len _ _ _ Hrect Hexp) as Hl. cbn [series_len] in Hl.
      rewrite length_map in Hl. exact Hl. }
    split.
    + destruct (df_with_status_run w df d warnDays exps Hdf Hrect Hne Hexp Hwin)
        as (w' & Hrun & Hl).
      eexists _, w', _. split; [exact Hrun|]. split; [exact Hl|].
      unfold annotated. repeat split.
      * rewrite nrows_set_col.
        -- apply nrows_set_col. cbn [series_len]. rewrite length_map. exact Hlen.
        -- rewrite nrows_set_col; cbn [series_len]; rewrite length_map; exact Hlen.
      * apply get_col_set_col_eq.
      * rewrite get_col_set_col_ne by discriminate. apply get_col_set_col_eq.
      * rewrite !get_col_set_col_ne by discriminate. reflexivity.
    + intros w1 Hdf1 Ht Hwin1.
      destruct (df_with_status_run w1 df d warnDays exps Hdf1 Hrect Hne Hexp Hwin1)
        as (w' & Hrun & Hl).
      eexists _, w', _. split; [exact Hrun|]. split; [exact Hl|].
      unfold annotated. rewrite get_col_set_col_eq. do 2 f_equal.
      apply map_ext. intros ns. unfold days_remaining. rewrite Ht. lia.
Qed.

Lemma sample_record_rectangular : rectangular sample_record.
Proof. unfold rectangular, sample_record. repeat constructor. Qed.

Lemma df_with_status_days_remaining_witness :
  let w := sample_world (Calendar.ymd2ord 2024 1 31) in
  (exists df2 w' d2,
      df_with_status 1%positive 7 w = (Ok df2, w')
      /\ w_heap w' !! df2 = Some d2
      /\ nrows d2 = 1%nat
      /\ get_col "JoursRestants" d2 = Some (SInt64 [0])
      /\ get_col "Statut" d2 = Some (SObject [PStr "⏳ Bientôt"])
      /\ get_col "Expiration" d2 = get_col "Expiration" sample_record)
  /\ (forall w1 : world,
        w_heap w1 !! 1%positive = Some sample_record ->
        w_today w1 = w_today w + 1 ->
        window_ok (w_today w1) 7 ->
        exists df2 w' d2,
          df_with_status 1%positive 7 w1 = (Ok df2, w')
          /\ w_heap w' !! df2 = Some d2
          /\ get_col "JoursRestants" d2 = Some (SInt64 [-1])).
Proof.
  intros w.
  assert (Hdf : w_heap w !! 1%positive = Some sample_record) by apply lookup_insert_eq.
  assert (Hwin : window_ok (w_today w) 7) by (vm_compute; intuition discriminate).
  exact (proj2 (df_with_status_days_remaining w 1%positive sample_record 7
                  Hdf sample_record_rectangular)
               [(Calendar.ymd2ord 2024 1 31 - 719163) * 86400000000000]
               eq_refl eq_refl Hwin).
Defined.

(** ** The page on an empty store *)

Section PageRuns.
Context `{Float64Lib}.

Lemma page_unfold (f : form) :
  page f
  = (df ← load_data DATA_PATH;
     duree ← lift (duree_of f);
     df ← (if enregistrer f then on_enregistrer df f duree else ret df);
     render df (warn_days f)).
Proof. reflexivity. Qed.

Lemma emit_run (e : ui_event) (w : world) :
  emit e w = (Ok tt, with_ui (w_ui w ++ [e])%list w).
Proof. reflexivity. Qed.

(** With no row and no [Statut] column, the statistics row raises after its
    first metric. *)
Lemma render_empty (w : world) (df : loc) (d : DataFrame) (warn : Z) :
  w_heap w !! df = Some d ->
  empty d = true ->
  get_col "Statut" d = None ->
  exists w',
    render df warn w = (Raise (KeyError "Statut"), w')
    /\ w_ui w'
       = (w_ui w
          ++ [SidebarDownload (Csv.to_csv d) "abonnements.csv";
              StSuccess "✅ Aucun abonnement expiré ou proche d’expiration.";
              StInfo "Aucun enregistrement pour le moment.";
              StMetric "Total abonnements" 0])%list
    /\ w_fs w' = w_fs w.
Proof.
  intros Hdf He Hst.
  assert (Hn : nrows d = 0%nat) by (unfold empty in He; apply Nat.eqb_eq in He; exact He).
  unfold render.
  run_ok (deref_run _ _ _ Hdf).
  run_ok (emit_run (SidebarDownload (Csv.to_csv d) "abonnements.csv") w).
  set (w1 := with_ui _ w).
  assert (H1 : w_heap w1 !! df = Some d) by exact Hdf.
  run_ok (df_with_status_empty w1 df d warn H1 He).
  set (l2 := fresh (dom (w_heap w1))).
  set (w2 := with_heap _ w1).
  assert (H2 : w_heap w2 !! l2 = Some d) by (subst w2; cbn; apply lookup_insert_eq).
  unfold notifications.
  run_ok (deref_run _ _ _ H2).
  rewrite Hn. cbn [seq rmap].
  run_ok (lift_run (Ok (@nil (option (pyval * string * string)))) w2).
  cbn [omap].
  run_ok (emit_run (StSuccess "✅ Aucun abonnement expiré ou proche d’expiration.") w2).
  set (w3 := with_ui _ w2).
  assert (H3 : w_heap w3 !! l2 = Some d) by exact H2.
  unfold tableau.
  run_ok (deref_run _ _ _ H3).
  rewrite He.
  run_ok (emit_run (StInfo "Aucun enregistrement pour le moment.") w3).
  set (w4 := with_ui _ w3).
  assert (H4 : w_heap w4 !! l2 = Some d) by exact H2.
  unfold stats.
  run_ok (deref_run _ _ _ H4).
  run_ok (emit_run (StMetric "Total abonnements" (Z.of_nat (nrows d))) w4).
  set (w5 := with_ui _ w4).
  assert (H5 : w_heap w5 !! l2 = Some d) by exact H2.
  run_raise (getitem_missing _ _ _ _ H5 Hst).
  eexists. split; [reflexivity|]. split.
  - subst w5 w4 w3 w2 w1. cbn. rewrite Hn. rewrite <- !app_assoc. reflexivity.
  - reflexivity.
Qed.

(** A store with no file yet, nothing cached, and the button not pressed:
    the page raises [KeyError: 'Statut']. *)
Lemma page_empty_store (w : world) (f : form) (n : Z) :
  w_fs w !! DATA_PATH = None ->
  w_cache w !! DATA_PATH = None ->
  duree_of f = Ok n ->
  enregistrer f = false ->
  exists w', page f w = (Raise (KeyError "Statut"), w') /\ w_fs w' = w_fs w.
Proof.
  intros Hfs Hc Hd Hb. rewrite page_unfold.
  unfold load_data, st_cache_data. rewrite bind_run. rewrite Hc.
  unfold load_data_body. rewrite Hfs. rewrite alloc_run.
  set (l := fresh _). set (w1 := with_heap _ _).
  rewrite bind_run, lift_run, Hd, Hb. rewrite bind_run, ret_run.
  assert (H1 : w_heap w1 !! l = Some (empty_frame COLUMNS))
    by (subst w1; cbn; apply lookup_insert_eq).
  destruct (render_empty w1 l _ (warn_days f) H1 eq_refl eq_refl) as (w' & R & _ & Rfs).
  exists w'. split; [exact R | exact Rfs].
Qed.

End PageRuns.

(** C3 (the code departs from the claim).  On an empty store (no file yet)
    the page does not show all-zero status counts: after the metric
    [Total abonnements = 0] the first status count evaluates
    [df_status["Statut"]], a column [df_with_status] never added to the
    empty frame, and the run ends in [KeyError: 'Statut']. *)
Theorem page_on_empty_store_raises :
  let out := page (H := RefFloat.lib) (idle_form 738886) (blank_world 738886) in
  fst out = Raise (KeyError "Statut")
  /\ w_ui (snd out)
     = [SidebarDownload [COLUMNS] "abonnements.csv";
        StSuccess "✅ Aucun abonnement expiré ou proche d’expiration.";
        StInfo "Aucun enregistrement pour le moment.";
        StMetric "Total abonnements" 0].
Proof. vm_compute. split; reflexivity. Qed.

(** ** Runs that write no file *)

Lemma shows_only_refl (w : world) : shows_only w w.
Proof. split; [reflexivity | exists []; symmetry; apply app_nil_r]. Qed.

Lemma shows_only_trans (w1 w2 w3 : world) :
  shows_only w1 w2 -> shows_only w2 w3 -> shows_only w1 w3.
Proof.
  intros [F1 [m1 U1]] [F2 [m2 U2]]. split; [congruence|].
  exists (m1 ++ m2)%list. rewrite U2, U1, <- app_assoc. reflexivity.
Qed.

Ltac fs_side := first [exact shows_only_refl | exact shows_only_trans].

Ltac reads_only_bind := apply respects_bind; [fs_side | |].

Ltac reads_only_leaf :=
  first [ apply respects_ret | apply respects_raise | apply respects_lift
        | apply respects_deref | apply respects_getitem | apply respects_date_today ];
  fs_side.

Lemma reads_only_alloc (d : DataFrame) : reads_only (alloc d).
Proof. intros w. split; [reflexivity | exists []; symmetry; apply app_nil_r]. Qed.

Lemma reads_only_store (l : loc) (d : DataFrame) : reads_only (store l d).
Proof. intros w. split; [reflexivity | exists []; symmetry; apply app_nil_r]. Qed.

Lemma reads_only_emit (e : ui_event) : reads_only (emit e).
Proof. intros w. split; [reflexivity | exists [e]; reflexivity]. Qed.

Lemma reads_only_setitem (l : loc) (k : string) (s : Series) : reads_only (setitem l k s).
Proof.
  unfold setitem, reads_only. reads_only_bind; [reads_only_leaf|].
  intros d. destruct (series_len s =? nrows d)%nat; [apply reads_only_store | reads_only_leaf].
Qed.

Lemma reads_only_df_with_status (df : loc) (warn : Z) : reads_only (df_with_status df warn).
Proof.
  rewrite df_with_status_unfold. unfold reads_only.
  reads_only_bind.
  - unfold df_copy. reads_only_bind; [reads_only_leaf | intros d; apply reads_only_alloc].
  - intros df2. unfold annotate_copy.
    reads_only_bind; [reads_only_leaf|]. intros d2.
    destruct (empty d2); [reads_only_leaf|].
    reads_only_bind; [reads_only_leaf|]. intros today.
    reads_only_bind; [reads_only_leaf|]. intros exp.
    reads_only_bind; [reads_only_leaf|]. intros dates.
    reads_only_bind.
    { apply respects_series_apply; try fs_side.
      intros v. apply respects_status_for; fs_side. }
    intros statut.
    reads_only_bind; [apply reads_only_setitem|]. intros _.
    reads_only_bind; [reads_only_leaf|]. intros exp'.
    reads_only_bind; [reads_only_leaf|]. intros dates'.
    reads_only_bind; [reads_only_leaf|]. intros deltas.
    reads_only_bind.
    { apply respects_series_apply; try fs_side.
      intros v. reads_only_leaf. }
    intros jours.
    reads_only_bind; [apply reads_only_setitem | intros _; reads_only_leaf].
Qed.

Section ReadOnlyPage.
Context `{Float64Lib}.

Lemma reads_only_load_data (path : string) : reads_only (load_data path).
Proof.
  intros w. unfold load_data, st_cache_data, load_data_body.
  destruct (w_cache w !! path); [apply reads_only_alloc|].
  destruct (w_fs w !! path) as [f|].
  - destruct (Csv.read_csv f _); [|apply shows_only_refl].
    split; [reflexivity | exists []; symmetry; apply app_nil_r].
  - split; [reflexivity | exists []; symmetry; apply app_nil_r].
Qed.

Lemma reads_only_notifications (df : loc) : reads_only (notifications df).
Proof.
  unfold notifications, reads_only.
  reads_only_bind; [reads_only_leaf|]. intros d.
  reads_only_bind; [reads_only_leaf|]. intros found.
  destruct (omap id found); [apply reads_only_emit|].
  reads_only_bind; [|intros; reads_only_leaf].
  apply respects_mapM; try fs_side.
  intros [[n msg] icon]. apply reads_only_emit.
Qed.

Lemma reads_only_tableau (df : loc) : reads_only (tableau df).
Proof.
  unfold tableau, reads_only. reads_only_bind; [reads_only_leaf|]. intros d.
  destruct (empty d); apply reads_only_emit.
Qed.

Lemma reads_only_stats (df : loc) : reads_only (stats df).
Proof.
  unfold stats, reads_only.
  reads_only_bind; [reads_only_leaf|]. intros d.
  reads_only_bind; [apply reads_only_emit|]. intros _.
  reads_only_bind; [reads_only_leaf|]. intros s1.
  reads_only_bind; [apply reads_only_emit|]. intros _.
  reads_only_bind; [reads_only_leaf|]. intros s2.
  reads_only_bind; [apply reads_only_emit|]. intros _.
  reads_only_bind; [reads_only_leaf|]. intros s3.
  apply reads_only_emit.
Qed.

Lemma reads_only_revenue_by_month (df : loc) : reads_only (revenue_by_month df).
Proof.
  unfold revenue_by_month, reads_only.
  reads_only_bind; [reads_only_leaf|]. intros start.
  reads_only_bind; [reads_only_leaf|]. intros mois.
  reads_only_bind; [apply reads_only_setitem|]. intros _.
  reads_only_bind; [reads_only_leaf|]. intros d. reads_only_leaf.
Qed.

Lemma reads_only_charts (df : loc) : reads_only (charts df).
Proof.
  unfold charts, reads_only. reads_only_bind; [reads_only_leaf|]. intros d.
  destruct (empty d); [reads_only_leaf|].
  reads_only_bind; [apply reads_only_emit|]. intros _.
  reads_only_bind; [apply reads_only_revenue_by_month|]. intros g.
  apply reads_only_emit.
Qed.

Lemma reads_only_render (df : loc) (warn : Z) : reads_only (render df warn).
Proof.
  unfold render, reads_only.
  reads_only_bind; [reads_only_leaf|]. intros d.
  reads_only_bind; [apply reads_only_emit|]. intros _.
  reads_only_bind; [apply reads_only_df_with_status|]. intros df_status.
  reads_only_bind; [apply reads_only_notifications|]. intros _.
  reads_only_bind; [apply reads_only_tableau|]. intros _.
  reads_only_bind; [apply reads_only_stats|]. intros _.
  apply reads_only_charts.
Qed.

End ReadOnlyPage.

(** ** Blank names *)

Lemma lstrip_whitespace (cp : N) (s : string) :
  In cp PyStr.py_whitespace -> PyStr.lstrip (PyStr.utf8 cp +:+ s) = PyStr.lstrip s.
Proof.
  intros Hin. unfold PyStr.py_whitespace in Hin. cbn [In] in Hin.
  repeat (destruct Hin as [<- | Hin]; [reflexivity|]). contradiction.
Qed.

Lemma lstrip_whitespace_only (s : string) :
  PyStr.whitespace_only s -> PyStr.lstrip s = EmptyString.
Proof.
  induction 1 as [|cp s Hin _ IH]; [reflexivity|].
  rewrite lstrip_whitespace by exact Hin. exact IH.
Qed.

Lemma strip_whitespace_only (s : string) :
  PyStr.whitespace_only s -> PyStr.strip s = EmptyString.
Proof. intros Hs. unfold PyStr.strip. rewrite lstrip_whitespace_only by exact Hs. reflexivity. Qed.

(** C5. When the name typed in the form is blank (empty, or made only of
    whitespace characters), pressing the button creates nothing: the handler
    shows the inline error and returns the very frame it was given, leaving
    the heap, the files, the cache and the identifier supply as they were;
    and the whole run of the page writes no file, so the stored records are
    the same, in number and content, as before. *)
Theorem blank_name_creates_nothing `{Float64Lib}
    (w : world) (df : loc) (f : form) (duree : Z) :
  PyStr.whitespace_only (nom f) ->
  on_enregistrer df f duree w
  = (Ok df, with_ui (w_ui w ++ [SidebarError "⚠️ Le nom est obligatoire"])%list w)
  /\ w_fs (snd (on_enregistrer df f duree w)) = w_fs w
  /\ w_heap (snd (on_enregistrer df f duree w)) = w_heap w
  /\ w_cache (snd (on_enregistrer df f duree w)) = w_cache w
  /\ w_fs (snd (page f w)) = w_fs w.
Proof.
  intros Hblank.
  assert (E : forall l w0, on_enregistrer l f duree w0
              = (Ok l, with_ui (w_ui w0 ++ [SidebarError "⚠️ Le nom est obligatoire"])%list w0)).
  { intros l w0. unfold on_enregistrer. rewrite (strip_whitespace_only _ Hblank).
    reflexivity. }
  split; [apply E|]. rewrite E. cbn [snd].
  repeat split.
  enough (Hpage : reads_only (page f)) by exact (proj1 (Hpage w)).
  rewrite page_unfold. unfold reads_only.
  reads_only_bind; [apply reads_only_load_data|]. intros l.
  reads_only_bind; [reads_only_leaf|]. intros n.
  reads_only_bind; [|intros l'; apply reads_only_render].
  destruct (enregistrer f); [|reads_only_leaf].
  intros w0. unfold on_enregistrer. rewrite (strip_whitespace_only _ Hblank).
  exact (reads_only_emit (SidebarError "⚠️ Le nom est obligatoire") w0).
Qed.

Lemma blank_name_creates_nothing_witness :
  let w := sample_world 738886 in
  let f := blank_form 738886 in
  on_enregistrer (H := RefFloat.lib) 1%positive f 30 w
  = (Ok 1%positive, with_ui (w_ui w ++ [SidebarError "⚠️ Le nom est obligatoire"])%list w)
  /\ w_fs (snd (on_enregistrer (H := RefFloat.lib) 1%positive f 30 w)) = w_fs w
  /\ w_heap (snd (on_enregistrer (H := RefFloat.lib) 1%positive f 30 w)) = w_heap w
  /\ w_cache (snd (on_enregistrer (H := RefFloat.lib) 1%positive f 30 w)) = w_cache w
  /\ w_fs (snd (page (H := RefFloat.lib) f w)) = w_fs w.
Proof.
  intros w f.
  apply (blank_name_creates_nothing (H := RefFloat.lib) w 1%positive f 30).
  apply (PyStr.ws_more 32 _ ltac:(vm_compute; tauto)).
  apply (PyStr.ws_more 160 _ ltac:(vm_compute; tauto)).
  apply (PyStr.ws_more 12288 EmptyString ltac:(vm_compute; tauto)).
  apply PyStr.ws_empty.
Defined.

(** ** Creating a record *)

Lemma to_datetime_inv (o ns : Z) :
  Calendar.to_datetime o = Ok ns ->
  ns = (o - Calendar.EPOCH_ORDINAL) * Calendar.NS_PER_DAY /\ Calendar.ts_date ns = o.
Proof.
  unfold Calendar.to_datetime. destruct (Calendar.ts_in_bounds _); [|discriminate].
  intros E. injection E as <-. split; [reflexivity|].
  unfold Calendar.ts_date. rewrite Z.div_mul by (unfold Calendar.NS_PER_DAY; lia). lia.
Qed.

Lemma ts_add_days_inv (ns d ns' : Z) :
  Calendar.ts_add_days ns d = Ok ns' -> ns' = ns + d * Calendar.NS_PER_DAY.
Proof.
  unfold Calendar.ts_add_days. destruct (Calendar.ts_in_bounds _); [|discriminate].
  intros E. injection E as <-. reflexivity.
Qed.

Lemma timedelta_inv (d d' : Z) : Calendar.timedelta d = Ok d' -> d' = d.
Proof.
  unfold Calendar.timedelta. destruct (_ && _); [|discriminate]. intros E. injection E as <-.
  reflexivity.
Qed.

Lemma ts_date_add_days (o d : Z) :
  Calendar.ts_date ((o - Calendar.EPOCH_ORDINAL) * Calendar.NS_PER_DAY + d * Calendar.NS_PER_DAY)
  = o + d.
Proof.
  unfold Calendar.ts_date. rewrite <- Z.mul_add_distr_r.
  rewrite Z.div_mul by (unfold Calendar.NS_PER_DAY; lia). lia.
Qed.

Section Creation.
Context `{Float64Lib}.

Lemma new_row_inv (f : form) (duree : Z) (w w' : world) (row : DataFrame) :
  new_row f duree w = (Ok row, w') ->
  row = created_row f duree (w_uuid w (w_drawn w))
  /\ w' = with_drawn (S (w_drawn w)) w.
Proof.
  unfold new_row. rewrite bind_run. unfold gen_id at 1.
  rewrite !bind_run, !lift_run.
  destruct (Calendar.to_datetime (debut f)) as [start|e] eqn:Es; [|discriminate].
  rewrite !bind_run, !lift_run.
  destruct (Calendar.timedelta duree) as [delta|e] eqn:Ed; [|discriminate].
  rewrite !bind_run, !lift_run.
  destruct (Calendar.ts_add_days start delta) as [ex|e] eqn:Ee; [|discriminate].
  cbv beta. unfold ret. intros E. injection E as <- <-.
  apply to_datetime_inv in Es as [-> _]. apply timedelta_inv in Ed as ->.
  apply ts_add_days_inv in Ee as ->. split; reflexivity.
Qed.

Lemma new_row_run (f : form) (duree : Z) (w : world) :
  Calendar.ts_in_bounds ((debut f - Calendar.EPOCH_ORDINAL) * Calendar.NS_PER_DAY) = true ->
  Calendar.ts_in_bounds ((debut f - Calendar.EPOCH_ORDINAL) * Calendar.NS_PER_DAY
                         + duree * Calendar.NS_PER_DAY) = true ->
  - Calendar.MAX_DELTA_DAYS <= duree <= Calendar.MAX_DELTA_DAYS ->
  new_row f duree w
  = (Ok (created_row f duree (w_uuid w (w_drawn w))), with_drawn (S (w_drawn w)) w).
Proof.
  intros Hs He Hd. unfold new_row, Calendar.to_datetime. rewrite Hs, (timedelta_ok _ Hd).
  cbv [mbind M_bind bind lift gen_id]. unfold Calendar.ts_add_days. rewrite He.
  reflexivity.
Qed.

Lemma read_columns_lookup (names : list string) (i : nat) (rows : list (list string))
    (pd : list string) (d : DataFrame) (k : string) (s : Series) :
  Csv.read_columns names i rows pd = Ok d ->
  get_col k d = Some s ->
  exists j, nth_error names j = Some k
            /\ read_cells pd k (Csv.column_cells (i + j) rows) = Ok s.
Proof.
  revert i d. induction names as [|k0 names IH]; intros i d; cbn [Csv.read_columns].
  - intros E. injection E as <-. discriminate.
  - fold (read_cells pd k0 (Csv.column_cells i rows)).
    destruct (read_cells pd k0 (Csv.column_cells i rows)) as [s0|e] eqn:E0; [|discriminate].
    cbn [rbind].
    destruct (Csv.read_columns names (S i) rows pd) as [d'|e] eqn:E1; [|discriminate].
    cbn [rbind]. intros E. injection E as <-. cbn [get_col].
    destruct (String.eqb k0 k) eqn:Ek.
    + apply String.eqb_eq in Ek. subst k0. intros E. injection E as <-.
      exists 0%nat. rewrite Nat.add_0_r. split; [reflexivity | exact E0].
    + intros Hk. destruct (IH (S i) d' E1 Hk) as (j & Hj & Hr).
      exists (S j). split; [exact Hj|]. rewrite Nat.add_succ_r. exact Hr.
Qed.

Lemma read_csv_lookup (file : csv_file) (pd : list string) (d : DataFrame)
    (k : string) (s : Series) :
  Csv.read_csv file pd = Ok d ->
  get_col k d = Some s ->
  exists header rows j,
    file = header :: rows
    /\ nth_error header j = Some k
    /\ read_cells pd k (Csv.column_cells j rows) = Ok s.
Proof.
  unfold Csv.read_csv. destruct file as [|header rows]; [discriminate|].
  destruct header as [|h0 header]; [discriminate|].
  destruct (Csv.has_dup _); [discriminate|].
  destruct (negb (forallb _ pd)); [discriminate|].
  destruct (negb (forallb _ rows)); [discriminate|].
  intros E Hk. destruct (read_columns_lookup _ _ _ _ _ _ _ E Hk) as (j & Hj & Hr).
  exists (h0 :: header), rows, j. auto.
Qed.

(** Appending rows leaves the timestamps already in a column where they
    were. *)
Lemma concat_keeps_datetimes (d row : DataFrame) (k : string) (old new : list (option Z)) :
  get_col k d = Some (SDatetime old) ->
  get_col k row = Some (SDatetime new) ->
  get_col k (concat d row)
  = Some (if (length old =? 0)%nat then SDatetime new
          else if (length new =? 0)%nat then SDatetime old
          else SDatetime (old ++ new)%list).
Proof.
  intros Hd Hr. unfold concat.
  set (tail := map _ (List.filter _ row)). clearbody tail.
  induction d as [|[k0 s0] d IH]; cbn [get_col map app fst snd] in *; [discriminate|].
  destruct (String.eqb k0 k) eqn:Ek.
  - apply String.eqb_eq in Ek. subst k0. injection Hd as ->. rewrite Hr.
    cbn [fst snd get_col]. rewrite String.eqb_refl. reflexivity.
  - destruct (get_col k0 row); cbn [fst get_col]; rewrite Ek; apply IH; exact Hd.
Qed.

End Creation.

(** C4. A record produced by the creation code has
    [Expiration = Debut + DureeJours] days, as timestamps and as calendar
    dates, with [Debut] the day picked in the form.  The value is data from
    then on: appending the record to a frame leaves the expirations already
    there in place and adds this one after them, and a later load takes each
    [Expiration] from the text stored in the file's [Expiration] column and
    from nothing else (no duration enters). *)
Theorem expiration_fixed_at_creation `{Float64Lib}
    (f : form) (duree : Z) (w w' : world) (row : DataFrame) :
  new_row f duree w = (Ok row, w') ->
  (exists start expiration : Z,
      get_col "Debut" row = Some (SDatetime [Some start])
      /\ get_col "Expiration" row = Some (SDatetime [Some expiration])
      /\ get_col "DureeJours" row = Some (SInt64 [duree])
      /\ expiration = start + duree * Calendar.NS_PER_DAY
      /\ Calendar.ts_date start = debut f
      /\ Calendar.ts_date expiration = Calendar.ts_date start + duree
      /\ (forall (d : DataFrame) (x : option Z) (old : list (option Z)),
            get_col "Expiration" d = Some (SDatetime (x :: old)) ->
            get_col "Expiration" (concat d row)
            = Some (SDatetime ((x :: old) ++ [Some expiration])%list)))
  /\ (forall (file : csv_file) (d : DataFrame) (s : Series),
        Csv.read_csv file ["Debut"; "Expiration"] = Ok d ->
        get_col "Expiration" d = Some s ->
        exists header rows j,
          file = header :: rows
          /\ nth_error header j = Some "Expiration"
          /\ Csv.parse_date_column (Csv.column_cells j rows) = Ok s).
Proof.
  intros Hrun. apply new_row_inv in Hrun as [-> _]. split.
  - set (row := created_row f duree (w_uuid w (w_drawn w))).
    exists ((debut f - Calendar.EPOCH_ORDINAL) * Calendar.NS_PER_DAY),
           ((debut f - Calendar.EPOCH_ORDINAL) * Calendar.NS_PER_DAY
            + duree * Calendar.NS_PER_DAY).
    assert (Hstart : Calendar.ts_date ((debut f - Calendar.EPOCH_ORDINAL) * Calendar.NS_PER_DAY)
                     = debut f).
    { unfold Calendar.ts_date.
      rewrite Z.div_mul by (unfold Calendar.NS_PER_DAY; lia). lia. }
    split; [reflexivity|]. split; [reflexivity|]. split; [reflexivity|].
    split; [reflexivity|]. split; [exact Hstart|].
    split; [rewrite ts_date_add_days, Hstart; reflexivity|].
    intros d x old Hd.
    assert (Hrow : get_col "Expiration" row
                   = Some (SDatetime [Some ((debut f - Calendar.EPOCH_ORDINAL) * Calendar.NS_PER_DAY
                                            + duree * Calendar.NS_PER_DAY)]))
      by reflexivity.
    rewrite (concat_keeps_datetimes d row "Expiration" _ _ Hd Hrow). reflexivity.
  - intros file d s Hread Hcol.
    destruct (read_csv_lookup _ _ _ _ _ Hread Hcol) as (header & rows & j & Hf & Hj & Hr).
    exists header, rows, j. repeat split; assumption.
Qed.

Lemma expiration_fixed_at_creation_witness :
  exists start expiration : Z,
    get_col "Debut" (created_row january_form 30 "id-0") = Some (SDatetime [Some start])
    /\ get_col "Expiration" (created_row january_form 30 "id-0")
       = Some (SDatetime [Some expiration])
    /\ get_col "DureeJours" (created_row january_form 30 "id-0") = Some (SInt64 [30])
    /\ expiration = start + 30 * Calendar.NS_PER_DAY
    /\ Calendar.ts_date start = Calendar.ymd2ord 2024 1 1
    /\ Calendar.ts_date expiration = Calendar.ts_date start + 30
    /\ (forall (d : DataFrame) (x : option Z) (old : list (option Z)),
          get_col "Expiration" d = Some (SDatetime (x :: old)) ->
          get_col "Expiration" (concat d (created_row january_form 30 "id-0"))
          = Some (SDatetime ((x :: old) ++ [Some expiration])%list)).
Proof.
  exact (proj1 (expiration_fixed_at_creation (H := RefFloat.lib) january_form 30
                  (blank_world 738886) (with_drawn 1 (blank_world 738886))
                  (created_row january_form 30 "id-0") eq_refl)).
Defined.

(** The scenario of the specification: a plan of 30 days started on
    2024-01-01 expires on 2024-01-31. *)
Example january_expiration :
  get_col "Expiration" (created_row january_form 30 "id-0")
  = Some (SDatetime [Some ((Calendar.ymd2ord 2024 1 31 - Calendar.EPOCH_ORDINAL)
                           * Calendar.NS_PER_DAY)]).
Proof. reflexivity. Qed.

(** A stored expiration that is not start + duration is loaded as stored. *)
Example stored_expiration_is_not_recomputed :
  rbind (Csv.read_csv (H := RefFloat.lib)
           [COLUMNS;
            ["id-0"; "Amine"; "0550123456"; "Mensuel (30j)"; "30"; "1000.0";
             "2024-01-01"; "2024-03-15"; "renouvelé"]]
           ["Debut"; "Expiration"])
        (fun d => Ok (get_col "DureeJours" d, get_col "Debut" d, get_col "Expiration" d))
  = Ok (Some (SInt64 [30]),
        Some (SDatetime [Some ((Calendar.ymd2ord 2024 1 1 - Calendar.EPOCH_ORDINAL)
                               * Calendar.NS_PER_DAY)]),
        Some (SDatetime [Some ((Calendar.ymd2ord 2024 3 15 - Calendar.EPOCH_ORDINAL)
                               * Calendar.NS_PER_DAY)])).
Proof. vm_compute. reflexivity. Qed.

(** ** Appending a record *)

Section Append.
Context `{Float64Lib}.

Lemma save_data_run (df : loc) (d : DataFrame) (path : string) (w : world) :
  w_heap w !! df = Some d ->
  save_data df path w
  = match w_disk w with
    | DiskOk => (Ok tt, with_cache ∅ (with_fs (<[path := Csv.to_csv d]> (w_fs w)) w))
    | PermissionDenied => (Raise OSError, w)
    | DiskFull n => (Raise OSError, with_fs (<[path := take n (Csv.to_csv d)]> (w_fs w)) w)
    end.
Proof.
  intros Hdf. unfold save_data. run_ok (deref_run _ _ _ Hdf).
  rewrite bind_run. unfold to_csv_path. destruct (w_disk w); reflexivity.
Qed.

Lemma on_enregistrer_inv (df df' : loc) (f : form) (duree : Z) (w w' : world) :
  PyStr.truthy (PyStr.strip (nom f)) = true ->
  on_enregistrer df f duree w = (Ok df', w') ->
  exists d,
    w_heap w !! df = Some d
    /\ w_disk w = DiskOk
    /\ new_row f duree w
       = (Ok (created_row f duree (w_uuid w (w_drawn w))), with_drawn (S (w_drawn w)) w)
    /\ df' = fresh (dom (w_heap w))
    /\ w' = appended w d (created_row f duree (w_uuid w (w_drawn w))).
Proof.
  intros Hname. unfold on_enregistrer. rewrite Hname. cbn [negb].
  rewrite bind_run.
  destruct (new_row f duree w) as [[row|e] w1] eqn:En; [|discriminate].
  destruct (new_row_inv _ _ _ _ _ En) as [-> ->].
  rewrite bind_run. unfold deref at 1. cbn [w_heap with_drawn].
  destruct (w_heap w !! df) as [d|] eqn:Hdf; [|discriminate].
  rewrite bind_run, alloc_run. cbn [w_heap with_drawn].
  set (row := created_row _ _ _).
  set (df1 := fresh (dom (w_heap w))).
  set (w2 := with_heap _ _).
  assert (H2 : w_heap w2 !! df1 = Some (concat d row))
    by (subst w2; cbn; apply lookup_insert_eq).
  rewrite bind_run, (save_data_run _ _ _ _ H2).
  replace (w_disk w2) with (w_disk w) by reflexivity.
  destruct (w_disk w) eqn:Hdisk; try discriminate.
  rewrite bind_run, emit_run. unfold ret. intros E. injection E as <- <-.
  exists d. repeat split.
Qed.

Lemma on_enregistrer_run (df : loc) (d : DataFrame) (f : form) (duree : Z) (w : world) :
  PyStr.truthy (PyStr.strip (nom f)) = true ->
  w_heap w !! df = Some d ->
  w_disk w = DiskOk ->
  new_row f duree w
  = (Ok (created_row f duree (w_uuid w (w_drawn w))), with_drawn (S (w_drawn w)) w) ->
  on_enregistrer df f duree w
  = (Ok (fresh (dom (w_heap w))),
     appended w d (created_row f duree (w_uuid w (w_drawn w)))).
Proof.
  intros Hname Hdf Hdisk Hrow. unfold on_enregistrer. rewrite Hname. cbn [negb].
  run_ok Hrow.
  assert (H1 : w_heap (with_drawn (S (w_drawn w)) w) !! df = Some d) by exact Hdf.
  run_ok (deref_run _ _ _ H1).
  rewrite bind_run, alloc_run. cbn [w_heap with_drawn].
  set (row := created_row _ _ _).
  set (df1 := fresh (dom (w_heap w))).
  set (w2 := with_heap _ _).
  assert (H2 : w_heap w2 !! df1 = Some (concat d row))
    by (subst w2; cbn; apply lookup_insert_eq).
  rewrite bind_run, (save_data_run _ _ _ _ H2).
  replace (w_disk w2) with (w_disk w) by reflexivity. rewrite Hdisk.
  rewrite bind_run, emit_run. reflexivity.
Qed.

(** Lengths through concatenation, writing and reading. *)
Lemma series_len_missing_like (s : Series) (n : nat) : series_len (missing_like s n) = n.
Proof. destruct s; cbn; apply repeat_length. Qed.

Lemma series_len_concat (a b : Series) :
  series_len (concat_series a b) = (series_len a + series_len b)%nat.
Proof.
  unfold concat_series.
  destruct (series_len a =? 0)%nat eqn:Ea; [apply Nat.eqb_eq in Ea; lia|].
  destruct (series_len b =? 0)%nat eqn:Eb; [apply Nat.eqb_eq in Eb; lia|].
  destruct a, b; cbn [series_len series_values];
    rewrite ?length_app, ?length_map; reflexivity.
Qed.

Lemma nrows_concat (d row : DataFrame) :
  rectangular row -> nrows (concat d row) = (nrows d + nrows row)%nat.
Proof.
  intros Hrow. unfold concat. destruct d as [|[k s] d].
  - cbn [map app nrows columns Csv.mem_str existsb negb].
    destruct row as [|[k s] row]; [reflexivity|].
    cbn. rewrite series_len_concat, series_len_missing_like. reflexivity.
  - cbn [map app nrows fst snd].
    destruct (get_col k row) as [sb|] eqn:Ek; cbn [nrows];
      rewrite series_len_concat.
    + rewrite (get_col_len _ _ _ Hrow Ek). reflexivity.
    + rewrite series_len_missing_like. reflexivity.
Qed.

Lemma to_csv_length (d : DataFrame) : length (Csv.to_csv d) = S (nrows d).
Proof. unfold Csv.to_csv, Csv.csv_rows. cbn. rewrite length_map, length_seq. reflexivity. Qed.

End Append.

Section Reload.
Context `{Float64Lib}.

Lemma rmap_length {A B} (f : A -> result B) (l : list A) (l' : list B) :
  rmap f l = Ok l' -> length l' = length l.
Proof.
  revert l'. induction l as [|x l IH]; cbn [rmap]; intros l' E.
  - injection E as <-. reflexivity.
  - destruct (f x) as [y|e]; [|discriminate]. cbn [rbind] in E.
    destruct (rmap f l) as [ys|e]; [|discriminate]. cbn [rbind] in E.
    injection E as <-. cbn. f_equal. apply IH. reflexivity.
Qed.

Lemma all_some_length {A B} (f : A -> option B) (l : list A) (l' : list B) :
  all_some f l = Some l' -> length l' = length l.
Proof.
  revert l'. induction l as [|x l IH]; cbn [all_some]; intros l' E.
  - injection E as <-. reflexivity.
  - destruct (f x) as [y|]; [|discriminate].
    destruct (all_some f l) as [ys|]; [|discriminate].
    injection E as <-. cbn. f_equal. apply IH. reflexivity.
Qed.

Lemma infer_column_length (cells : list string) (s : Series) :
  Csv.infer_column cells = Ok s -> series_len s = length cells.
Proof.
  unfold Csv.infer_column. destruct cells as [|c cells]; [intros E; injection E as <-; reflexivity|].
  set (cs := c :: cells). clearbody cs.
  destruct (List.filter _ cs); [intros E; injection E as <-; cbn; apply length_map|].
  destruct (_ && _); [discriminate|].
  destruct (all_some Csv.int_of_token cs) as [l1|] eqn:E1;
    [intros E; injection E as <-; cbn; eapply all_some_length; eauto|].
  destruct (all_some Csv.float_of_cell cs) as [l2|] eqn:E2;
    [intros E; injection E as <-; cbn; eapply all_some_length; eauto|].
  destruct (all_some Csv.parse_bool cs) as [l3|] eqn:E3;
    [intros E; injection E as <-; cbn; eapply all_some_length; eauto|].
  intros E; injection E as <-. cbn. apply length_map.
Qed.

Lemma parse_date_column_length (cells : list string) (s : Series) :
  Csv.parse_date_column cells = Ok s -> series_len s = length cells.
Proof.
  unfold Csv.parse_date_column.
  destruct (rmap Csv.date_of_cell cells) as [l|e] eqn:E; [|discriminate].
  cbn [rbind]. intros E'. injection E' as <-. cbn. eapply rmap_length; eauto.
Qed.

Lemma read_csv_nrows (header : list string) (rows : list (list string))
    (pd : list string) (d : DataFrame) :
  Csv.read_csv (header :: rows) pd = Ok d -> nrows d = length rows.
Proof.
  unfold Csv.read_csv. destruct header as [|k header]; [discriminate|].
  destruct (Csv.has_dup _); [discriminate|].
  destruct (negb (forallb _ pd)); [discriminate|].
  destruct (negb (forallb _ rows)); [discriminate|].
  cbn [Csv.read_columns].
  destruct (if Csv.mem_str k pd then _ else _) as [s|e] eqn:Es; [|discriminate].
  cbn [rbind]. destruct (Csv.read_columns header 1 rows pd); [|discriminate].
  cbn [rbind]. intros E. injection E as <-. cbn [nrows].
  destruct (Csv.mem_str k pd).
  - rewrite (parse_date_column_length _ _ Es). apply length_map.
  - rewrite (infer_column_length _ _ Es). apply length_map.
Qed.

(** A load with nothing cached goes to the file. *)
Lemma load_data_uncached (path : string) (file : csv_file) (w : world) :
  w_cache w !! path = None ->
  w_fs w !! path = Some file ->
  load_data path w
  = match Csv.read_csv file ["Debut"; "Expiration"] with
    | Ok d =>
        (Ok (fresh (dom (w_heap w))),
         with_heap (<[fresh (dom (w_heap w)) := d]> (w_heap w))
           (with_cache (<[path := d]> (w_cache w)) w))
    | Raise e => (Raise e, w)
    end.
Proof.
  intros Hc Hf. unfold load_data, st_cache_data, load_data_body. rewrite Hc, Hf.
  destruct (Csv.read_csv file _); reflexivity.
Qed.

(** A load with a cached value never looks at the file. *)
Lemma load_data_cached (path : string) (d : DataFrame) (w : world) :
  w_cache w !! path = Some d ->
  load_data path w
  = (Ok (fresh (dom (w_heap w))), with_heap (<[fresh (dom (w_heap w)) := d]> (w_heap w)) w).
Proof. intros Hc. unfold load_data, st_cache_data. rewrite Hc. reflexivity. Qed.

End Reload.

Lemma created_row_rectangular (f : form) (duree : Z) (id : string) :
  rectangular (created_row f duree id) /\ nrows (created_row f duree id) = 1%nat.
Proof. split; [unfold rectangular, created_row; repeat constructor | reflexivity]. Qed.



(** What that run leaves on disk, and what the next load returns. *)
Example append_then_load :
  let w := stocked_world 738886 DiskOk in
  let w' := snd (on_enregistrer (H := RefFloat.lib) 1%positive lina_form 10 w) in
  w_fs w' !! DATA_PATH
  = Some [COLUMNS;
          ["7d0c2c1e"; "Amine"; "0550123456"; "Mensuel (30j)"; "30"; "1000.0";
           "2024-01-01"; "2024-01-31"; ""];
          ["id-1"; "Lina"; "0661000000"; "Personnalisé…"; "10"; "1500.0";
           "2024-01-05"; "2024-01-15"; "essai"]]
  /\ w_cache w' = ∅
  /\ (let out := load_data (H := RefFloat.lib) DATA_PATH w' in
      rbind (fst out) (fun l => Ok (option_map (get_col "Nom") (w_heap (snd out) !! l)))
      = Ok (Some (Some (SObject [PStr "Amine"; PStr "Lina"])))).
Proof. vm_compute. repeat split. Qed.

(** ** Failed writes *)

Section FailedWrites.
Context `{Float64Lib}.

Lemma save_data_failure (df : loc) (d : DataFrame) (path : string) (w : world) :
  w_heap w !! df = Some d ->
  w_disk w <> DiskOk ->
  fst (save_data df path w) = Raise OSError
  /\ w_cache (snd (save_data df path w)) = w_cache w
  /\ w_heap (snd (save_data df path w)) = w_heap w
  /\ (w_disk w = PermissionDenied -> w_fs (snd (save_data df path w)) = w_fs w)
  /\ (forall n, w_disk w = DiskFull n ->
        w_fs (snd (save_data df path w)) !! path = Some (take n (Csv.to_csv d)))
  /\ (forall other, other <> path ->
        w_fs (snd (save_data df path w)) !! other = w_fs w !! other).
Proof.
  intros Hdf Hdisk. rewrite (save_data_run _ _ _ _ Hdf).
  destruct (w_disk w) as [| |n] eqn:E; [contradiction| |]; cbn [fst snd].
  - repeat split; auto. intros n Hn. discriminate.
  - repeat split; auto.
    + intros Hn. discriminate.
    + intros n' Hn. injection Hn as <-. cbn. apply lookup_insert_eq.
    + intros other Hne. cbn. apply lookup_insert_ne. congruence.
Qed.

End FailedWrites.

(** C9, as stated, fails: the disk fills up as the file is reopened for
    writing.  The file held the header and one record; after the failed
    write it holds nothing, and the next uncached load cannot even parse it. *)
Lemma failed_write_truncates_the_file :
  let w := stocked_world 738886 (DiskFull 0) in
  let out := on_enregistrer (H := RefFloat.lib) 1%positive lina_form 10 w in
  w_fs w !! DATA_PATH
  = Some [COLUMNS;
          ["7d0c2c1e"; "Amine"; "0550123456"; "Mensuel (30j)"; "30"; "1000.0";
           "2024-01-01"; "2024-01-31"; ""]]
  /\ fst out = Raise OSError
  /\ w_fs (snd out) !! DATA_PATH = Some []
  /\ fst (load_data_body (H := RefFloat.lib) DATA_PATH (snd out)) = Raise EmptyDataError.
Proof. vm_compute. repeat split. Qed.

(** C9, amended.  [save_data] overwrites the backing file in place; there is
    no temporary file.  When a write fails, the exception propagates and the
    cache is not cleared.  If the failure is at opening the file (permission
    denied), the stored data is untouched.  If it comes after the file was
    opened (the disk fills up), the file holds only the lines of the new
    content written before the failure, and what it held before is gone.
    Other files are never touched. *)
Theorem failed_write_overwrites_in_place `{Float64Lib}
    (df : loc) (d : DataFrame) (w : world) :
  w_heap w !! df = Some d ->
  w_disk w <> DiskOk ->
  fst (save_data df DATA_PATH w) = Raise OSError
  /\ w_cache (snd (save_data df DATA_PATH w)) = w_cache w
  /\ (w_disk w = PermissionDenied -> w_fs (snd (save_data df DATA_PATH w)) = w_fs w)
  /\ (forall n, w_disk w = DiskFull n ->
        w_fs (snd (save_data df DATA_PATH w)) !! DATA_PATH = Some (take n (Csv.to_csv d)))
  /\ (forall other, other <> DATA_PATH ->
        w_fs (snd (save_data df DATA_PATH w)) !! other = w_fs w !! other).
Proof.
  intros Hdf Hdisk.
  destruct (save_data_failure df d DATA_PATH w Hdf Hdisk) as (A & B & _ & C & D & E).
  repeat split; assumption.
Qed.

Lemma failed_write_overwrites_in_place_witness :
  let w := stocked_world 738886 (DiskFull 1) in
  let out := save_data (H := RefFloat.lib) 1%positive DATA_PATH w in
  fst out = Raise OSError
  /\ w_cache (snd out) = w_cache w
  /\ (w_disk w = PermissionDenied -> w_fs (snd out) = w_fs w)
  /\ (forall n, w_disk w = DiskFull n ->
        w_fs (snd out) !! DATA_PATH
        = Some (take n (Csv.to_csv (H := RefFloat.lib) sample_record)))
  /\ (forall other, other <> DATA_PATH -> w_fs (snd out) !! other = w_fs w !! other).
Proof.
  intros w out.
  refine (failed_write_overwrites_in_place (H := RefFloat.lib) 1%positive sample_record w _ _).
  - apply lookup_insert_eq.
  - discriminate.
Defined.

(** C6 (the code departs from the claim).  A record exactly as the form
    creates it, with a phone number and no remark, is saved and loaded back:
    the dates, the duration and the amount return as they were, but the text
    fields do not.  The phone number "0550123456" returns as the integer
    550123456 and the empty remark returns as a missing value (NaN). *)
Theorem text_fields_do_not_round_trip :
  let record := created_row january_form 30 "id-0" in
  let w := with_heap (<[1%positive := record]> ∅) (blank_world 738886) in
  let saved := snd (save_data (H := RefFloat.lib) 1%positive DATA_PATH w) in
  let out := load_data (H := RefFloat.lib) DATA_PATH saved in
  record
  = [("ID", SObject [PStr "id-0"]);
     ("Nom", SObject [PStr "Amine"]);
     ("Telephone", SObject [PStr "0550123456"]);
     ("Abonnement", SObject [PStr "Mensuel (30j)"]);
     ("DureeJours", SInt64 [30]);
     ("Montant", SFloat64 [1000%float]);
     ("Debut", SDatetime [Some 1704067200000000000]);
     ("Expiration", SDatetime [Some 1706659200000000000]);
     ("Remarques", SObject [PStr ""])]
  /\ w_fs saved !! DATA_PATH
     = Some [COLUMNS;
             ["id-0"; "Amine"; "0550123456"; "Mensuel (30j)"; "30"; "1000.0";
              "2024-01-01"; "2024-01-31"; ""]]
  /\ rbind (fst out) (fun l => Ok (w_heap (snd out) !! l))
     = Ok (Some [("ID", SObject [PStr "id-0"]);
                 ("Nom", SObject [PStr "Amine"]);
                 ("Telephone", SInt64 [550123456]);
                 ("Abonnement", SObject [PStr "Mensuel (30j)"]);
                 ("DureeJours", SInt64 [30]);
                 ("Montant", SFloat64 [1000%float]);
                 ("Debut", SDatetime [Some 1704067200000000000]);
                 ("Expiration", SDatetime [Some 1706659200000000000]);
                 ("Remarques", SFloat64 [PrimFloat.nan])]).
Proof. vm_compute. repeat split. Qed.

(** The loss reaches the file with the next append: a session that starts
    from the stored record and adds one rewrites the first phone number
    without its leading zero. *)
Example leading_zero_lost_on_disk :
  let out := page (H := RefFloat.lib) lina_form (stored_world 738886) in
  w_fs (stored_world 738886) !! DATA_PATH
  = Some [COLUMNS;
          ["7d0c2c1e"; "Amine"; "0550123456"; "Mensuel (30j)"; "30"; "1000.0";
           "2024-01-01"; "2024-01-31"; ""]]
  /\ fst out = Ok tt
  /\ w_fs (snd out) !! DATA_PATH
     = Some [COLUMNS;
             ["7d0c2c1e"; "Amine"; "550123456"; "Mensuel (30j)"; "30"; "1000.0";
              "2024-01-01"; "2024-01-31"; ""];
             ["id-0"; "Lina"; "0661000000"; "Personnalisé…"; "10"; "1500.0";
              "2024-01-05"; "2024-01-15"; "essai"]].
Proof. vm_compute. repeat split. Qed.

(** ** Revenue by month *)

Lemma all_from_spec (fuel : nat) (o : Z) (p : Z -> bool) :
  all_from fuel o p = true ->
  forall x, o <= x < o + Z.of_nat fuel -> p x = true.
Proof.
  revert o. induction fuel as [|fuel IH]; intros o Hall x Hx; [lia|].
  cbn [all_from] in Hall. apply andb_prop in Hall as [Ho Hrest].
  destruct (Z.eq_dec x o) as [->|Hne]; [exact Ho|].
  apply (IH (o + 1) Hrest). lia.
Qed.

(** The calendar's reading of a day a Timestamp can fall on
    (1677-09-21 .. 2262-04-11): the year and the month are in range. *)
Lemma ord2ymd_range (o : Z) :
  612411 <= o <= 825914 ->
  exists y m d, Calendar.ord2ymd o = (y, m, d) /\ 1677 <= y <= 2262 /\ 1 <= m <= 12.
Proof.
  intros Ho. unfold Calendar.ord2ymd, Calendar.DI400Y, Calendar.DI100Y, Calendar.DI4Y.
  set (n0 := o - 1).
  set (n400 := n0 / 146097). set (r400 := n0 mod 146097).
  set (n100 := r400 / 36524). set (r100 := r400 mod 36524).
  set (n4 := r100 / 1461). set (r4 := r100 mod 1461).
  set (n1 := r4 / 365). set (n := r4 mod 365).
  assert (Hn : 0 <= n < 365) by (subst n; apply Z.mod_pos_bound; lia).
  assert (Hy : 1677 <= n400 * 400 + 1 + n100 * 100 + n4 * 4 + n1 <= 2263
               /\ ((n1 = 4 \/ n100 = 4) -> 1678 <= n400 * 400 + 1 + n100 * 100 + n4 * 4 + n1)
               /\ (n1 <> 4 -> n100 <> 4 -> n400 * 400 + 1 + n100 * 100 + n4 * 4 + n1 <= 2262)).
  { subst n400 r400 n100 r100 n4 r4 n1 n0. clear Hn n. Z.div_mod_to_equations. lia. }
  clearbody n400 n100 n4 n1 n. clear r4 r100 r400 n0.
  destruct ((n1 =? 4) || (n100 =? 4)) eqn:E.
  - eexists _, _, _. split; [reflexivity|].
    apply orb_true_iff in E. rewrite !Z.eqb_eq in E. lia.
  - apply orb_false_iff in E as [E1 E2]. apply Z.eqb_neq in E1, E2.
    rewrite Z.shiftr_div_pow2 by lia. change (2 ^ 5) with 32.
    set (month := (n + 50) / 32).
    assert (Hm : 1 <= month <= 12) by (subst month; Z.div_mod_to_equations; lia).
    set (leap := (n1 =? 3) && (negb (n4 =? 24) || (n100 =? 3))).
    clearbody month leap. destruct Hy as (Hy1 & Hy2 & Hy3). specialize (Hy3 E1 E2).
    destruct (n <? _) eqn:Elt.
    + eexists _, _, _. split; [reflexivity|]. split; [lia|].
      destruct (Z.eq_dec month 1) as [E|E]; [|lia].
      exfalso. rewrite E in Elt.
      change (nth (Z.to_nat 1) Calendar.DAYS_BEFORE_MONTH 0
              + (if (2 <? 1) && leap then 1 else 0)) with 0 in Elt.
      apply Z.ltb_lt in Elt. lia.
    + eexists _, _, _. split; [reflexivity|]. lia.
Qed.

(** Checked on the 7032 months of the years 1677 .. 2262, numbered from
    January 1677. *)
Lemma first_days_checked :
  all_from (Z.to_nat (586 * 12)) (1677 * 12)
           (fun k => first_day_ok (k / 12) (k mod 12 + 1)) = true.
Proof. vm_compute. reflexivity. Qed.

Lemma first_day_ok_sound (y m : Z) :
  first_day_ok y m = true -> Calendar.ord2ymd (Calendar.ymd2ord y m 1) = (y, m, 1).
Proof.
  unfold first_day_ok.
  destruct (Calendar.ord2ymd (Calendar.ymd2ord y m 1)) as [[y' m'] d'].
  intros Hok.
  apply andb_prop in Hok as [Hok H3]. apply andb_prop in Hok as [H1 H2].
  apply Z.eqb_eq in H1, H2, H3. subst. reflexivity.
Qed.

Lemma ord2ymd_first_day (y m : Z) :
  1677 <= y <= 2262 -> 1 <= m <= 12 ->
  Calendar.ord2ymd (Calendar.ymd2ord y m 1) = (y, m, 1).
Proof.
  intros Hy Hm. apply first_day_ok_sound.
  assert (Hk : 1677 * 12 <= y * 12 + (m - 1) < 1677 * 12 + Z.of_nat (Z.to_nat (586 * 12)))
    by (rewrite Z2Nat.id by lia; lia).
  pose proof (all_from_spec _ _ _ first_days_checked _ Hk) as Hok. cbv beta in Hok.
  assert (E1 : (y * 12 + (m - 1)) / 12 = y) by (clear Hok; Z.div_mod_to_equations; lia).
  assert (E2 : (y * 12 + (m - 1)) mod 12 + 1 = m) by (clear Hok; Z.div_mod_to_equations; lia).
  rewrite E1, E2 in Hok. exact Hok.
Qed.

Lemma ts_date_in_range (ns : Z) :
  Calendar.ts_in_bounds ns = true -> 612411 <= Calendar.ts_date ns <= 825914.
Proof.
  unfold Calendar.ts_in_bounds, Calendar.ts_date, Calendar.TS_MIN, Calendar.TS_MAX,
    Calendar.NS_PER_DAY, Calendar.EPOCH_ORDINAL.
  intros Hb. apply andb_prop in Hb as [Hl Hu].
  apply Z.leb_le in Hl. apply Z.leb_le in Hu.
  pose proof (Z.div_le_mono _ _ 86400000000000 ltac:(lia) Hl) as Hlo.
  pose proof (Z.div_le_mono _ _ 86400000000000 ltac:(lia) Hu) as Hhi.
  change (-9223372036854775807 / 86400000000000) with (-106752) in Hlo.
  change (9223372036854775807 / 86400000000000) with 106751 in Hhi.
  lia.
Qed.

(** The month key of a timestamp is midnight of day 1 of the timestamp's
    own year and month. *)
Lemma month_start_first_of_month (ns : Z) :
  Calendar.ts_in_bounds ns = true ->
  exists y m d,
    Calendar.ord2ymd (Calendar.ts_date ns) = (y, m, d)
    /\ Calendar.ord2ymd (Calendar.ts_date (Calendar.month_start ns)) = (y, m, 1)
    /\ Calendar.month_start ns mod Calendar.NS_PER_DAY = 0.
Proof.
  intros Hb.
  destruct (ord2ymd_range _ (ts_date_in_range ns Hb)) as (y & m & d & E & Hy & Hm).
  exists y, m, d. split; [exact E|]. unfold Calendar.month_start. rewrite E.
  split.
  - unfold Calendar.ts_date at 1. rewrite Z.div_mul by (unfold Calendar.NS_PER_DAY; lia).
    replace (Calendar.ymd2ord y m 1 - Calendar.EPOCH_ORDINAL + Calendar.EPOCH_ORDINAL)
      with (Calendar.ymd2ord y m 1) by lia.
    apply ord2ymd_first_day; assumption.
  - apply Z.mod_mul. unfold Calendar.NS_PER_DAY. lia.
Qed.

Lemma insert_uniq_In (k x : Z) (l : list Z) :
  In x (insert_uniq k l) <-> x = k \/ In x l.
Proof.
  induction l as [|y l IH]; cbn [insert_uniq In]; [intuition congruence|].
  destruct (k <? y) eqn:E1; [cbn [In]; intuition congruence|].
  destruct (k =? y) eqn:E2.
  - apply Z.eqb_eq in E2. subst y. cbn [In]. intuition congruence.
  - cbn [In]. rewrite IH. tauto.
Qed.

Lemma insert_uniq_sorted (k : Z) (l : list Z) :
  StronglySorted Z.lt l -> StronglySorted Z.lt (insert_uniq k l).
Proof.
  induction l as [|y l IH]; intros Hs; cbn [insert_uniq].
  - repeat constructor.
  - apply StronglySorted_inv in Hs as [Hl Hy].
    destruct (k <? y) eqn:E1.
    + apply Z.ltb_lt in E1. constructor; [constructor; assumption|].
      constructor; [exact E1|]. rewrite List.Forall_forall in *. intros z Hz.
      specialize (Hy z Hz). lia.
    + destruct (k =? y) eqn:E2; [constructor; assumption|].
      apply Z.ltb_ge in E1. apply Z.eqb_neq in E2.
      constructor; [apply IH; exact Hl|].
      rewrite List.Forall_forall in *. intros z Hz. apply insert_uniq_In in Hz as [->|Hz]; [lia|].
      apply Hy; exact Hz.
Qed.

Lemma sorted_keys_sorted (keys : list (option Z)) : StronglySorted Z.lt (sorted_keys keys).
Proof.
  induction keys as [|[k|] keys IH]; cbn;
    [constructor | apply insert_uniq_sorted; exact IH | exact IH].
Qed.

Lemma sorted_keys_In (m : Z) (keys : list (option Z)) :
  In m (sorted_keys keys) <-> In (Some m) keys.
Proof.
  induction keys as [|[k|] keys IH]; cbn [sorted_keys fold_right In]; [tauto| |].
  - fold (sorted_keys keys). rewrite insert_uniq_In, IH. intuition congruence.
  - fold (sorted_keys keys). rewrite IH. intuition discriminate.
Qed.

Lemma group_values_months (m : Z) (debuts : list Z) (amounts : list float) :
  group_values m (map (fun ns => Some (Calendar.month_start ns)) debuts) amounts
  = amounts_of_month m debuts amounts.
Proof.
  unfold amounts_of_month. revert amounts.
  induction debuts as [|ns debuts IH]; intros [|x amounts]; cbn; try reflexivity.
  destruct (Calendar.month_start ns =? m); cbn; rewrite IH; reflexivity.
Qed.

Lemma rmap_month_start (debuts : list Z) :
  Forall (fun ns => Calendar.ts_in_bounds (Calendar.month_start ns) = true) debuts ->
  rmap (fun o : option Z =>
          match o with
          | Some ns =>
              if Calendar.ts_in_bounds (Calendar.month_start ns)
              then Ok (Some (Calendar.month_start ns))
              else Raise OutOfBoundsDatetime
          | None => Ok None
          end) (map Some debuts)
  = Ok (map (fun ns => Some (Calendar.month_start ns)) debuts).
Proof.
  induction 1 as [|ns debuts Hb _ IH]; cbn [rmap map]; [reflexivity|].
  rewrite Hb. cbn [rbind]. rewrite IH. reflexivity.
Qed.

Section Revenue.
Context `{Float64Lib}.

Lemma revenue_by_month_run (w : world) (df_status : loc) (d : DataFrame)
    (debuts : list Z) (amounts : list float) :
  w_heap w !! df_status = Some d ->
  rectangular d ->
  get_col "Debut" d = Some (SDatetime (map Some debuts)) ->
  get_col "Montant" d = Some (SFloat64 amounts) ->
  Forall (fun ns => Calendar.ts_in_bounds (Calendar.month_start ns) = true) debuts ->
  let months := sorted_keys (map (fun ns => Some (Calendar.month_start ns)) debuts) in
  exists w',
    revenue_by_month df_status w
    = (Ok [("Mois", SDatetime (map Some months));
           ("Montant",
            SFloat64 (map (fun m => f64_sum (List.filter not_nan
                                               (amounts_of_month m debuts amounts)))
                          months))],
       w').
Proof.
  intros Hdf Hrect Hdeb Hmon Hb months. unfold revenue_by_month.
  run_ok (getitem_run _ _ _ _ _ Hdf Hdeb).
  rewrite bind_run, lift_run. cbn [dt_month_start]. rewrite (rmap_month_start _ Hb).
  cbn [rbind].
  set (mois := SDatetime (map (fun ns => Some (Calendar.month_start ns)) debuts)).
  assert (Hlen : series_len mois = nrows d).
  { pose proof (get_col_len _ _ _ Hrect Hdeb) as Hl. cbn [series_len] in Hl.
    rewrite length_map in Hl. subst mois. cbn [series_len]. rewrite length_map. exact Hl. }
  run_ok (setitem_run _ "Mois" _ _ _ Hdf Hlen).
  set (w1 := with_heap _ w).
  assert (H1 : w_heap w1 !! df_status = Some (set_col "Mois" mois d))
    by (subst w1; cbn; apply lookup_insert_eq).
  run_ok (deref_run _ _ _ H1). rewrite lift_run.
  exists w1. f_equal. unfold groupby_sum.
  rewrite get_col_set_col_eq. subst mois.
  rewrite get_col_set_col_ne by discriminate. rewrite Hmon.
  rewrite (List.map_ext _ _ (fun m => f_equal (fun l => f64_sum (List.filter not_nan l))
                                        (group_values_months m debuts amounts))).
  reflexivity.
Qed.
End Revenue.



(** * Dates through the file *)

(** ** The calendar: [ord2ymd] reads a day number back into its date *)

(** The leap-year rule, in words of divisibility. *)
Lemma is_leap_spec (y : Z) :
  Calendar.is_leap y = true <-> (y mod 4 = 0 /\ (y mod 100 <> 0 \/ y mod 400 = 0)).
Proof.
  unfold Calendar.is_leap. rewrite andb_true_iff, orb_true_iff, negb_true_iff.
  rewrite !Z.eqb_eq, Z.eqb_neq. tauto.
Qed.

(** The decomposition of a day number into cycles of 400, 100, 4 and 1 years. *)
Lemma ord_cycles (n0 : Z) :
  0 <= n0 ->
  let n400 := n0 / 146097 in let r400 := n0 mod 146097 in
  let n100 := r400 / 36524 in let r100 := r400 mod 36524 in
  let n4 := r100 / 1461 in let r4 := r100 mod 1461 in
  let n1 := r4 / 365 in let n := r4 mod 365 in
  n0 = 146097 * n400 + 36524 * n100 + 1461 * n4 + 365 * n1 + n
  /\ 0 <= n400 /\ 0 <= n100 <= 4 /\ 0 <= n4 <= 24 /\ 0 <= n1 <= 4 /\ 0 <= n < 365
  /\ (n100 = 4 -> n4 = 0 /\ n1 = 0 /\ n = 0)
  /\ (n1 = 4 -> n = 0)
  /\ (n4 = 24 -> n100 <= 3 -> n1 <= 3 /\ (n1 = 3 -> n <= 364))
  /\ (n100 <= 3 -> n4 = 24 -> n1 = 3 -> n < 365).
Proof.
  intros H0. cbv zeta. Z.div_mod_to_equations; lia.
Qed.

(** The days before a year, by the cycles its number is made of. *)
Lemma days_before_year_cycles (a b c e : Z) :
  0 <= a -> 0 <= b <= 3 -> 0 <= c <= 24 -> 0 <= e <= 3 ->
  Calendar.days_before_year (a * 400 + 1 + b * 100 + c * 4 + e)
  = 146097 * a + 36524 * b + 1461 * c + 365 * e.
Proof.
  intros. unfold Calendar.days_before_year. cbv zeta. Z.div_mod_to_equations; lia.
Qed.

(** Leap years, by the cycles: the last year of a 4-year cycle, unless that
    cycle ends a century that does not end a 400-year cycle. *)
Lemma is_leap_cycles (a b c e : Z) :
  0 <= a -> 0 <= b <= 3 -> 0 <= c <= 24 -> 0 <= e <= 3 ->
  Calendar.is_leap (a * 400 + 1 + b * 100 + c * 4 + e)
  = (e =? 3) && (negb (c =? 24) || (b =? 3)).
Proof.
  intros. apply eq_true_iff_eq. rewrite is_leap_spec.
  rewrite andb_true_iff, orb_true_iff, negb_true_iff, !Z.eqb_eq, Z.eqb_neq.
  Z.div_mod_to_equations; lia.
Qed.

(** Evaluates the closed list indices of the goal (those without [n]). *)
Ltac to_nat_closed n :=
  repeat match goal with
         | |- context [Z.to_nat ?k] =>
             lazymatch k with
             | context [n] => fail
             | _ => let v := eval vm_compute in (Z.to_nat k) in change (Z.to_nat k) with v
             end
         end.

(** The month estimate [(n + 50) >> 5] and its correction: day [n] of a year
    (from 0) falls in the month found, after the days that precede it. *)
Lemma month_of_day (n : Z) (L : bool) :
  0 <= n < 365 ->
  let month := Z.shiftr (n + 50) 5 in
  let preceding :=
    nth (Z.to_nat month) Calendar.DAYS_BEFORE_MONTH 0 + (if (2 <? month) && L then 1 else 0) in
  let mp :=
    if n <? preceding
    then (month - 1,
          preceding - (nth (Z.to_nat (month - 1)) Calendar.DAYS_IN_MONTH 0
                       + (if (month - 1 =? 2) && L then 1 else 0)))
    else (month, preceding) in
  1 <= fst mp <= 12
  /\ snd mp = nth (Z.to_nat (fst mp)) Calendar.DAYS_BEFORE_MONTH 0
              + (if (2 <? fst mp) && L then 1 else 0)
  /\ snd mp <= n
  /\ n < snd mp + (if (fst mp =? 2) && L then 29 else nth (Z.to_nat (fst mp)) Calendar.DAYS_IN_MONTH 0).
Proof.
  intros Hn. cbv zeta. rewrite Z.shiftr_div_pow2 by lia. change (2 ^ 5) with 32.
  set (month := (n + 50) / 32).
  assert (Hm : month = 1 \/ month = 2 \/ month = 3 \/ month = 4 \/ month = 5 \/ month = 6
               \/ month = 7 \/ month = 8 \/ month = 9 \/ month = 10 \/ month = 11 \/ month = 12)
    by (subst month; Z.div_mod_to_equations; lia).
  assert (Hr : 32 * month - 50 <= n <= 32 * month - 19)
    by (subst month; Z.div_mod_to_equations; lia).
  clearbody month.
  unfold Calendar.DAYS_BEFORE_MONTH, Calendar.DAYS_IN_MONTH.
  destruct L; decompose [or] Hm; subst month; clear Hm;
    to_nat_closed n; cbn -[Z.to_nat];
    (destruct (n <? _) eqn:E; cbn [fst snd]; to_nat_closed n; cbn;
     repeat match goal with
            | |- context [if ?c then _ else _] =>
                let v := eval vm_compute in c in change c with v; cbv iota
            end;
     [apply Z.ltb_lt in E | apply Z.ltb_ge in E]; lia).
Qed.

(** Every day number is the ordinal of the date read from it, and that date
    is a date of the calendar. *)
Lemma ord2ymd_inverse (o : Z) :
  1 <= o ->
  exists y m d,
    Calendar.ord2ymd o = (y, m, d)
    /\ Calendar.ymd2ord y m d = o
    /\ 1 <= m <= 12
    /\ 1 <= d <= Calendar.days_in_month y m.
Proof.
  intros Ho. pose proof (ord_cycles (o - 1) ltac:(lia)) as C. cbv zeta in C.
  unfold Calendar.ord2ymd, Calendar.DI400Y, Calendar.DI100Y, Calendar.DI4Y.
  set (n0 := o - 1) in *.
  set (n400 := n0 / 146097) in *. set (r400 := n0 mod 146097) in *.
  set (n100 := r400 / 36524) in *. set (r100 := r400 mod 36524) in *.
  set (n4 := r100 / 1461) in *. set (r4 := r100 mod 1461) in *.
  set (n1 := r4 / 365) in *. set (n := r4 mod 365) in *.
  destruct C as (Hn0 & Ha & Hb & Hc & He & Hn & Hb4 & He4 & Hc24 & _).
  clearbody n400 n100 n4 n1 n. clear r4 r100 r400.
  assert (Ho' : o = n0 + 1) by (subst n0; lia). clearbody n0. subst o n0.
  destruct ((n1 =? 4) || (n100 =? 4)) eqn:E.
  - (* the last day of a leap year *)
    apply orb_true_iff in E. rewrite !Z.eqb_eq in E.
    exists (n400 * 400 + 1 + n100 * 100 + n4 * 4 + n1 - 1), 12, 31.
    split; [reflexivity|].
    assert (Hy : exists b c,
               0 <= b <= 3 /\ 0 <= c <= 24 /\ (c = 24 -> b = 3)
               /\ n400 * 400 + 1 + n100 * 100 + n4 * 4 + n1 - 1
                  = n400 * 400 + 1 + b * 100 + c * 4 + 3
               /\ 146097 * n400 + 36524 * n100 + 1461 * n4 + 365 * n1 + n
                  = 146097 * n400 + 36524 * b + 1461 * c + 365 * 3 + 365).
    { destruct (Z.eq_dec n100 4) as [E4|E4].
      - destruct (Hb4 E4) as (-> & -> & ->). exists 3, 24. lia.
      - assert (E1 : n1 = 4) by lia. specialize (He4 E1). exists n100, n4. lia. }
    destruct Hy as (b & c & Hb' & Hc' & Hbc & -> & ->).
    assert (Hleap : Calendar.is_leap (n400 * 400 + 1 + b * 100 + c * 4 + 3) = true).
    { rewrite is_leap_cycles by lia. cbn [Z.eqb Pos.eqb andb].
      destruct (Z.eq_dec c 24) as [Ec|Ec].
      - rewrite (Hbc Ec). apply orb_true_r.
      - apply Z.eqb_neq in Ec. rewrite Ec. reflexivity. }
    unfold Calendar.ymd2ord, Calendar.days_before_month, Calendar.days_in_month.
    rewrite days_before_year_cycles by lia. rewrite Hleap.
    change (Z.to_nat 12) with 12%nat. cbn. lia.
  - apply orb_false_iff in E as [E1 E2]. apply Z.eqb_neq in E1, E2.
    set (year := n400 * 400 + 1 + n100 * 100 + n4 * 4 + n1).
    set (L := (n1 =? 3) && (negb (n4 =? 24) || (n100 =? 3))).
    assert (Hleap : Calendar.is_leap year = L) by (subst year L; apply is_leap_cycles; lia).
    assert (Hdby : Calendar.days_before_year year
                   = 146097 * n400 + 36524 * n100 + 1461 * n4 + 365 * n1)
      by (subst year; apply days_before_year_cycles; lia).
    pose proof (month_of_day n L Hn) as M. cbv zeta in M.
    set (month := Z.shiftr (n + 50) 5) in *.
    set (preceding := nth (Z.to_nat month) Calendar.DAYS_BEFORE_MONTH 0
                      + (if (2 <? month) && L then 1 else 0)) in *.
    clearbody L year.
    destruct (n <? preceding); cbn [fst snd] in M;
      destruct M as (Hm & Hp & Hlo & Hhi);
      eexists _, _, _; (split; [reflexivity|]);
      unfold Calendar.ymd2ord, Calendar.days_before_month, Calendar.days_in_month;
      rewrite Hleap, Hdby, <- Hp; lia.
Qed.

(** ** Decimal numerals *)

Lemma digit_ok (d : Z) :
  0 <= d < 10 -> PyStr.is_digit (PyStr.digit d) = true /\ Z.of_N (PyStr.byte (PyStr.digit d)) - 48 = d.
Proof.
  intros Hd.
  assert (E : d = 0 \/ d = 1 \/ d = 2 \/ d = 3 \/ d = 4 \/ d = 5 \/ d = 6 \/ d = 7
              \/ d = 8 \/ d = 9) by lia.
  repeat (destruct E as [->|E]; [split; reflexivity|]). subst d. split; reflexivity.
Qed.

Lemma read_digit (d : Z) (s : string) (a : Z) :
  0 <= d < 10 -> PyStr.read_digits (String (PyStr.digit d) s) a = PyStr.read_digits s (a * 10 + d).
Proof.
  intros Hd. destruct (digit_ok d Hd) as [E1 E2]. cbn [PyStr.read_digits]. rewrite E1, E2.
  reflexivity.
Qed.

(** The numeral [PyStr.digits_fuel] writes has some [k] digits, is read back as the
    number, and has no leading zero. *)
Lemma digits_fuel_spec (fuel : nat) :
  forall (n : Z) (acc : string),
    0 <= n < 10 ^ Z.of_nat (S fuel) ->
    exists k : nat,
      (1 <= k)%nat
      /\ String.length (PyStr.digits_fuel (S fuel) n acc) = (k + String.length acc)%nat
      /\ n < 10 ^ Z.of_nat k
      /\ (k = 1%nat \/ 10 ^ (Z.of_nat k - 1) <= n)
      /\ forall a, PyStr.read_digits (PyStr.digits_fuel (S fuel) n acc) a
                   = PyStr.read_digits acc (a * 10 ^ Z.of_nat k + n).
Proof.
  induction fuel as [|fuel IH]; intros n acc Hn;
    (assert (Hd : 0 <= n mod 10 < 10) by (apply Z.mod_pos_bound; lia));
    cbn [PyStr.digits_fuel]; destruct (n <? 10) eqn:E.
  1, 3: apply Z.ltb_lt in E; exists 1%nat; cbn [String.length];
      (split; [lia|]); (split; [reflexivity|]); (split; [cbn; lia|]); (split; [auto|]);
      intros a; rewrite read_digit by exact Hd; rewrite Z.mod_small by lia;
      reflexivity.
  - apply Z.ltb_ge in E. cbn in Hn. lia.
  - apply Z.ltb_ge in E.
    assert (Hq : 0 <= n / 10 < 10 ^ Z.of_nat (S fuel)).
    { rewrite (Nat2Z.inj_succ (S fuel)), Z.pow_succ_r in Hn by lia.
      split; [apply Z.div_pos; lia|]. apply Z.div_lt_upper_bound; lia. }
    destruct (IH (n / 10) (String (PyStr.digit (n mod 10)) acc) Hq)
      as (k & Hk & Hlen & Hub & Hlb & Hread).
    exists (S k). cbn [String.length] in Hlen.
    rewrite Nat2Z.inj_succ, Z.pow_succ_r by lia.
    change (PyStr.digits_fuel (S fuel) (n / 10) (String (PyStr.digit (n mod 10)) acc))
      with (if n / 10 <? 10
            then String (PyStr.digit (n / 10 mod 10)) (String (PyStr.digit (n mod 10)) acc)
            else PyStr.digits_fuel fuel (n / 10 / 10)
                   (String (PyStr.digit (n / 10 mod 10)) (String (PyStr.digit (n mod 10)) acc)))
      in Hlen, Hread.
    split; [lia|]. split; [lia|].
    pose proof (Z.div_mod n 10 ltac:(lia)) as Hdm.
    split; [lia|]. split.
    + right. replace (Z.succ (Z.of_nat k) - 1) with (Z.succ (Z.of_nat k - 1)) by lia.
      destruct Hlb as [->|Hlb]; [cbn; lia|].
      rewrite Z.pow_succ_r by lia. lia.
    + intros a. rewrite Hread, read_digit by exact Hd. f_equal. lia.
Qed.

Lemma str_nat_fuel (n : Z) : 0 <= n -> n < 10 ^ Z.of_nat (S (Z.to_nat (Z.log2 n))).
Proof.
  intros Hn. rewrite Nat2Z.inj_succ, Z2Nat.id by apply Z.log2_nonneg.
  destruct (Z.eq_dec n 0) as [->|Hne]; [cbn; lia|].
  pose proof (Z.log2_spec n ltac:(lia)) as [_ Hlt].
  pose proof (Z.log2_nonneg n) as Hl.
  pose proof (Z.pow_le_mono_l 2 10 (Z.succ (Z.log2 n)) ltac:(lia)). lia.
Qed.

Lemma str_nat_spec (n : Z) :
  0 <= n ->
  exists k : nat,
    (1 <= k)%nat
    /\ String.length (PyStr.str_nat n) = k
    /\ n < 10 ^ Z.of_nat k
    /\ (k = 1%nat \/ 10 ^ (Z.of_nat k - 1) <= n)
    /\ PyStr.read_digits (PyStr.str_nat n) 0 = Some n.
Proof.
  intros Hn. unfold PyStr.str_nat.
  destruct (digits_fuel_spec (Z.to_nat (Z.log2 n)) n EmptyString
              (conj Hn (str_nat_fuel n Hn))) as (k & Hk & Hlen & Hub & Hlb & Hread).
  exists k. cbn [String.length] in Hlen. rewrite Nat.add_0_r in Hlen.
  repeat (split; [assumption|]). rewrite Hread. reflexivity.
Qed.

(** A number of exactly [w] digits is written on [w] characters. *)
Lemma str_nat_length (w : nat) (n : Z) :
  (1 <= w)%nat -> 10 ^ (Z.of_nat w - 1) <= n < 10 ^ Z.of_nat w ->
  String.length (PyStr.str_nat n) = w.
Proof.
  intros Hw [Hlo Hhi].
  assert (Hn : 0 <= n) by (pose proof (Z.pow_nonneg 10 (Z.of_nat w - 1) ltac:(lia)); lia).
  destruct (str_nat_spec n Hn) as (k & Hk & -> & Hub & Hlb & _).
  destruct (Nat.lt_trichotomy k w) as [Hlt|[->|Hgt]]; [exfalso|reflexivity|exfalso].
  - pose proof (Z.pow_le_mono_r 10 (Z.of_nat k) (Z.of_nat w - 1) ltac:(lia) ltac:(lia)). lia.
  - destruct Hlb as [->|Hlb]; [lia|].
    pose proof (Z.pow_le_mono_r 10 (Z.of_nat w) (Z.of_nat k - 1) ltac:(lia) ltac:(lia)). lia.
Qed.

Lemma str_nat_short (w : nat) (n : Z) :
  (1 <= w)%nat -> 0 <= n < 10 ^ Z.of_nat w -> (String.length (PyStr.str_nat n) <= w)%nat.
Proof.
  intros Hw [Hlo Hhi].
  destruct (str_nat_spec n Hlo) as (k & Hk & -> & Hub & Hlb & _).
  destruct (Nat.le_gt_cases k w) as [Hle|Hgt]; [exact Hle|exfalso].
  destruct Hlb as [->|Hlb]; [lia|].
  pose proof (Z.pow_le_mono_r 10 (Z.of_nat w) (Z.of_nat k - 1) ltac:(lia) ltac:(lia)). lia.
Qed.

Lemma pad_fuel_length (f w : nat) :
  forall s, (String.length s <= w)%nat -> (w - String.length s <= f)%nat ->
            String.length (PyStr.pad_fuel f w s) = w.
Proof.
  induction f as [|f IH]; intros s Hs Hf; cbn [PyStr.pad_fuel].
  - lia.
  - destruct (String.length s <? w)%nat eqn:E.
    + apply Nat.ltb_lt in E. apply IH; cbn [String.length]; lia.
    + apply Nat.ltb_ge in E. lia.
Qed.

Lemma pad_fuel_read (f w : nat) :
  forall s, PyStr.read_digits (PyStr.pad_fuel f w s) 0 = PyStr.read_digits s 0.
Proof.
  induction f as [|f IH]; intros s; cbn [PyStr.pad_fuel]; [reflexivity|].
  destruct (String.length s <? w)%nat; [|reflexivity].
  rewrite IH. reflexivity.
Qed.

Lemma read_nat_digits (s : string) :
  (1 <= String.length s)%nat -> PyStr.read_nat s = PyStr.read_digits s 0.
Proof. destruct s; cbn [String.length]; [lia | reflexivity]. Qed.

(** A zero-padded field has its width and reads back as the number. *)
Lemma zfill_spec (w : nat) (n : Z) :
  (1 <= w)%nat -> 0 <= n < 10 ^ Z.of_nat w ->
  String.length (PyStr.zfill w n) = w /\ PyStr.read_nat (PyStr.zfill w n) = Some n.
Proof.
  intros Hw Hn. unfold PyStr.zfill.
  pose proof (str_nat_short w n Hw Hn) as Hs.
  assert (Hlen : String.length (PyStr.pad_fuel w w (PyStr.str_nat n)) = w)
    by (apply pad_fuel_length; lia).
  split; [exact Hlen|].
  rewrite read_nat_digits by lia. rewrite pad_fuel_read.
  destruct (str_nat_spec n (proj1 Hn)) as (k & _ & _ & _ & _ & Hread). exact Hread.
Qed.

(** ** Date and time text *)

(** A string of known length, character by character. *)
Ltac explode s H :=
  repeat (destruct s as [|? s]; cbn [String.length] in H;
          [try discriminate H | try discriminate H; try (injection H as H)]).

Lemma days_in_month_le (y m : Z) : 1 <= m <= 12 -> Calendar.days_in_month y m <= 31.
Proof.
  intros Hm. unfold Calendar.days_in_month. destruct (_ && _); [lia|].
  assert (E : m = 1 \/ m = 2 \/ m = 3 \/ m = 4 \/ m = 5 \/ m = 6 \/ m = 7 \/ m = 8
              \/ m = 9 \/ m = 10 \/ m = 11 \/ m = 12) by lia.
  repeat (destruct E as [->|E]; [vm_compute; discriminate|]). subst m. vm_compute. discriminate.
Qed.

Lemma str_int_nonneg (n : Z) : 0 <= n -> PyStr.str_int n = PyStr.str_nat n.
Proof. intros Hn. unfold PyStr.str_int. destruct (n <? 0) eqn:E; [lia | reflexivity]. Qed.

(** The date text of a day a Timestamp can fall on has the ten characters
    of [YYYY-MM-DD] and is parsed back to the same day. *)
Lemma parse_ymd_fmt (o : Z) :
  612411 <= o <= 825914 ->
  String.length (Csv.fmt_ymd o) = 10%nat /\ Csv.parse_ymd (Csv.fmt_ymd o) = Some o.
Proof.
  intros Ho.
  destruct (ord2ymd_inverse o ltac:(lia)) as (y & m & d & E & Hinv & Hm & Hd).
  destruct (ord2ymd_range o Ho) as (y' & m' & d' & E' & Hy & _).
  rewrite E in E'. injection E' as <- <- <-.
  pose proof (days_in_month_le y m Hm) as Hdim.
  unfold Csv.fmt_ymd. rewrite E, str_int_nonneg by lia.
  pose proof (str_nat_length 4 y ltac:(lia) ltac:(cbn; lia)) as HlenY.
  destruct (str_nat_spec y ltac:(lia)) as (_ & _ & _ & _ & _ & HY).
  rewrite <- read_nat_digits in HY by lia.
  destruct (zfill_spec 2 m ltac:(lia) ltac:(cbn; lia)) as [HlenM HM].
  destruct (zfill_spec 2 d ltac:(lia) ltac:(cbn; lia)) as [HlenD HD].
  set (Y := PyStr.str_nat y) in *. set (M := PyStr.zfill 2 m) in *. set (D := PyStr.zfill 2 d) in *.
  clearbody Y M D. explode Y HlenY. explode M HlenM. explode D HlenD.
  split; [reflexivity|].
  unfold Csv.parse_ymd. cbv [String.append]. cbn [String.length substring Nat.eqb andb].
  rewrite !String.eqb_refl. cbn [andb]. rewrite HY, HM, HD.
  replace ((1 <=? y) && (1 <=? m) && (m <=? 12) && (1 <=? d) && (d <=? Calendar.days_in_month y m))
    with true by (symmetry; rewrite !andb_true_iff, !Z.leb_le; lia).
  rewrite Hinv. reflexivity.
Qed.

Lemma substring_all (s : string) : substring 0 (String.length s) s = s.
Proof. induction s as [|c s IH]; cbn [String.length substring]; [reflexivity | rewrite IH; reflexivity]. Qed.

Lemma substring_0_0 (s : string) : substring 0 0 s = "".
Proof. destruct s; reflexivity. Qed.

Lemma append_empty_r (s : string) : s +:+ "" = s.
Proof. induction s as [|c s IH]; cbv [String.append]; [reflexivity|]. fold String.append. rewrite IH. reflexivity. Qed.

Lemma string_length_append (a b : string) :
  String.length (a +:+ b) = (String.length a + String.length b)%nat.
Proof.
  induction a as [|c a IH]; cbv [String.append]; [reflexivity|]. fold String.append.
  cbn [String.length]. rewrite IH. reflexivity.
Qed.

Lemma parse_hms_fmt (ns : Z) :
  String.length (Csv.fmt_hms ns) = 8%nat
  /\ Csv.parse_hms (Csv.fmt_hms ns) = Some (Csv.time_of_day ns / 1000000000 * 1000000000).
Proof.
  unfold Csv.fmt_hms. set (t := Csv.time_of_day ns / 1000000000).
  assert (Ht : 0 <= t < 86400).
  { subst t. unfold Csv.time_of_day, Calendar.NS_PER_DAY. Z.div_mod_to_equations. lia. }
  clearbody t.
  assert (H1 : 0 <= t / 3600 < 24) by (Z.div_mod_to_equations; lia).
  assert (H2 : 0 <= t / 60 mod 60 < 60) by (Z.div_mod_to_equations; lia).
  assert (H3 : 0 <= t mod 60 < 60) by (Z.div_mod_to_equations; lia).
  assert (Hsum : t / 3600 * 3600 + t / 60 mod 60 * 60 + t mod 60 = t)
    by (Z.div_mod_to_equations; lia).
  destruct (zfill_spec 2 (t / 3600) ltac:(lia) ltac:(cbn; lia)) as [Hl1 Hr1].
  destruct (zfill_spec 2 (t / 60 mod 60) ltac:(lia) ltac:(cbn; lia)) as [Hl2 Hr2].
  destruct (zfill_spec 2 (t mod 60) ltac:(lia) ltac:(cbn; lia)) as [Hl3 Hr3].
  set (a := PyStr.zfill 2 (t / 3600)) in *. set (b := PyStr.zfill 2 (t / 60 mod 60)) in *.
  set (c := PyStr.zfill 2 (t mod 60)) in *.
  set (h := t / 3600) in *. set (m := t / 60 mod 60) in *. set (s := t mod 60) in *.
  clearbody a b c h m s.
  explode a Hl1. explode b Hl2. explode c Hl3.
  split; [reflexivity|].
  unfold Csv.parse_hms. cbv [String.append]. cbn [String.length substring Nat.eqb andb].
  rewrite !String.eqb_refl. cbn [andb]. rewrite Hr1, Hr2, Hr3.
  replace ((h <? 24) && (m <? 60) && (s <? 60)) with true
    by (symmetry; rewrite !andb_true_iff, !Z.ltb_lt; lia).
  rewrite Hsum. reflexivity.
Qed.

Lemma parse_fraction_fmt (w : nat) (v : Z) :
  (1 <= w <= 9)%nat -> 0 <= v < 10 ^ Z.of_nat w ->
  Csv.parse_fraction ("." +:+ PyStr.zfill w v) = Some (v * 10 ^ Z.of_nat (9 - w)).
Proof.
  intros Hw Hv. destruct (zfill_spec w v ltac:(lia) Hv) as [Hlen Hread].
  cbv [String.append]. unfold Csv.parse_fraction. rewrite Hlen, Hread.
  destruct (w <=? 9)%nat eqn:E; [reflexivity|]. apply Nat.leb_gt in E. lia.
Qed.

Lemma parse_time_parts (hms frac : string) (t f : Z) :
  String.length hms = 8%nat ->
  Csv.parse_hms hms = Some t -> Csv.parse_fraction frac = Some f ->
  Csv.parse_time (" " +:+ hms +:+ frac) = Some (t + f).
Proof.
  intros Hlen Ht Hf. explode hms Hlen.
  cbv [String.append]. unfold Csv.parse_time.
  cbn [Ascii.eqb Bool.eqb orb String.length substring Nat.sub].
  rewrite substring_0_0, Nat.sub_0_r, substring_all, Ht, Hf. reflexivity.
Qed.

Lemma parse_iso_parts (day rest : string) (o t : Z) :
  String.length day = 10%nat ->
  Csv.parse_ymd day = Some o -> Csv.parse_time rest = Some t ->
  Csv.parse_iso (day +:+ rest)
  = (if Calendar.ts_in_bounds ((o - Calendar.EPOCH_ORDINAL) * Calendar.NS_PER_DAY + t)
     then Some ((o - Calendar.EPOCH_ORDINAL) * Calendar.NS_PER_DAY + t) else None).
Proof.
  intros Hlen Ho Ht. explode day Hlen.
  cbv [String.append]. unfold Csv.parse_iso.
  cbn [String.length substring Nat.sub].
  rewrite substring_0_0, Nat.sub_0_r, substring_all, Ho, Ht. reflexivity.
Qed.

(** What the resolution of a value says about its time of day. *)
Lemma value_resolution_rank (ns : Z) :
  ((Csv.res_rank (Csv.value_resolution ns) <= 0)%nat -> Csv.time_of_day ns = 0)
  /\ ((Csv.res_rank (Csv.value_resolution ns) <= 1)%nat -> Csv.frac_ns ns = 0)
  /\ ((Csv.res_rank (Csv.value_resolution ns) <= 2)%nat -> Csv.frac_ns ns mod 1000000 = 0)
  /\ ((Csv.res_rank (Csv.value_resolution ns) <= 3)%nat -> Csv.frac_ns ns mod 1000 = 0).
Proof.
  unfold Csv.value_resolution.
  destruct (Csv.time_of_day ns =? 0) eqn:E0.
  { apply Z.eqb_eq in E0. unfold Csv.time_of_day, Csv.frac_ns, Calendar.NS_PER_DAY in *.
    repeat split; intros _; Z.div_mod_to_equations; lia. }
  destruct (Csv.frac_ns ns =? 0) eqn:E1.
  { apply Z.eqb_eq in E1. rewrite E1. cbn [Csv.res_rank]. repeat split; intros; (lia || reflexivity). }
  destruct (Csv.frac_ns ns mod 1000000 =? 0) eqn:E2.
  { apply Z.eqb_eq in E2. cbn [Csv.res_rank]. repeat split; intros; try lia.
    Z.div_mod_to_equations; lia. }
  destruct (Csv.frac_ns ns mod 1000 =? 0) eqn:E3.
  { apply Z.eqb_eq in E3. cbn [Csv.res_rank]. repeat split; intros; lia. }
  cbn [Csv.res_rank]. repeat split; intros; lia.
Qed.

Lemma time_of_day_split (ns : Z) :
  Csv.time_of_day ns / 1000000000 * 1000000000 + Csv.frac_ns ns = Csv.time_of_day ns.
Proof. unfold Csv.time_of_day, Csv.frac_ns, Calendar.NS_PER_DAY. Z.div_mod_to_equations. lia. Qed.

Lemma frac_ns_range (ns : Z) : 0 <= Csv.frac_ns ns < 1000000000.
Proof. unfold Csv.frac_ns. apply Z.mod_pos_bound. lia. Qed.

(** The text written for a timestamp at a resolution that shows it exactly:
    the date, then a time part that reads as the time of day. *)
Lemma fmt_timestamp_parts (r : Csv.resolution) (ns : Z) :
  (Csv.res_rank (Csv.value_resolution ns) <= Csv.res_rank r)%nat ->
  exists rest,
    Csv.fmt_timestamp r ns = Csv.fmt_ymd (Calendar.ts_date ns) +:+ rest
    /\ Csv.parse_time rest = Some (Csv.time_of_day ns).
Proof.
  intros Hr. destruct (value_resolution_rank ns) as (R0 & R1 & R2 & R3).
  destruct (parse_hms_fmt ns) as [Hlen Hhms].
  pose proof (time_of_day_split ns) as Hsplit.
  pose proof (frac_ns_range ns) as Hfrac.
  destruct r; cbn [Csv.res_rank] in Hr; unfold Csv.fmt_timestamp.
  - exists "". rewrite append_empty_r. rewrite (R0 Hr). split; reflexivity.
  - pose proof (parse_time_parts (Csv.fmt_hms ns) "" _ 0 Hlen Hhms eq_refl) as Ht.
    rewrite append_empty_r in Ht.
    exists (" " +:+ Csv.fmt_hms ns). split; [reflexivity|].
    rewrite Ht. f_equal. specialize (R1 Hr). lia.
  - exists (" " +:+ Csv.fmt_hms ns +:+ "." +:+ PyStr.zfill 3 (Csv.frac_ns ns / 1000000)).
    split; [reflexivity|].
    assert (Hv : 0 <= Csv.frac_ns ns / 1000000 < 10 ^ Z.of_nat 3)
      by (change (10 ^ Z.of_nat 3) with 1000; Z.div_mod_to_equations; lia).
    rewrite (parse_time_parts _ _ _ _ Hlen Hhms (parse_fraction_fmt 3 _ ltac:(lia) Hv)).
    f_equal. change (10 ^ Z.of_nat (9 - 3)) with 1000000.
    specialize (R2 Hr). Z.div_mod_to_equations. lia.
  - exists (" " +:+ Csv.fmt_hms ns +:+ "." +:+ PyStr.zfill 6 (Csv.frac_ns ns / 1000)).
    split; [reflexivity|].
    assert (Hv : 0 <= Csv.frac_ns ns / 1000 < 10 ^ Z.of_nat 6)
      by (change (10 ^ Z.of_nat 6) with 1000000; Z.div_mod_to_equations; lia).
    rewrite (parse_time_parts _ _ _ _ Hlen Hhms (parse_fraction_fmt 6 _ ltac:(lia) Hv)).
    f_equal. change (10 ^ Z.of_nat (9 - 6)) with 1000.
    specialize (R3 Hr). Z.div_mod_to_equations. lia.
  - exists (" " +:+ Csv.fmt_hms ns +:+ "." +:+ PyStr.zfill 9 (Csv.frac_ns ns)).
    split; [reflexivity|].
    assert (Hv : 0 <= Csv.frac_ns ns < 10 ^ Z.of_nat 9)
      by (change (10 ^ Z.of_nat 9) with 1000000000; lia).
    rewrite (parse_time_parts _ _ _ _ Hlen Hhms (parse_fraction_fmt 9 _ ltac:(lia) Hv)).
    f_equal. change (10 ^ Z.of_nat (9 - 9)) with 1. lia.
Qed.

Lemma ts_date_time_of_day (ns : Z) :
  (Calendar.ts_date ns - Calendar.EPOCH_ORDINAL) * Calendar.NS_PER_DAY + Csv.time_of_day ns = ns.
Proof.
  unfold Calendar.ts_date, Csv.time_of_day, Calendar.NS_PER_DAY. Z.div_mod_to_equations. lia.
Qed.

(** A timestamp written at a resolution that shows it exactly is parsed back
    to the same instant. *)
Lemma parse_iso_fmt (r : Csv.resolution) (ns : Z) :
  Calendar.ts_in_bounds ns = true ->
  (Csv.res_rank (Csv.value_resolution ns) <= Csv.res_rank r)%nat ->
  Csv.parse_iso (Csv.fmt_timestamp r ns) = Some ns
  /\ (10 <= String.length (Csv.fmt_timestamp r ns))%nat.
Proof.
  intros Hb Hr. destruct (fmt_timestamp_parts r ns Hr) as (rest & -> & Hrest).
  destruct (parse_ymd_fmt _ (ts_date_in_range ns Hb)) as [Hlen Hday].
  split.
  - rewrite (parse_iso_parts _ _ _ _ Hlen Hday Hrest), ts_date_time_of_day, Hb.
    reflexivity.
  - rewrite string_length_append, Hlen. lia.
Qed.

(** ** Datetime columns *)

(** The texts read as a missing value have at most eight characters. *)
Lemma is_na_short (s : string) : Csv.is_na s = true -> (String.length s <= 8)%nat.
Proof.
  unfold Csv.is_na. intros E. apply existsb_exists in E as (x & Hin & Heq).
  apply String.eqb_eq in Heq. subst x. unfold Csv.NA_VALUES in Hin. cbn [In] in Hin.
  repeat (destruct Hin as [<-|Hin]; [cbn; lia|]). destruct Hin.
Qed.

Lemma column_resolution_shows (vs : list (option Z)) (ns : Z) :
  In (Some ns) vs ->
  (Csv.res_rank (Csv.value_resolution ns) <= Csv.res_rank (Csv.column_resolution vs))%nat.
Proof.
  induction vs as [|[x|] vs IH]; cbn [In Csv.column_resolution]; [tauto| |].
  - unfold Csv.res_max. intros [E|Hin].
    + injection E as ->. destruct (_ <? _)%nat eqn:L; [apply Nat.ltb_lt in L|]; lia.
    + specialize (IH Hin). destruct (_ <? _)%nat eqn:L; [|apply Nat.ltb_ge in L]; lia.
  - intros [E|Hin]; [discriminate | auto].
Qed.

Lemma date_cells_read_back (r : Csv.resolution) (vs : list (option Z)) :
  in_bounds vs ->
  (forall ns, In (Some ns) vs -> (Csv.res_rank (Csv.value_resolution ns) <= Csv.res_rank r)%nat) ->
  rmap Csv.date_of_cell
       (map (fun o => match o with Some ns => Csv.fmt_timestamp r ns | None => "" end) vs)
  = Ok vs.
Proof.
  induction vs as [|[ns|] vs IH]; intros Hb Hr; cbn [map rmap]; [reflexivity| |].
  - apply List.Forall_cons_iff in Hb as [Hns Hb].
    destruct (parse_iso_fmt r ns Hns (Hr ns (or_introl eq_refl))) as [Hparse Hlen].
    unfold Csv.date_of_cell at 1.
    destruct (Csv.is_na (Csv.fmt_timestamp r ns)) eqn:Ena; [apply is_na_short in Ena; lia|].
    rewrite Hparse. cbn [rbind]. rewrite IH; [reflexivity | exact Hb |].
    intros ns' Hin. apply Hr. right. exact Hin.
  - apply List.Forall_cons_iff in Hb as [_ Hb].
    change (Csv.date_of_cell "") with (@Ok (option Z) None). cbn [rbind].
    rewrite IH; [reflexivity | exact Hb |].
    intros ns' Hin. apply Hr. right. exact Hin.
Qed.

(** A datetime column written by [Csv.to_csv] and read with [parse_dates] is the
    same column. *)
Lemma date_column_round_trip `{Float64Lib} (vs : list (option Z)) :
  in_bounds vs ->
  Csv.parse_date_column (Csv.cells_of_series (SDatetime vs)) = Ok (SDatetime vs).
Proof.
  intros Hb. unfold Csv.parse_date_column, Csv.cells_of_series.
  rewrite (date_cells_read_back _ vs Hb (column_resolution_shows vs)). reflexivity.
Qed.

(** ** Columns through the file *)

Lemma map_nth_all {A} (l : list A) (a : A) :
  map (fun i => nth i l a) (seq 0 (length l)) = l.
Proof.
  induction l as [|x l IH]; [reflexivity|].
  cbn [length seq map nth]. f_equal.
  rewrite <- seq_shift, List.map_map. exact IH.
Qed.

Section ThroughTheFile.
Context `{Float64Lib}.

Lemma length_cells (s : Series) : length (Csv.cells_of_series s) = series_len s.
Proof. destruct s; cbn [Csv.cells_of_series series_len]; apply length_map. Qed.

(** Column [j] of the lines written for a frame holds the cells of the
    frame's column [j]. *)
Lemma column_cells_csv_rows (d : DataFrame) (j : nat) (k : string) (s : Series) :
  rectangular d -> nth_error d j = Some (k, s) ->
  Csv.column_cells j (Csv.csv_rows d) = Csv.cells_of_series s.
Proof.
  intros Hrect Hj. unfold Csv.column_cells, Csv.csv_rows. rewrite List.map_map.
  assert (Hlen : nrows d = length (Csv.cells_of_series s)).
  { rewrite length_cells. symmetry.
    unfold rectangular in Hrect. rewrite List.Forall_forall in Hrect.
    apply (Hrect (k, s)). eapply nth_error_In. exact Hj. }
  rewrite Hlen. rewrite <- (map_nth_all (Csv.cells_of_series s) "") at 2.
  apply List.map_ext. intros i.
  apply nth_error_nth.
  rewrite (List.map_nth_error _ _ _ Hj). reflexivity.
Qed.

Lemma get_col_nth (k : string) (s : Series) (d : DataFrame) :
  get_col k d = Some s ->
  exists j, nth_error d j = Some (k, s) /\ nth_error (columns d) j = Some k.
Proof.
  induction d as [|[k0 s0] d IH]; cbn [get_col]; [discriminate|].
  destruct (String.eqb k0 k) eqn:E.
  - apply String.eqb_eq in E. subst k0. intros E. injection E as <-.
    exists 0%nat. split; reflexivity.
  - intros Hk. destruct (IH Hk) as (j & H1 & H2). exists (S j). split; assumption.
Qed.

Lemma mem_str_false (k : string) (l : list string) (x : string) :
  Csv.mem_str k l = false -> In x l -> String.eqb k x = false.
Proof.
  unfold Csv.mem_str. intros E Hin. destruct (String.eqb k x) eqn:Ek; [|reflexivity].
  rewrite <- E. symmetry. apply existsb_exists. exists x. split; assumption.
Qed.

(** With no name twice in the header, the column read under a name is what
    the reader makes of the cells under that name. *)
Lemma read_columns_forward (names : list string) (pd : list string)
    (rows : list (list string)) :
  forall (i j : nat) (d : DataFrame) (k : string),
    Csv.read_columns names i rows pd = Ok d ->
    Csv.has_dup names = false ->
    nth_error names j = Some k ->
    exists s, read_cells pd k (Csv.column_cells (i + j) rows) = Ok s /\ get_col k d = Some s.
Proof.
  induction names as [|k0 names IH]; intros i j d k; cbn [Csv.read_columns Csv.has_dup].
  - destruct j; discriminate.
  - fold (read_cells pd k0 (Csv.column_cells i rows)).
    destruct (read_cells pd k0 (Csv.column_cells i rows)) as [s0|e] eqn:E0; [|discriminate].
    cbn [rbind].
    destruct (Csv.read_columns names (S i) rows pd) as [d'|e] eqn:E1; [|discriminate].
    cbn [rbind]. intros E Hdup Hj. injection E as <-.
    apply orb_false_iff in Hdup as [Hk0 Hdup].
    destruct j as [|j]; cbn [nth_error] in Hj.
    + injection Hj as ->. exists s0. rewrite Nat.add_0_r. split; [exact E0|].
      cbn [get_col]. rewrite String.eqb_refl. reflexivity.
    + destruct (IH (S i) j d' k E1 Hdup Hj) as (s & Hs & Hg).
      exists s. rewrite Nat.add_succ_r. split; [exact Hs|].
      cbn [get_col]. rewrite (mem_str_false _ _ _ Hk0 (nth_error_In _ _ Hj)). exact Hg.
Qed.

(** A datetime column read back from the text written for its frame. *)
Lemma read_csv_to_csv_dates (d d' : DataFrame) (pd : list string) (k : string)
    (vs : list (option Z)) :
  rectangular d ->
  get_col k d = Some (SDatetime vs) ->
  Csv.mem_str k pd = true ->
  in_bounds vs ->
  Csv.read_csv (Csv.to_csv d) pd = Ok d' ->
  get_col k d' = Some (SDatetime vs).
Proof.
  intros Hrect Hk Hpd Hb. unfold Csv.read_csv, Csv.to_csv.
  destruct (get_col_nth _ _ _ Hk) as (j & Hj & Hname).
  destruct (columns d) as [|k0 names] eqn:Ec; [discriminate|]. rewrite <- Ec in *.
  destruct (Csv.has_dup (columns d)) eqn:Hdup; [discriminate|].
  destruct (negb (forallb _ pd)); [discriminate|].
  destruct (negb (forallb _ (Csv.csv_rows d))); [discriminate|].
  intros Hread.
  destruct (read_columns_forward _ _ _ 0%nat j d' k Hread Hdup Hname) as (s & Hs & Hg).
  rewrite Hg. f_equal. cbn [Nat.add] in Hs. unfold read_cells in Hs. rewrite Hpd in Hs.
  rewrite (column_cells_csv_rows d j k _ Hrect Hj) in Hs.
  rewrite (date_column_round_trip vs Hb) in Hs. injection Hs as <-. reflexivity.
Qed.

End ThroughTheFile.



(** * Loading twice *)

(** X2. Loading twice gives the same records: once a [load_data] has
    returned, the next one returns a new object with the same content, from
    the cache, whatever the file holds by then; neither writes a file. *)
Theorem load_twice_same `{Float64Lib} (path : string) (w w1 : world) (l1 : loc) :
  load_data path w = (Ok l1, w1) ->
  exists d,
    w_heap w1 !! l1 = Some d
    /\ w_fs w1 = w_fs w
    /\ forall fs' : gmap string csv_file,
         load_data path (with_fs fs' w1)
         = (Ok (fresh (dom (w_heap w1))),
            with_heap (<[fresh (dom (w_heap w1)) := d]> (w_heap w1)) (with_fs fs' w1))
         /\ fresh (dom (w_heap w1)) <> l1
         /\ <[fresh (dom (w_heap w1)) := d]> (w_heap w1) !! l1 = Some d.
Proof.
  intros Hrun.
  assert (Hfirst : exists d, w_heap w1 !! l1 = Some d /\ w_fs w1 = w_fs w
                             /\ w_cache w1 !! path = Some d).
  { revert Hrun. unfold load_data, st_cache_data.
    destruct (w_cache w !! path) as [d|] eqn:Hc.
    - rewrite alloc_run. intros E. injection E as <- <-. exists d.
      split; [cbn; apply lookup_insert_eq|]. split; [reflexivity | exact Hc].
    - unfold load_data_body.
      destruct (w_fs w !! path) as [file|].
      + destruct (Csv.read_csv file _) as [d|e]; [|discriminate].
        rewrite alloc_run. intros E. injection E as <- <-. exists d.
        split; [cbn; apply lookup_insert_eq|].
        split; [reflexivity | cbn; apply lookup_insert_eq].
      + rewrite alloc_run. intros E. injection E as <- <-. exists (empty_frame COLUMNS).
        split; [cbn; apply lookup_insert_eq|].
        split; [reflexivity | cbn; apply lookup_insert_eq]. }
  destruct Hfirst as (d & Hlive & Hfs & Hcache). exists d.
  split; [exact Hlive|]. split; [exact Hfs|]. intros fs'.
  pose proof (fresh_differs w1 l1 d Hlive) as Hne.
  split; [|split; [exact Hne|]].
  - apply (load_data_cached path d (with_fs fs' w1)). exact Hcache.
  - rewrite lookup_insert_ne by exact Hne. exact Hlive.
Qed.

Lemma load_twice_same_witness :
  exists d,
    w_heap first_load !! 1%positive = Some d
    /\ w_fs first_load = w_fs (blank_world 738886)
    /\ forall fs' : gmap string csv_file,
         load_data (H := RefFloat.lib) DATA_PATH (with_fs fs' first_load)
         = (Ok (fresh (dom (w_heap first_load))),
            with_heap (<[fresh (dom (w_heap first_load)) := d]> (w_heap first_load))
              (with_fs fs' first_load))
         /\ fresh (dom (w_heap first_load)) <> 1%positive
         /\ <[fresh (dom (w_heap first_load)) := d]> (w_heap first_load) !! 1%positive
            = Some d.
Proof.
  apply (load_twice_same (H := RefFloat.lib) DATA_PATH (blank_world 738886)).
  vm_compute. reflexivity.
Defined.

(** * The scenario of the specification *)

(** The scenario of a plan of 30 days started on 2024-01-01: the
    created record expires on 2024-01-31; annotated on that day with a
    window of 7 days it is [⏳ Bientôt] with 0 days left, and on the next day
    it is [❌ Expiré] with -1. *)
Example january_scenario :
  let annotate today :=
    fst ((row ← new_row january_form 30;
          df ← alloc row;
          df2 ← df_with_status df 7;
          d ← deref df2;
          ret (get_col "Expiration" d, get_col "Statut" d, get_col "JoursRestants" d))
           (blank_world today)) in
  annotate (Calendar.ymd2ord 2024 1 31)
  = Ok (Some (SDatetime [Some ((Calendar.ymd2ord 2024 1 31 - Calendar.EPOCH_ORDINAL)
                               * Calendar.NS_PER_DAY)]),
        Some (SObject [PStr "⏳ Bientôt"]), Some (SInt64 [0]))
  /\ annotate (Calendar.ymd2ord 2024 2 1)
     = Ok (Some (SDatetime [Some ((Calendar.ymd2ord 2024 1 31 - Calendar.EPOCH_ORDINAL)
                                  * Calendar.NS_PER_DAY)]),
           Some (SObject [PStr "❌ Expiré"]), Some (SInt64 [-1])).
Proof. vm_compute. split; reflexivity. Qed.

(** * The export *)

(** X4. Right after a successful append, the export offered by the download
    button is the text just written to the backing file: same header, same
    lines.  Whatever the rest of the page does next, it only adds to the
    display after that button and writes no file. *)
Theorem export_is_the_saved_file `{Float64Lib}
    (df df' : loc) (f : form) (duree warn : Z) (w w' : world) :
  PyStr.truthy (PyStr.strip (nom f)) = true ->
  on_enregistrer df f duree w = (Ok df', w') ->
  exists (data : csv_file) (more : list ui_event),
    w_ui (snd (render df' warn w'))
    = (w_ui w' ++ SidebarDownload data "abonnements.csv" :: more)%list
    /\ w_fs (snd (render df' warn w')) !! DATA_PATH = Some data.
Proof.
  intros Hname Hrun.
  destruct (on_enregistrer_inv _ _ _ _ _ _ Hname Hrun) as (d & Hdf & Hdisk & Hrow & -> & ->).
  set (row := created_row f duree (w_uuid w (w_drawn w))).
  set (w' := appended w d row).
  assert (Hlive : w_heap w' !! fresh (dom (w_heap w)) = Some (concat d row))
    by (subst w'; cbn; apply lookup_insert_eq).
  assert (Hfile : w_fs w' !! DATA_PATH = Some (Csv.to_csv (concat d row)))
    by (subst w'; cbn; apply lookup_insert_eq).
  unfold render. run_ok (deref_run _ _ _ Hlive). rewrite bind_run, emit_run.
  set (w1 := with_ui _ w').
  assert (Hrest : shows_only w1
            (snd ((df_status ← df_with_status (fresh (dom (w_heap w))) warn;
                   notifications df_status;;
                   tableau df_status;;
                   stats df_status;;
                   charts df_status) w1))).
  { generalize w1. change (reads_only
            (df_status ← df_with_status (fresh (dom (w_heap w))) warn;
             notifications df_status;;
             tableau df_status;;
             stats df_status;;
             charts df_status)).
    unfold reads_only.
    reads_only_bind; [apply reads_only_df_with_status|]. intros df_status.
    reads_only_bind; [apply reads_only_notifications|]. intros _.
    reads_only_bind; [apply reads_only_tableau|]. intros _.
    reads_only_bind; [apply reads_only_stats|]. intros _.
    apply reads_only_charts. }
  destruct Hrest as [Hfs [more Hui]].
  exists (Csv.to_csv (concat d row)), more.
  split.
  - rewrite Hui. subst w1. cbn [w_ui with_ui]. rewrite <- app_assoc. reflexivity.
  - rewrite Hfs. exact Hfile.
Qed.

Lemma export_is_the_saved_file_witness :
  let w := stocked_world 738886 DiskOk in
  let w' := appended (H := RefFloat.lib) w sample_record (created_row lina_form 10 "id-1") in
  exists (data : csv_file) (more : list ui_event),
    w_ui (snd (render (H := RefFloat.lib) (fresh (dom (w_heap w))) 7 w'))
    = (w_ui w' ++ SidebarDownload data "abonnements.csv" :: more)%list
    /\ w_fs (snd (render (H := RefFloat.lib) (fresh (dom (w_heap w))) 7 w')) !! DATA_PATH
       = Some data.
Proof.
  intros w w'.
  refine (export_is_the_saved_file (H := RefFloat.lib)
            1%positive (fresh (dom (w_heap w))) lina_form 10 7 w w' _ _).
  - reflexivity.
  - apply (on_enregistrer_run (H := RefFloat.lib) 1%positive sample_record lina_form 10 w);
      reflexivity.
Defined.

(** * Counting by status *)

Lemma label_eqb (a b : Status) : String.eqb (label a) (label b) = status_eqb a b.
Proof. destruct a, b; reflexivity. Qed.

Lemma count_eq_str_label (s : Status) (warn today : Z) (exps : list Z) :
  count_eq_str (SObject (map (status_cell warn today) exps)) (label s)
  = count_status s warn today exps.
Proof.
  unfold count_eq_str, count_status. cbn [series_values]. f_equal.
  induction exps as [|ns exps IH]; [reflexivity|].
  cbn [map List.filter]. rewrite filter_cons.
  unfold status_cell at 1. cbn [eq_str].
  destruct (decide _) as [E|E]; rewrite label_eqb in E.
  - rewrite E. cbn [length]. f_equal. exact IH.
  - apply not_true_is_false in E. rewrite E. exact IH.
Qed.

Lemma count_status_total (warn today : Z) (exps : list Z) :
  count_status Active warn today exps + count_status ExpiringSoon warn today exps
  + count_status Expired warn today exps
  = Z.of_nat (length exps).
Proof.
  unfold count_status. induction exps as [|ns exps IH]; [reflexivity|].
  cbn [List.filter length]. destruct (spec_status _ warn today); cbn [status_eqb length]; lia.
Qed.

Lemma df_with_status_display (df : loc) (warn : Z) (w : world) :
  w_ui (snd (df_with_status df warn w)) = w_ui w.
Proof.
  rewrite df_with_status_unfold, bind_run. unfold df_copy. rewrite bind_run.
  unfold deref at 1. destruct (w_heap w !! df) as [d|]; [|reflexivity].
  rewrite alloc_run.
  set (l2 := fresh (dom (w_heap w))). set (w1 := with_heap _ w).
  pose proof (local_annotate_copy l2 warn w1) as Hloc.
  destruct (annotate_copy l2 warn w1) as [[a|e] w2]; cbn [snd] in *;
    destruct Hloc as (_ & _ & _ & _ & _ & _ & _ & Hui); rewrite Hui; reflexivity.
Qed.

(** The statistics row over an annotated frame. *)
Lemma stats_run (w : world) (l : loc) (d2 : DataFrame) (warn today : Z) (exps : list Z) :
  w_heap w !! l = Some d2 ->
  get_col "Statut" d2 = Some (SObject (map (status_cell warn today) exps)) ->
  stats l w
  = (Ok tt,
     with_ui (w_ui w ++ [StMetric "Total abonnements" (Z.of_nat (nrows d2));
                         StMetric "Actifs" (count_status Active warn today exps);
                         StMetric "Bientôt expirés" (count_status ExpiringSoon warn today exps);
                         StMetric "Expirés" (count_status Expired warn today exps)])%list w).
Proof.
  intros Hl Hs. unfold stats.
  run_ok (deref_run _ _ _ Hl). rewrite bind_run, emit_run.
  set (w1 := with_ui _ w).
  assert (H1 : w_heap w1 !! l = Some d2) by exact Hl.
  run_ok (getitem_run _ _ _ _ _ H1 Hs). rewrite bind_run, emit_run.
  set (w2 := with_ui _ w1).
  assert (H2 : w_heap w2 !! l = Some d2) by exact Hl.
  run_ok (getitem_run _ _ _ _ _ H2 Hs). rewrite bind_run, emit_run.
  set (w3 := with_ui _ w2).
  assert (H3 : w_heap w3 !! l = Some d2) by exact Hl.
  run_ok (getitem_run _ _ _ _ _ H3 Hs). rewrite emit_run.
  subst w3 w2 w1.
  change "✅ Actif" with (label Active). change "⏳ Bientôt" with (label ExpiringSoon).
  change "❌ Expiré" with (label Expired). rewrite !count_eq_str_label.
  unfold with_ui. cbn [w_ui w_heap w_fs w_cache w_today w_uuid w_drawn w_disk].
  rewrite <- !app_assoc. reflexivity.
Qed.

(** X5. On a store that is not empty, the statistics row shows the number of
    records and, for each status, the number of records of that status; the
    three counts add up to the number of records. *)
Theorem stats_count_by_status
    (w : world) (df : loc) (d : DataFrame) (warn : Z) (exps : list Z) :
  w_heap w !! df = Some d ->
  rectangular d ->
  empty d = false ->
  get_col "Expiration" d = Some (SDatetime (map Some exps)) ->
  window_ok (w_today w) warn ->
  exists w',
    (df_status ← df_with_status df warn; stats df_status) w = (Ok tt, w')
    /\ w_ui w'
       = (w_ui w ++ [StMetric "Total abonnements" (Z.of_nat (nrows d));
                     StMetric "Actifs" (count_status Active warn (w_today w) exps);
                     StMetric "Bientôt expirés"
                       (count_status ExpiringSoon warn (w_today w) exps);
                     StMetric "Expirés" (count_status Expired warn (w_today w) exps)])%list
    /\ count_status Active warn (w_today w) exps
       + count_status ExpiringSoon warn (w_today w) exps
       + count_status Expired warn (w_today w) exps
       = Z.of_nat (nrows d).
Proof.
  intros Hdf Hrect Hne Hexp Hwin.
  destruct (df_with_status_run w df d warn exps Hdf Hrect Hne Hexp Hwin) as (w1 & Hrun & Hl).
  pose proof (df_with_status_display df warn w) as Hui. rewrite Hrun in Hui. cbn [snd] in Hui.
  pose proof (get_col_len _ _ _ Hrect Hexp) as Hlen. cbn [series_len] in Hlen.
  rewrite length_map in Hlen.
  assert (Hs : get_col "Statut" (annotated d warn (w_today w) exps)
               = Some (SObject (map (status_cell warn (w_today w)) exps))).
  { unfold annotated. rewrite get_col_set_col_ne by discriminate.
    apply get_col_set_col_eq. }
  assert (Hn : nrows (annotated d warn (w_today w) exps) = nrows d).
  { unfold annotated. rewrite !nrows_set_col; [reflexivity| |];
      cbn [series_len]; rewrite ?nrows_set_col, length_map; cbn [series_len];
      rewrite ?length_map; auto. }
  eexists. split; [|split].
  - run_ok Hrun. rewrite (stats_run _ _ _ _ _ _ Hl Hs). reflexivity.
  - cbn [w_ui with_ui]. rewrite Hui, Hn. reflexivity.
  - rewrite count_status_total, Hlen. reflexivity.
Qed.

Lemma stats_count_by_status_witness :
  let w := sample_world (Calendar.ymd2ord 2024 1 31) in
  let exps := [(Calendar.ymd2ord 2024 1 31 - 719163) * 86400000000000] in
  exists w',
    (df_status ← df_with_status 1%positive 7; stats df_status) w = (Ok tt, w')
    /\ w_ui w'
       = (w_ui w ++ [StMetric "Total abonnements" (Z.of_nat (nrows sample_record));
                     StMetric "Actifs" (count_status Active 7 (w_today w) exps);
                     StMetric "Bientôt expirés" (count_status ExpiringSoon 7 (w_today w) exps);
                     StMetric "Expirés" (count_status Expired 7 (w_today w) exps)])%list
    /\ count_status Active 7 (w_today w) exps
       + count_status ExpiringSoon 7 (w_today w) exps
       + count_status Expired 7 (w_today w) exps
       = Z.of_nat (nrows sample_record).
Proof.
  intros w exps.
  apply (stats_count_by_status w 1%positive sample_record 7 exps).
  - apply lookup_insert_eq.
  - exact sample_record_rectangular.
  - reflexivity.
  - reflexivity.
  - vm_compute; intuition discriminate.
Defined.

(** The record of the scenario on the day it expires: one record, expiring
    soon. *)
Example stats_on_the_last_day :
  w_ui (snd ((df_status ← df_with_status 1%positive 7; stats df_status)
               (sample_world (Calendar.ymd2ord 2024 1 31))))
  = [StMetric "Total abonnements" 1; StMetric "Actifs" 0;
     StMetric "Bientôt expirés" 1; StMetric "Expirés" 0].
Proof. vm_compute. reflexivity. Qed.

(** * The first load and the column order *)

(** X6. With no file yet (and nothing cached), [load_data] returns a new
    frame with the nine columns of the schema, in order, and no row; it does
    not create the file. *)
Theorem load_without_file `{Float64Lib} (w : world) :
  w_fs w !! DATA_PATH = None ->
  w_cache w !! DATA_PATH = None ->
  exists l w',
    load_data DATA_PATH w = (Ok l, w')
    /\ w_heap w !! l = None
    /\ w_heap w' !! l = Some (empty_frame COLUMNS)
    /\ columns (empty_frame COLUMNS)
       = ["ID"; "Nom"; "Telephone"; "Abonnement"; "DureeJours"; "Montant"; "Debut";
          "Expiration"; "Remarques"]
    /\ nrows (empty_frame COLUMNS) = 0%nat
    /\ w_fs w' = w_fs w.
Proof.
  intros Hf Hc. unfold load_data, st_cache_data, load_data_body. rewrite Hc, Hf, alloc_run.
  eexists _, _. split; [reflexivity|]. split; [exact (fresh_not_live w)|].
  split; [cbn; apply lookup_insert_eq|]. repeat split.
Qed.

Lemma load_without_file_witness :
  exists l w',
    load_data (H := RefFloat.lib) DATA_PATH (blank_world 738886) = (Ok l, w')
    /\ w_heap (blank_world 738886) !! l = None
    /\ w_heap w' !! l = Some (empty_frame COLUMNS)
    /\ columns (empty_frame COLUMNS)
       = ["ID"; "Nom"; "Telephone"; "Abonnement"; "DureeJours"; "Montant"; "Debut";
          "Expiration"; "Remarques"]
    /\ nrows (empty_frame COLUMNS) = 0%nat
    /\ w_fs w' = w_fs (blank_world 738886).
Proof.
  apply (load_without_file (H := RefFloat.lib) (blank_world 738886)); reflexivity.
Defined.

Section ColumnOrder.
Context `{Float64Lib}.

Lemma columns_read_columns (names pd : list string) (rows : list (list string)) :
  forall (i : nat) (d : DataFrame),
    Csv.read_columns names i rows pd = Ok d -> columns d = names.
Proof.
  induction names as [|k names IH]; intros i d; cbn [Csv.read_columns].
  - intros E. injection E as <-. reflexivity.
  - destruct (if Csv.mem_str k pd then _ else _) as [s|e]; [|discriminate]. cbn [rbind].
    destruct (Csv.read_columns names (S i) rows pd) as [d'|e] eqn:E1; [|discriminate].
    cbn [rbind]. intros E. injection E as <-. unfold columns. cbn [map fst]. f_equal.
    exact (IH _ _ E1).
Qed.

(** A frame read from a file has the columns of the file's header line. *)
Lemma columns_read_csv (header : list string) (rows : list (list string))
    (pd : list string) (d : DataFrame) :
  Csv.read_csv (header :: rows) pd = Ok d -> columns d = header.
Proof.
  unfold Csv.read_csv. destruct header as [|k header]; [discriminate|].
  destruct (Csv.has_dup _); [discriminate|].
  destruct (negb (forallb _ pd)); [discriminate|].
  destruct (negb (forallb _ rows)); [discriminate|].
  apply columns_read_columns.
Qed.

(** Appending a created record to a frame with the columns of the schema
    gives a frame with the same columns. *)
Lemma columns_concat_created (d : DataFrame) (f : form) (duree : Z) (id : string) :
  columns d = COLUMNS -> columns (concat d (created_row f duree id)) = COLUMNS.
Proof.
  intros Hc. unfold concat. rewrite Hc.
  change (List.filter _ (created_row f duree id)) with (@nil (string * Series)).
  cbn [map]. rewrite app_nil_r. rewrite <- Hc. unfold columns.
  rewrite List.map_map. apply List.map_ext. intros [k s]. cbn [fst snd].
  destruct (get_col k _); reflexivity.
Qed.

End ColumnOrder.

(** X7. The column order of the file is fixed: when a record is appended to
    a frame with the columns [ID, Nom, Telephone, Abonnement, DureeJours,
    Montant, Debut, Expiration, Remarques] (as the frame of a first run has,
    and every frame loaded from a file with that header line), the file
    written starts with that header line, and the frame the next load
    returns has these columns again. *)
Theorem file_keeps_the_columns `{Float64Lib}
    (df df' : loc) (d : DataFrame) (f : form) (duree : Z) (w w' : world) :
  PyStr.truthy (PyStr.strip (nom f)) = true ->
  w_heap w !! df = Some d ->
  columns d = COLUMNS ->
  on_enregistrer df f duree w = (Ok df', w') ->
  (exists rows, w_fs w' !! DATA_PATH = Some (COLUMNS :: rows))
  /\ (forall l w'' d',
        load_data DATA_PATH w' = (Ok l, w'') ->
        w_heap w'' !! l = Some d' ->
        columns d' = COLUMNS).
Proof.
  intros Hname Hdf Hcols Hrun.
  destruct (on_enregistrer_inv _ _ _ _ _ _ Hname Hrun) as (d0 & Hdf0 & Hdisk & Hrow & -> & ->).
  rewrite Hdf in Hdf0. injection Hdf0 as <-.
  set (row := created_row f duree (w_uuid w (w_drawn w))).
  assert (Hfile : w_fs (appended w d row) !! DATA_PATH
                  = Some (COLUMNS :: Csv.csv_rows (concat d row))).
  { cbn. rewrite lookup_insert_eq. unfold Csv.to_csv.
    subst row. rewrite (columns_concat_created d f duree _ Hcols). reflexivity. }
  split; [eexists; exact Hfile|].
  intros l w'' d' Hload Hl.
  assert (Hc : w_cache (appended w d row) !! DATA_PATH = None) by (cbn; apply lookup_empty).
  rewrite (load_data_uncached DATA_PATH _ _ Hc Hfile) in Hload.
  destruct (Csv.read_csv _ _) as [d1|e] eqn:Er; [|discriminate].
  injection Hload as <- <-. cbn in Hl. rewrite lookup_insert_eq in Hl. injection Hl as <-.
  exact (columns_read_csv _ _ _ _ Er).
Qed.

Lemma file_keeps_the_columns_witness :
  let w := stocked_world 738886 DiskOk in
  let w' := appended (H := RefFloat.lib) w sample_record (created_row lina_form 10 "id-1") in
  (exists rows, w_fs w' !! DATA_PATH = Some (COLUMNS :: rows))
  /\ (forall l w'' d',
        load_data (H := RefFloat.lib) DATA_PATH w' = (Ok l, w'') ->
        w_heap w'' !! l = Some d' ->
        columns d' = COLUMNS).
Proof.
  intros w w'.
  refine (file_keeps_the_columns (H := RefFloat.lib)
            1%positive (fresh (dom (w_heap w))) sample_record lina_form 10 w w' _ _ _ _).
  - reflexivity.
  - reflexivity.
  - reflexivity.
  - apply (on_enregistrer_run (H := RefFloat.lib) 1%positive sample_record lina_form 10 w);
      reflexivity.
Defined.

(** * A run without the button *)

(** X8. A run of the page in which the button is not pressed writes no file
    and only adds to the display, whatever the store, the cache and the form
    hold, and whether the run completes or raises. *)
Theorem page_without_submit_writes_nothing `{Float64Lib} (f : form) (w : world) :
  enregistrer f = false ->
  w_fs (snd (page f w)) = w_fs w
  /\ exists more, w_ui (snd (page f w)) = (w_ui w ++ more)%list.
Proof.
  intros Hidle. enough (Hpage : reads_only (page f)) by exact (Hpage w).
  rewrite page_unfold, Hidle. unfold reads_only.
  reads_only_bind; [apply reads_only_load_data|]. intros l.
  reads_only_bind; [reads_only_leaf|]. intros n.
  reads_only_bind; [reads_only_leaf|]. intros l'. apply reads_only_render.
Qed.

Lemma page_without_submit_writes_nothing_witness :
  w_fs (snd (page (H := RefFloat.lib) (idle_form 738916) (stored_world 738916)))
  = w_fs (stored_world 738916)
  /\ exists more,
       w_ui (snd (page (H := RefFloat.lib) (idle_form 738916) (stored_world 738916)))
       = (w_ui (stored_world 738916) ++ more)%list.
Proof.
  apply (page_without_submit_writes_nothing (H := RefFloat.lib)
           (idle_form 738916) (stored_world 738916)).
  reflexivity.
Defined.

(** * A file that cannot be read *)

Section Unreadable.
Context `{Float64Lib}.

Lemma mem_str_forallb_false (k : string) (header pd : list string) :
  In k pd -> Csv.mem_str k header = false ->
  forallb (fun k => Csv.mem_str k header) pd = false.
Proof.
  intros Hin Hk. destruct (forallb _ pd) eqn:E; [|reflexivity].
  rewrite forallb_forall in E. rewrite (E k Hin) in Hk. discriminate.
Qed.

(** A header line without one of the two date columns is refused. *)
Lemma read_csv_missing_date_column (header : list string) (rows : list (list string)) :
  header <> [] ->
  Csv.has_dup header = false ->
  Csv.mem_str "Debut" header = false \/ Csv.mem_str "Expiration" header = false ->
  Csv.read_csv (header :: rows) ["Debut"; "Expiration"]
  = Raise (ValueError "Missing column provided to 'parse_dates'").
Proof.
  intros Hne Hdup Hmiss. unfold Csv.read_csv.
  destruct header as [|k header]; [contradiction|]. rewrite Hdup.
  assert (E : forallb (fun k0 => Csv.mem_str k0 (k :: header)) ["Debut"; "Expiration"] = false).
  { destruct Hmiss as [Hm|Hm].
    - apply (mem_str_forallb_false "Debut"); [left; reflexivity | exact Hm].
    - apply (mem_str_forallb_false "Expiration"); [right; left; reflexivity | exact Hm]. }
  rewrite E. reflexivity.
Qed.

End Unreadable.

(** X9. A backing file the reader refuses stops the page at its first line:
    the exception of [pd.read_csv] leaves [load_data] and the page, nothing
    is displayed, nothing is cached (a later run reads the file again) and
    no file is touched.  A file of zero bytes gives [EmptyDataError]; a
    header line without [Debut] or without [Expiration] gives the
    [ValueError] of [parse_dates]. *)
Theorem unreadable_file_stops_the_page `{Float64Lib}
    (f : form) (file : csv_file) (w : world) :
  w_cache w !! DATA_PATH = None ->
  w_fs w !! DATA_PATH = Some file ->
  (forall e, Csv.read_csv file ["Debut"; "Expiration"] = Raise e ->
             load_data DATA_PATH w = (Raise e, w) /\ page f w = (Raise e, w))
  /\ (file = [] -> page f w = (Raise EmptyDataError, w))
  /\ (forall header rows,
        file = header :: rows -> header <> [] -> Csv.has_dup header = false ->
        Csv.mem_str "Debut" header = false \/ Csv.mem_str "Expiration" header = false ->
        page f w = (Raise (ValueError "Missing column provided to 'parse_dates'"), w)).
Proof.
  intros Hc Hf.
  assert (Hall : forall e, Csv.read_csv file ["Debut"; "Expiration"] = Raise e ->
                           load_data DATA_PATH w = (Raise e, w) /\ page f w = (Raise e, w)).
  { intros e He.
    assert (Hl : load_data DATA_PATH w = (Raise e, w))
      by (rewrite (load_data_uncached _ _ _ Hc Hf), He; reflexivity).
    split; [exact Hl|]. rewrite page_unfold. run_raise Hl. reflexivity. }
  split; [exact Hall|]. split.
  - intros ->. apply Hall. reflexivity.
  - intros header rows -> Hne Hdup Hmiss. apply Hall.
    apply read_csv_missing_date_column; assumption.
Qed.

Lemma unreadable_file_stops_the_page_witness :
  let w := with_fs (<[DATA_PATH := [["ID"; "Nom"]; ["1"; "Amine"]]]> ∅) (blank_world 738916) in
  page (H := RefFloat.lib) (idle_form 738916) w
  = (Raise (ValueError "Missing column provided to 'parse_dates'"), w).
Proof.
  intros w.
  exact (proj2 (proj2 (unreadable_file_stops_the_page (H := RefFloat.lib)
                         (idle_form 738916) [["ID"; "Nom"]; ["1"; "Amine"]] w
                         eq_refl eq_refl))
               ["ID"; "Nom"] [["1"; "Amine"]] eq_refl ltac:(discriminate) eq_refl
               (or_introl eq_refl)).
Defined.

(** * A duration too long for a Timestamp *)

(** X10. A duration that [timedelta] refuses (more than 999999999 days), or
    that puts the expiration beyond the last [Timestamp], makes the handler
    raise while the row is being built: the identifier has been drawn, but
    no file is written, no frame is created and nothing is displayed. *)
Theorem long_duration_saves_nothing `{Float64Lib}
    (df : loc) (f : form) (duree : Z) (w : world) :
  PyStr.truthy (PyStr.strip (nom f)) = true ->
  Calendar.ts_in_bounds ((debut f - Calendar.EPOCH_ORDINAL) * Calendar.NS_PER_DAY) = true ->
  Calendar.MAX_DELTA_DAYS < duree
  \/ Calendar.ts_in_bounds ((debut f - Calendar.EPOCH_ORDINAL) * Calendar.NS_PER_DAY
                            + duree * Calendar.NS_PER_DAY) = false ->
  exists e,
    on_enregistrer df f duree w = (Raise e, with_drawn (S (w_drawn w)) w)
    /\ w_fs (snd (on_enregistrer df f duree w)) = w_fs w
    /\ w_heap (snd (on_enregistrer df f duree w)) = w_heap w
    /\ w_ui (snd (on_enregistrer df f duree w)) = w_ui w.
Proof.
  intros Hname Hs Hlong.
  assert (Hrow : exists e, new_row f duree w = (Raise e, with_drawn (S (w_drawn w)) w)).
  { unfold new_row, Calendar.to_datetime. rewrite Hs.
    cbv [mbind M_bind bind lift gen_id]. unfold Calendar.timedelta.
    destruct ((- Calendar.MAX_DELTA_DAYS <=? duree) && (duree <=? Calendar.MAX_DELTA_DAYS))
      eqn:Ed; [|eexists; reflexivity].
    unfold Calendar.ts_add_days.
    destruct Hlong as [Hbig|Hout].
    - apply andb_prop in Ed as [_ Hu]. apply Z.leb_le in Hu. lia.
    - rewrite Hout. eexists; reflexivity. }
  destruct Hrow as [e Hrow]. exists e.
  assert (Hrun : on_enregistrer df f duree w = (Raise e, with_drawn (S (w_drawn w)) w)).
  { unfold on_enregistrer. rewrite Hname. cbn [negb]. run_raise Hrow. reflexivity. }
  rewrite Hrun. repeat split.
Qed.

Lemma long_duration_saves_nothing_witness :
  exists e,
    on_enregistrer (H := RefFloat.lib) 1%positive lina_form 100000 (stocked_world 738916 DiskOk)
    = (Raise e, with_drawn 2 (stocked_world 738916 DiskOk))
    /\ w_fs (snd (on_enregistrer (H := RefFloat.lib) 1%positive lina_form 100000
                    (stocked_world 738916 DiskOk)))
       = w_fs (stocked_world 738916 DiskOk)
    /\ w_heap (snd (on_enregistrer (H := RefFloat.lib) 1%positive lina_form 100000
                      (stocked_world 738916 DiskOk)))
       = w_heap (stocked_world 738916 DiskOk)
    /\ w_ui (snd (on_enregistrer (H := RefFloat.lib) 1%positive lina_form 100000
                    (stocked_world 738916 DiskOk)))
       = w_ui (stocked_world 738916 DiskOk).
Proof.
  apply (long_duration_saves_nothing (H := RefFloat.lib) 1%positive lina_form 100000
           (stocked_world 738916 DiskOk)).
  - reflexivity.
  - reflexivity.
  - right. reflexivity.
Defined.

(** * Statuses over time *)

(** X11. A record's status never goes back: as the current date advances
    (and the warning window does not shrink), the status [status_for]
    returns moves only from Actif to Bientôt to Expiré; once expired, a
    record stays expired. *)
Theorem status_never_goes_back (w1 w2 : world) (expiration warn1 warn2 : Z) :
  w_today w1 <= w_today w2 ->
  warn1 <= warn2 ->
  window_ok (w_today w1) warn1 ->
  window_ok (w_today w2) warn2 ->
  exists s1 s2 : Status,
    status_for (PDate expiration) warn1 w1 = (Ok (PStr (label s1)), w1)
    /\ status_for (PDate expiration) warn2 w2 = (Ok (PStr (label s2)), w2)
    /\ (status_rank s1 <= status_rank s2)%nat
    /\ (s1 = Expired -> s2 = Expired).
Proof.
  intros Ht Hw H1 H2.
  exists (spec_status expiration warn1 (w_today w1)),
         (spec_status expiration warn2 (w_today w2)).
  split; [apply status_for_run; right; exact H1|].
  split; [apply status_for_run; right; exact H2|].
  unfold spec_status.
  destruct (expiration <? w_today w1) eqn:E1; destruct (expiration <? w_today w2) eqn:E2;
    try apply Z.ltb_lt in E1; try apply Z.ltb_ge in E1;
    try apply Z.ltb_lt in E2; try apply Z.ltb_ge in E2; try lia;
    destruct (expiration <=? w_today w1 + warn1) eqn:E3;
    destruct (expiration <=? w_today w2 + warn2) eqn:E4;
    try apply Z.leb_le in E3; try apply Z.leb_gt in E3;
    try apply Z.leb_le in E4; try apply Z.leb_gt in E4;
    cbn [status_rank]; split; try lia; try reflexivity; try discriminate.
Qed.

Lemma status_never_goes_back_witness :
  exists s1 s2 : Status,
    status_for (PDate 738916) 7 (blank_world 738900) = (Ok (PStr (label s1)), blank_world 738900)
    /\ status_for (PDate 738916) 7 (blank_world 738910)
       = (Ok (PStr (label s2)), blank_world 738910)
    /\ (status_rank s1 <= status_rank s2)%nat
    /\ (s1 = Expired -> s2 = Expired).
Proof.
  apply (status_never_goes_back (blank_world 738900) (blank_world 738910) 738916 7 7).
  - vm_compute. discriminate.
  - lia.
  - vm_compute; intuition discriminate.
  - vm_compute; intuition discriminate.
Defined.

(** * A new record, annotated *)

(** X3. A record created from the form and then annotated has the status
    of the day [debut + duree] under the three-way rule, and
    [debut + duree - today] days remaining: on its last day it is
    [⏳ Bientôt] with 0 days left (for a window that is not negative), on the
    next day [❌ Expiré] with -1. *)
Theorem created_record_status (f : form) (duree warn : Z) (w : world) :
  Calendar.ts_in_bounds ((debut f - Calendar.EPOCH_ORDINAL) * Calendar.NS_PER_DAY) = true ->
  Calendar.ts_in_bounds ((debut f - Calendar.EPOCH_ORDINAL) * Calendar.NS_PER_DAY
                         + duree * Calendar.NS_PER_DAY) = true ->
  - Calendar.MAX_DELTA_DAYS <= duree <= Calendar.MAX_DELTA_DAYS ->
  window_ok (w_today w) warn ->
  fst (created_then_annotated f duree warn w)
  = Ok (Some (SObject [PStr (label (spec_status (debut f + duree) warn (w_today w)))]),
        Some (SInt64 [debut f + duree - w_today w]))
  /\ (0 <= warn -> w_today w = debut f + duree ->
      fst (created_then_annotated f duree warn w)
      = Ok (Some (SObject [PStr "⏳ Bientôt"]), Some (SInt64 [0])))
  /\ (w_today w = debut f + duree + 1 ->
      fst (created_then_annotated f duree warn w)
      = Ok (Some (SObject [PStr "❌ Expiré"]), Some (SInt64 [-1]))).
Proof.
  intros Hs He Hd Hwin.
  assert (Hrun : fst (created_then_annotated f duree warn w)
                 = Ok (Some (SObject [PStr (label (spec_status (debut f + duree) warn
                                                     (w_today w)))]),
                       Some (SInt64 [debut f + duree - w_today w]))).
  { unfold created_then_annotated.
    run_ok (new_row_run f duree w Hs He Hd).
    rewrite bind_run, alloc_run.
    set (row := created_row f duree (w_uuid w (w_drawn w))).
    set (l := fresh (dom (w_heap (with_drawn (S (w_drawn w)) w)))).
    set (w1 := with_heap _ _).
    assert (Hl : w_heap w1 !! l = Some row) by (subst w1; cbn; apply lookup_insert_eq).
    destruct (created_row_rectangular f duree (w_uuid w (w_drawn w))) as [Hrect Hone].
    fold row in Hrect, Hone.
    destruct (df_with_status_run w1 l row warn
                [(debut f - Calendar.EPOCH_ORDINAL) * Calendar.NS_PER_DAY
                 + duree * Calendar.NS_PER_DAY] Hl Hrect)
      as (w2 & Hrun & Hl2); [reflexivity | reflexivity | exact Hwin |].
    run_ok Hrun. run_ok (deref_run _ _ _ Hl2). unfold ret. cbn [fst].
    unfold annotated. rewrite get_col_set_col_eq.
    rewrite get_col_set_col_ne by discriminate. rewrite get_col_set_col_eq.
    cbn [map]. unfold status_cell, days_remaining.
    rewrite ts_date_add_days. reflexivity. }
  split; [exact Hrun|]. split.
  - intros Hw Ht. rewrite Hrun. unfold spec_status. rewrite <- Ht.
    rewrite Z.ltb_irrefl.
    replace (w_today w <=? w_today w + warn) with true by (symmetry; apply Z.leb_le; lia).
    rewrite Z.sub_diag. reflexivity.
  - intros Ht. rewrite Hrun. unfold spec_status.
    replace (debut f + duree <? w_today w) with true by (symmetry; apply Z.ltb_lt; lia).
    replace (debut f + duree - w_today w) with (-1) by lia. reflexivity.
Qed.

Lemma created_record_status_witness :
  let w := blank_world (Calendar.ymd2ord 2024 1 31) in
  fst (created_then_annotated january_form 30 7 w)
  = Ok (Some (SObject [PStr (label (spec_status (debut january_form + 30) 7 (w_today w)))]),
        Some (SInt64 [debut january_form + 30 - w_today w]))
  /\ (0 <= 7 -> w_today w = debut january_form + 30 ->
      fst (created_then_annotated january_form 30 7 w)
      = Ok (Some (SObject [PStr "⏳ Bientôt"]), Some (SInt64 [0])))
  /\ (w_today w = debut january_form + 30 + 1 ->
      fst (created_then_annotated january_form 30 7 w)
      = Ok (Some (SObject [PStr "❌ Expiré"]), Some (SInt64 [-1]))).
Proof.
  intros w.
  apply (created_record_status january_form 30 7 w).
  - reflexivity.
  - reflexivity.
  - vm_compute; intuition discriminate.
  - vm_compute; intuition discriminate.
Defined.

(** * The line written for a record *)

Lemma midnight_resolution (o : Z) :
  Csv.value_resolution ((o - Calendar.EPOCH_ORDINAL) * Calendar.NS_PER_DAY) = Csv.ResDay.
Proof.
  unfold Csv.value_resolution, Csv.time_of_day.
  rewrite Z.mod_mul by (unfold Calendar.NS_PER_DAY; lia). reflexivity.
Qed.

Lemma ts_date_midnight (o : Z) :
  Calendar.ts_date ((o - Calendar.EPOCH_ORDINAL) * Calendar.NS_PER_DAY) = o.
Proof.
  unfold Calendar.ts_date. rewrite Z.div_mul by (unfold Calendar.NS_PER_DAY; lia). lia.
Qed.

(** A column of one midnight timestamp is written as the date alone. *)
Lemma cells_of_midnight `{Float64Lib} (o : Z) :
  Csv.cells_of_series (SDatetime [Some ((o - Calendar.EPOCH_ORDINAL) * Calendar.NS_PER_DAY)])
  = [Csv.fmt_ymd o].
Proof.
  cbn [Csv.cells_of_series Csv.column_resolution map].
  rewrite midnight_resolution. cbn [Csv.res_max Csv.res_rank Nat.ltb Nat.leb].
  unfold Csv.fmt_timestamp. rewrite ts_date_midnight. reflexivity.
Qed.

(** Appended to the frame of a first run, a created record is the whole frame. *)
Lemma concat_first `{Float64Lib} (f : form) (duree : Z) (id : string) :
  concat (empty_frame COLUMNS) (created_row f duree id) = created_row f duree id.
Proof. reflexivity. Qed.

(** X12. The first record saved on an empty store leaves a file of two
    lines: the header, and the record with its identifier, the name, phone
    number and remarks stripped of surrounding whitespace, the plan, the
    duration in decimal, the amount as float64 text, and the two dates as
    dates ([fmt_ymd]), without a time of day. *)
Theorem first_record_file `{Float64Lib}
    (df df' : loc) (f : form) (duree : Z) (w w' : world) :
  PyStr.truthy (PyStr.strip (nom f)) = true ->
  w_heap w !! df = Some (empty_frame COLUMNS) ->
  PrimFloat.is_nan (montant f) = false ->
  on_enregistrer df f duree w = (Ok df', w') ->
  w_fs w' !! DATA_PATH
  = Some [["ID"; "Nom"; "Telephone"; "Abonnement"; "DureeJours"; "Montant"; "Debut";
           "Expiration"; "Remarques"];
          [w_uuid w (w_drawn w); PyStr.strip (nom f); PyStr.strip (tel f); abo_choice f;
           PyStr.str_int duree; f64_repr (montant f);
           Csv.fmt_ymd (debut f); Csv.fmt_ymd (debut f + duree); PyStr.strip (rem f)]].
Proof.
  intros Hname Hdf Hnan Hrun.
  destruct (on_enregistrer_inv _ _ _ _ _ _ Hname Hrun) as (d & Hd & _ & _ & _ & ->).
  rewrite Hdf in Hd. injection Hd as <-.
  cbn [appended w_fs with_ui with_cache with_fs]. rewrite lookup_insert_eq. f_equal.
  rewrite concat_first.
  unfold Csv.to_csv, Csv.csv_rows, created_row.
  cbn [columns nrows series_len length map fst snd seq].
  replace ((debut f - Calendar.EPOCH_ORDINAL) * Calendar.NS_PER_DAY
           + duree * Calendar.NS_PER_DAY)
    with ((debut f + duree - Calendar.EPOCH_ORDINAL) * Calendar.NS_PER_DAY) by lia.
  rewrite !cells_of_midnight.
  cbn [Csv.cells_of_series map Csv.cell_of_obj nth]. unfold Csv.cell_of_float.
  rewrite Hnan. reflexivity.
Qed.

Lemma first_record_file_witness :
  let w := with_heap (<[1%positive := empty_frame COLUMNS]> ∅) (blank_world 738886) in
  w_fs (appended (H := RefFloat.lib) w (empty_frame COLUMNS) (created_row january_form 30 "id-0"))
    !! DATA_PATH
  = Some [["ID"; "Nom"; "Telephone"; "Abonnement"; "DureeJours"; "Montant"; "Debut";
           "Expiration"; "Remarques"];
          [w_uuid w (w_drawn w); PyStr.strip (nom january_form);
           PyStr.strip (tel january_form); abo_choice january_form;
           PyStr.str_int 30; f64_repr (Float64Lib := RefFloat.lib) (montant january_form);
           Csv.fmt_ymd (debut january_form); Csv.fmt_ymd (debut january_form + 30);
           PyStr.strip (rem january_form)]].
Proof.
  intros w.
  refine (first_record_file (H := RefFloat.lib) 1%positive (fresh (dom (w_heap w)))
            january_form 30 w _ _ _ _ _).
  - reflexivity.
  - reflexivity.
  - reflexivity.
  - apply (on_enregistrer_run (H := RefFloat.lib) 1%positive (empty_frame COLUMNS)
             january_form 30 w); reflexivity.
Defined.

(** The line of the scenario's record, as text. *)
Example first_record_text :
  let w := with_heap (<[1%positive := empty_frame COLUMNS]> ∅) (blank_world 738886) in
  w_fs (snd (on_enregistrer (H := RefFloat.lib) 1%positive january_form 30 w)) !! DATA_PATH
  = Some [COLUMNS;
          ["id-0"; "Amine"; "0550123456"; "Mensuel (30j)"; "30"; "1000.0";
           "2024-01-01"; "2024-01-31"; ""]].
Proof. vm_compute. reflexivity. Qed.


(** * Notifications *)

Lemma rmap_seq {A B} (F : nat -> result B) (G : A -> B) (l : list A) :
  forall start : nat,
    (forall i a, nth_error l i = Some a -> F (start + i)%nat = Ok (G a)) ->
    rmap F (seq start (length l)) = Ok (map G l).
Proof.
  induction l as [|a l IH]; intros start HF; [reflexivity|].
  cbn [length seq rmap map].
  rewrite <- (Nat.add_0_r start) at 1. rewrite (HF 0%nat a eq_refl). cbn [rbind].
  rewrite (IH (S start)); [reflexivity|].
  intros i b Hi. replace (S start + i)%nat with (start + S i)%nat by lia.
  apply (HF (S i)). exact Hi.
Qed.

Lemma nth_error_combine {A B} (l1 : list A) (l2 : list B) (i : nat) (a : A) (b : B) :
  nth_error (combine l1 l2) i = Some (a, b) ->
  nth_error l1 i = Some a /\ nth_error l2 i = Some b.
Proof.
  revert l2 i. induction l1 as [|x l1 IH]; intros [|y l2] [|i]; cbn; try discriminate.
  - intros E. injection E as -> ->. auto.
  - apply IH.
Qed.

Lemma omap_id_map {A B} (f : A -> option B) (l : list A) :
  omap id (map f l) = omap f l.
Proof.
  induction l as [|a l IH]; [reflexivity|].
  cbn. destruct (f a); cbn; rewrite IH; reflexivity.
Qed.

Lemma row_item_run (d : DataFrame) (i : nat) (k : string) (s : Series) (v : pyval) :
  get_col k d = Some s -> nth_error (series_values s) i = Some v ->
  row_item d i k = Ok v.
Proof. intros Hk Hv. unfold row_item. rewrite Hk, Hv. reflexivity. Qed.

Lemma mapM_emit {A} (g : A -> ui_event) (l : list A) (w : world) :
  l <> [] ->
  mapM (fun a => emit (g a)) l w
  = (Ok (map (fun _ => tt) l), with_ui (w_ui w ++ map g l)%list w).
Proof.
  revert w. induction l as [|a l IH]; intros w Hne; [contradiction|].
  cbn [mapM map]. rewrite bind_run, emit_run.
  destruct l as [|b l].
  - cbn [mapM map]. rewrite bind_run. reflexivity.
  - rewrite bind_run, IH by discriminate. cbn [w_ui with_ui].
    rewrite <- app_assoc. reflexivity.
Qed.

Lemma mapM_ext {A B} (f g : A -> M B) (l : list A) :
  (forall a, f a = g a) -> mapM f l = mapM g l.
Proof.
  intros E. induction l as [|a l IH]; [reflexivity|].
  cbn [mapM]. rewrite E, IH. reflexivity.
Qed.

Section Notifications.
Context `{Float64Lib}.

(** One turn of the loop over an annotated frame. *)
Lemma alert_of_row_annotated (d : DataFrame) (warn today : Z) (names : Series)
    (exps : list Z) (i : nat) (name : pyval) (ns : Z) :
  get_col "Nom" d = Some names ->
  get_col "Expiration" d = Some (SDatetime (map Some exps)) ->
  nth_error (series_values names) i = Some name ->
  nth_error exps i = Some ns ->
  alert_of_row (annotated d warn today exps) i = Ok (alert_of warn today name ns).
Proof.
  intros Hnom Hexp Hname Hns.
  set (d2 := annotated d warn today exps).
  assert (Hs : row_item d2 i "Statut" = Ok (status_cell warn today ns)).
  { apply (row_item_run _ _ _ (SObject (map (status_cell warn today) exps))).
    - subst d2. unfold annotated. rewrite get_col_set_col_ne by discriminate.
      apply get_col_set_col_eq.
    - cbn [series_values]. apply List.map_nth_error. exact Hns. }
  assert (Hj : row_item d2 i "JoursRestants" = Ok (PInt (days_remaining today ns))).
  { apply (row_item_run _ _ _ (SInt64 (map (days_remaining today) exps))).
    - subst d2. unfold annotated. apply get_col_set_col_eq.
    - cbn [series_values]. rewrite List.map_map.
      apply (List.map_nth_error (fun x => PInt (days_remaining today x))). exact Hns. }
  assert (Hn : row_item d2 i "Nom" = Ok name).
  { apply (row_item_run _ _ _ names); [|exact Hname].
    subst d2. unfold annotated. rewrite !get_col_set_col_ne by discriminate. exact Hnom. }
  assert (He : row_item d2 i "Expiration" = Ok (PTimestamp ns)).
  { apply (row_item_run _ _ _ (SDatetime (map Some exps))).
    - subst d2. unfold annotated. rewrite !get_col_set_col_ne by discriminate. exact Hexp.
    - cbn [series_values]. rewrite List.map_map.
      apply (List.map_nth_error (fun x => box_ts (Some x))). exact Hns. }
  unfold alert_of_row, alert_of. rewrite Hs, Hj, Hn, He.
  unfold status_cell, days_remaining.
  destruct (spec_status (Calendar.ts_date ns) warn today); reflexivity.
Qed.

(** The notification section over an annotated frame. *)
Lemma notifications_run (w : world) (l : loc) (d : DataFrame) (warn today : Z)
    (names : Series) (exps : list Z) :
  w_heap w !! l = Some (annotated d warn today exps) ->
  rectangular d ->
  get_col "Nom" d = Some names ->
  get_col "Expiration" d = Some (SDatetime (map Some exps)) ->
  notifications l w
  = (Ok tt,
     with_ui (w_ui w ++ alert_events (alerts_of warn today (series_values names) exps))%list w).
Proof.
  intros Hl Hrect Hnom Hexp. unfold notifications.
  run_ok (deref_run _ _ _ Hl).
  assert (Hn1 : length exps = nrows d).
  { pose proof (get_col_len _ _ _ Hrect Hexp) as E. cbn [series_len] in E.
    rewrite length_map in E. exact E. }
  assert (Hn2 : length (series_values names) = nrows d).
  { pose proof (get_col_len _ _ _ Hrect Hnom) as E. rewrite <- E.
    destruct names; cbn [series_values series_len]; rewrite ?length_map; reflexivity. }
  assert (Hn : nrows (annotated d warn today exps)
               = length (combine (series_values names) exps)).
  { rewrite length_combine, Hn1, Hn2, Nat.min_id. unfold annotated.
    rewrite !nrows_set_col; [reflexivity| |];
      cbn [series_len]; rewrite ?nrows_set_col, length_map; cbn [series_len];
      rewrite ?length_map; auto. }
  rewrite Hn.
  rewrite (rmap_seq (alert_of_row (annotated d warn today exps))
             (fun p => alert_of warn today (fst p) (snd p))
             (combine (series_values names) exps) 0).
  2:{ intros i [name ns] Hi. apply nth_error_combine in Hi as [H1 H2].
      cbn [Nat.add fst snd]. eapply alert_of_row_annotated; eauto. }
  rewrite bind_run, lift_run, omap_id_map.
  fold (alerts_of warn today (series_values names) exps).
  destruct (alerts_of warn today (series_values names) exps) as [|a alerts] eqn:Ea.
  - reflexivity.
  - rewrite bind_run.
    rewrite (mapM_ext _ (fun a => emit (match a with
                                        | (n, msg, icon) =>
                                            StError (icon +:+ " **" +:+ py_str n +:+ "** — "
                                                     +:+ msg)
                                        end)) (a :: alerts))
      by (intros [[n msg] icon]; reflexivity).
    rewrite (mapM_emit (fun a => match a with
                                 | (n, msg, icon) =>
                                     StError (icon +:+ " **" +:+ py_str n +:+ "** — " +:+ msg)
                                 end) (a :: alerts) w) by discriminate.
    reflexivity.
Qed.

End Notifications.

(** * A page that renders *)

Lemma rectangular_set_col (k : string) (s : Series) (d : DataFrame) :
  rectangular d -> series_len s = nrows d -> rectangular (set_col k s d).
Proof.
  intros Hrect Hlen. unfold rectangular. rewrite (nrows_set_col _ _ _ Hlen).
  unfold rectangular in Hrect. revert Hrect Hlen. generalize (nrows d) as n.
  induction d as [|[k0 s0] d IH]; intros n Hrect Hlen; cbn [set_col].
  - repeat constructor. exact Hlen.
  - apply Forall_cons in Hrect as [Hh Ht].
    destruct (String.eqb k0 k); constructor; auto.
Qed.

Lemma rectangular_annotated (d : DataFrame) (warn today : Z) (exps : list Z) :
  rectangular d -> length exps = nrows d ->
  rectangular (annotated d warn today exps)
  /\ nrows (annotated d warn today exps) = nrows d.
Proof.
  intros Hrect Hlen. unfold annotated.
  assert (H1 : series_len (SObject (map (status_cell warn today) exps)) = nrows d)
    by (cbn [series_len]; rewrite length_map; exact Hlen).
  assert (H2 : series_len (SInt64 (map (days_remaining today) exps))
               = nrows (set_col "Statut" (SObject (map (status_cell warn today) exps)) d))
    by (rewrite (nrows_set_col _ _ _ H1); cbn [series_len]; rewrite length_map; exact Hlen).
  split.
  - apply rectangular_set_col; [apply rectangular_set_col; assumption | exact H2].
  - rewrite (nrows_set_col _ _ _ H2). apply nrows_set_col. exact H1.
Qed.

Lemma df_with_status_files (df : loc) (warn : Z) (w : world) :
  w_fs (snd (df_with_status df warn w)) = w_fs w.
Proof. exact (proj1 (reads_only_df_with_status df warn w)). Qed.

Section Rendering.
Context `{Float64Lib}.

Lemma local_revenue_by_month (l : loc) : local_to l (revenue_by_month l).
Proof.
  pose proof (only_at_refl l) as Rr. pose proof (only_at_trans l) as Rt.
  unfold revenue_by_month, local_to.
  apply respects_bind; auto using respects_getitem. intros start.
  apply respects_bind; auto using respects_lift. intros mois.
  apply respects_bind; auto. { apply local_setitem. } intros _.
  apply respects_bind; auto using respects_deref, respects_lift.
Qed.

(** A successful load leaves the clock, the files and the display alone. *)
Lemma load_data_inv (path : string) (w w1 : world) (l : loc) :
  load_data path w = (Ok l, w1) ->
  w_today w1 = w_today w /\ w_fs w1 = w_fs w /\ w_ui w1 = w_ui w.
Proof.
  unfold load_data, st_cache_data, load_data_body.
  destruct (w_cache w !! path) as [d|].
  - rewrite alloc_run. intros E. injection E as <- <-. repeat split.
  - destruct (w_fs w !! path) as [file|].
    + destruct (Csv.read_csv file _) as [d|e]; [|discriminate].
      rewrite alloc_run. intros E. injection E as <- <-. repeat split.
    + rewrite alloc_run. intros E. injection E as <- <-. repeat split.
Qed.

(** The page from the download button down, on a store that is not empty. *)
Lemma render_run (w : world) (df : loc) (d : DataFrame) (warn : Z)
    (names : Series) (exps debuts : list Z) (amounts : list float) :
  w_heap w !! df = Some d ->
  rectangular d ->
  empty d = false ->
  get_col "Nom" d = Some names ->
  get_col "Expiration" d = Some (SDatetime (map Some exps)) ->
  get_col "Debut" d = Some (SDatetime (map Some debuts)) ->
  get_col "Montant" d = Some (SFloat64 amounts) ->
  Forall (fun ns => Calendar.ts_in_bounds (Calendar.month_start ns) = true) debuts ->
  window_ok (w_today w) warn ->
  let d2 := annotated d warn (w_today w) exps in
  let months := sorted_keys (map (fun ns => Some (Calendar.month_start ns)) debuts) in
  exists w',
    render df warn w = (Ok tt, w')
    /\ w_fs w' = w_fs w
    /\ w_ui w'
       = (w_ui w
          ++ [SidebarDownload (Csv.to_csv d) "abonnements.csv"]
          ++ alert_events (alerts_of warn (w_today w) (series_values names) exps)
          ++ [StDataframe d2 "Expiration";
              StMetric "Total abonnements" (Z.of_nat (nrows d));
              StMetric "Actifs" (count_status Active warn (w_today w) exps);
              StMetric "Bientôt expirés" (count_status ExpiringSoon warn (w_today w) exps);
              StMetric "Expirés" (count_status Expired warn (w_today w) exps);
              StPie d2 "Statut";
              StBar [("Mois", SDatetime (map Some months));
                     ("Montant",
                      SFloat64 (map (fun m => f64_sum (List.filter not_nan
                                                         (amounts_of_month m debuts amounts)))
                                    months))]
                    "Mois" "Montant"])%list.
Proof.
  intros Hdf Hrect Hne Hnom Hexp Hdeb Hmon Hb Hwin d2 months.
  pose proof (get_col_len _ _ _ Hrect Hexp) as Hlen. cbn [series_len] in Hlen.
  rewrite length_map in Hlen.
  destruct (rectangular_annotated d warn (w_today w) exps Hrect Hlen) as [Hrect2 Hn2].
  fold d2 in Hrect2, Hn2.
  unfold render. run_ok (deref_run _ _ _ Hdf). rewrite bind_run, emit_run.
  set (w1 := with_ui _ w).
  assert (Hdf1 : w_heap w1 !! df = Some d) by exact Hdf.
  assert (Hwin1 : window_ok (w_today w1) warn) by exact Hwin.
  destruct (df_with_status_run w1 df d warn exps Hdf1 Hrect Hne Hexp Hwin1)
    as (w2 & Hrun & Hl).
  change (w_today w1) with (w_today w) in Hl. fold d2 in Hl.
  pose proof (df_with_status_display df warn w1) as Hui2.
  pose proof (df_with_status_files df warn w1) as Hfs2.
  rewrite Hrun in Hui2, Hfs2. cbn [snd] in Hui2, Hfs2.
  run_ok Hrun. set (l := fresh (dom (w_heap w1))) in *.
  (* notifications *)
  rewrite bind_run, (notifications_run w2 l d warn (w_today w) names exps Hl Hrect Hnom Hexp).
  set (w3 := with_ui _ w2).
  assert (Hl3 : w_heap w3 !! l = Some d2) by exact Hl.
  (* the table *)
  rewrite bind_run. unfold tableau at 1. run_ok (deref_run _ _ _ Hl3).
  assert (He2 : empty d2 = false) by (unfold empty in *; rewrite Hn2; exact Hne).
  rewrite He2, emit_run.
  set (w4 := with_ui _ w3).
  assert (Hl4 : w_heap w4 !! l = Some d2) by exact Hl.
  (* the statistics *)
  assert (Hs : get_col "Statut" d2 = Some (SObject (map (status_cell warn (w_today w)) exps))).
  { subst d2. unfold annotated. rewrite get_col_set_col_ne by discriminate.
    apply get_col_set_col_eq. }
  rewrite bind_run, (stats_run w4 l d2 warn (w_today w) exps Hl4 Hs).
  set (w5 := with_ui _ w4).
  assert (Hl5 : w_heap w5 !! l = Some d2) by exact Hl.
  (* the charts *)
  unfold charts. run_ok (deref_run _ _ _ Hl5). rewrite He2.
  rewrite bind_run, emit_run.
  set (w6 := with_ui _ w5).
  assert (Hl6 : w_heap w6 !! l = Some d2) by exact Hl.
  assert (Hdeb2 : get_col "Debut" d2 = Some (SDatetime (map Some debuts)))
    by (subst d2; unfold annotated; rewrite !get_col_set_col_ne by discriminate; exact Hdeb).
  assert (Hmon2 : get_col "Montant" d2 = Some (SFloat64 amounts))
    by (subst d2; unfold annotated; rewrite !get_col_set_col_ne by discriminate; exact Hmon).
  destruct (revenue_by_month_run w6 l d2 debuts amounts Hl6 Hrect2 Hdeb2 Hmon2 Hb)
    as (w7 & Hrev).
  pose proof (local_revenue_by_month l w6) as Hloc. rewrite Hrev in Hloc. cbn [snd] in Hloc.
  destruct Hloc as (_ & Hfs7 & _ & _ & _ & _ & _ & Hui7).
  rewrite bind_run, Hrev, emit_run.
  eexists. split; [reflexivity|]. split.
  - cbn [w_fs with_ui]. rewrite Hfs7. subst w6 w5 w4 w3. cbn [w_fs with_ui].
    rewrite Hfs2. reflexivity.
  - cbn [w_ui with_ui]. rewrite Hui7. subst w6 w5 w4 w3. cbn [w_ui with_ui].
    rewrite Hui2. subst w1. cbn [w_ui with_ui]. rewrite Hn2.
    rewrite <- !app_assoc. reflexivity.
Qed.

End Rendering.

(** X14. On a store that is not empty, whose [Nom], [Expiration], [Debut]
    and [Montant] columns are there with timestamps and float64 amounts, a
    run without the button completes without an exception, writes no file,
    and displays, in order: the download button with the frame as CSV, the
    alerts, the table of the annotated frame, the four metrics, the pie
    chart and the bar chart of the revenue per month. *)
Theorem page_renders_a_stocked_store `{Float64Lib}
    (f : form) (n : Z) (w w1 : world) (l : loc) (d : DataFrame)
    (names : Series) (exps debuts : list Z) (amounts : list float) :
  enregistrer f = false ->
  duree_of f = Ok n ->
  load_data DATA_PATH w = (Ok l, w1) ->
  w_heap w1 !! l = Some d ->
  rectangular d ->
  empty d = false ->
  get_col "Nom" d = Some names ->
  get_col "Expiration" d = Some (SDatetime (map Some exps)) ->
  get_col "Debut" d = Some (SDatetime (map Some debuts)) ->
  get_col "Montant" d = Some (SFloat64 amounts) ->
  Forall (fun ns => Calendar.ts_in_bounds (Calendar.month_start ns) = true) debuts ->
  window_ok (w_today w) (warn_days f) ->
  exists w',
    page f w = (Ok tt, w')
    /\ w_fs w' = w_fs w
    /\ w_ui w'
       = (w_ui w
          ++ [SidebarDownload (Csv.to_csv d) "abonnements.csv"]
          ++ alert_events (alerts_of (warn_days f) (w_today w) (series_values names) exps)
          ++ [StDataframe (annotated d (warn_days f) (w_today w) exps) "Expiration";
              StMetric "Total abonnements" (Z.of_nat (nrows d));
              StMetric "Actifs" (count_status Active (warn_days f) (w_today w) exps);
              StMetric "Bientôt expirés"
                (count_status ExpiringSoon (warn_days f) (w_today w) exps);
              StMetric "Expirés" (count_status Expired (warn_days f) (w_today w) exps);
              StPie (annotated d (warn_days f) (w_today w) exps) "Statut";
              StBar (revenue_frame debuts amounts) "Mois" "Montant"])%list.
Proof.
  intros Hidle Hduree Hload Hl Hrect Hne Hnom Hexp Hdeb Hmon Hb Hwin.
  destruct (load_data_inv _ _ _ _ Hload) as (Ht & Hfs & Hui).
  rewrite <- Ht in Hwin.
  destruct (render_run w1 l d (warn_days f) names exps debuts amounts
              Hl Hrect Hne Hnom Hexp Hdeb Hmon Hb Hwin) as (w' & Hrun & Hfs' & Hui').
  exists w'. rewrite page_unfold. run_ok Hload. rewrite bind_run, lift_run, Hduree, Hidle.
  rewrite bind_run. unfold ret at 1. split; [exact Hrun|].
  split; [congruence|]. rewrite Hui', Hui, Ht. reflexivity.
Qed.

Lemma alerts_count `{Float64Lib} (warn today : Z) (names : list pyval) (exps : list Z) :
  length names = length exps ->
  Z.of_nat (length (alerts_of warn today names exps))
  = count_status ExpiringSoon warn today exps + count_status Expired warn today exps.
Proof.
  unfold alerts_of, count_status. revert exps.
  induction names as [|name names IH]; intros [|ns exps] Hlen; try discriminate;
    [reflexivity|].
  injection Hlen as Hlen. specialize (IH exps Hlen).
  cbn [combine omap list_omap List.filter fst snd]. unfold alert_of at 1.
  fold (@omap list _ _ _ (fun p : pyval * Z => alert_of warn today (fst p) (snd p))
          (combine names exps)).
  destruct (spec_status (Calendar.ts_date ns) warn today); cbn [status_eqb length]; lia.
Qed.

(** X13. The notification section follows the statuses: over the annotated
    frame it keeps one alert per record that is expired ("Expiré le <date>")
    or expiring soon ("Expire dans <n> jours (<date>)"), in record order,
    none for an active record, and shows them as errors; with no alert it
    shows the success message.  The number of alerts is the number of
    records expiring soon plus the number of records expired. *)
Theorem notifications_follow_statuses `{Float64Lib}
    (w : world) (df : loc) (d : DataFrame) (warn : Z) (names : Series) (exps : list Z) :
  w_heap w !! df = Some d ->
  rectangular d ->
  empty d = false ->
  get_col "Nom" d = Some names ->
  get_col "Expiration" d = Some (SDatetime (map Some exps)) ->
  window_ok (w_today w) warn ->
  exists w',
    (df_status ← df_with_status df warn; notifications df_status) w = (Ok tt, w')
    /\ w_ui w'
       = (w_ui w ++ alert_events (alerts_of warn (w_today w) (series_values names) exps))%list
    /\ Z.of_nat (length (alerts_of warn (w_today w) (series_values names) exps))
       = count_status ExpiringSoon warn (w_today w) exps
         + count_status Expired warn (w_today w) exps.
Proof.
  intros Hdf Hrect Hne Hnom Hexp Hwin.
  destruct (df_with_status_run w df d warn exps Hdf Hrect Hne Hexp Hwin) as (w1 & Hrun & Hl).
  pose proof (df_with_status_display df warn w) as Hui. rewrite Hrun in Hui. cbn [snd] in Hui.
  eexists. split; [|split].
  - run_ok Hrun.
    apply (notifications_run w1 _ d warn (w_today w) names exps Hl Hrect Hnom Hexp).
  - cbn [w_ui with_ui]. rewrite Hui. reflexivity.
  - apply alerts_count.
    pose proof (get_col_len _ _ _ Hrect Hexp) as E1. cbn [series_len] in E1.
    rewrite length_map in E1.
    pose proof (get_col_len _ _ _ Hrect Hnom) as E2. rewrite E1, <- E2.
    destruct names; cbn [series_values series_len]; rewrite ?length_map; reflexivity.
Qed.

Lemma notifications_follow_statuses_witness :
  let w := sample_world (Calendar.ymd2ord 2024 1 31) in
  let exps := [(Calendar.ymd2ord 2024 1 31 - 719163) * 86400000000000] in
  exists w',
    (df_status ← df_with_status 1%positive 7; notifications (H := RefFloat.lib) df_status) w
    = (Ok tt, w')
    /\ w_ui w'
       = (w_ui w ++ alert_events (H := RefFloat.lib)
                      (alerts_of 7 (w_today w) [PStr "Amine"] exps))%list
    /\ Z.of_nat (length (alerts_of 7 (w_today w) [PStr "Amine"] exps))
       = count_status ExpiringSoon 7 (w_today w) exps
         + count_status Expired 7 (w_today w) exps.
Proof.
  intros w exps.
  apply (notifications_follow_statuses (H := RefFloat.lib) w 1%positive sample_record 7
           (SObject [PStr "Amine"]) exps).
  - apply lookup_insert_eq.
  - exact sample_record_rectangular.
  - reflexivity.
  - reflexivity.
  - reflexivity.
  - vm_compute; intuition discriminate.
Defined.

(** What the section shows for the stored record before its last week, on
    its last day and on the day after. *)
Example notifications_of_the_sample :
  let shown today :=
    w_ui (snd ((df_status ← df_with_status 1%positive 7;
                notifications (H := RefFloat.lib) df_status) (sample_world today))) in
  shown (Calendar.ymd2ord 2024 1 10)
  = [StSuccess "✅ Aucun abonnement expiré ou proche d’expiration."]
  /\ shown (Calendar.ymd2ord 2024 1 31)
     = [StError "⏳ **Amine** — Expire dans 0 jours (2024-01-31)"]
  /\ shown (Calendar.ymd2ord 2024 2 1)
     = [StError "❌ **Amine** — Expiré le 2024-01-31"].
Proof. vm_compute. repeat split. Qed.

Lemma page_renders_a_stocked_store_witness :
  let w := stocked_world (Calendar.ymd2ord 2024 1 31) DiskOk in
  let exps := [(Calendar.ymd2ord 2024 1 31 - 719163) * 86400000000000] in
  let debuts := [(Calendar.ymd2ord 2024 1 1 - 719163) * 86400000000000] in
  let f := idle_form (Calendar.ymd2ord 2024 1 31) in
  exists w',
    page (H := RefFloat.lib) f w = (Ok tt, w')
    /\ w_fs w' = w_fs w
    /\ w_ui w'
       = (w_ui w
          ++ [SidebarDownload (Csv.to_csv (H := RefFloat.lib) sample_record) "abonnements.csv"]
          ++ alert_events (H := RefFloat.lib)
               (alerts_of (warn_days f) (w_today w) [PStr "Amine"] exps)
          ++ [StDataframe (annotated sample_record (warn_days f) (w_today w) exps) "Expiration";
              StMetric "Total abonnements" (Z.of_nat (nrows sample_record));
              StMetric "Actifs" (count_status Active (warn_days f) (w_today w) exps);
              StMetric "Bientôt expirés"
                (count_status ExpiringSoon (warn_days f) (w_today w) exps);
              StMetric "Expirés" (count_status Expired (warn_days f) (w_today w) exps);
              StPie (annotated sample_record (warn_days f) (w_today w) exps) "Statut";
              StBar (revenue_frame (H := RefFloat.lib) debuts [1000%float])
                    "Mois" "Montant"])%list.
Proof.
  intros w exps debuts f.
  refine (page_renders_a_stocked_store (H := RefFloat.lib) f 30 w
            (with_heap (<[fresh (dom (w_heap w)) := sample_record]> (w_heap w)) w)
            (fresh (dom (w_heap w))) sample_record (SObject [PStr "Amine"]) exps debuts
            [1000%float] _ _ _ _ _ _ _ _ _ _ _ _).
  - reflexivity.
  - reflexivity.
  - apply (load_data_cached (H := RefFloat.lib) DATA_PATH sample_record w). reflexivity.
  - apply lookup_insert_eq.
  - exact sample_record_rectangular.
  - reflexivity.
  - reflexivity.
  - reflexivity.
  - reflexivity.
  - reflexivity.
  - repeat constructor.
  - vm_compute; intuition discriminate.
Defined.


(** * Columns through the file, whatever their type *)

Section AnyColumn.
Context `{Float64Lib}.

(** A column read back from the text written for its frame is what the
    reader makes of the column's own cells. *)
Lemma read_csv_to_csv_column (d d' : DataFrame) (pd : list string) (k : string) (s : Series) :
  rectangular d ->
  get_col k d = Some s ->
  Csv.read_csv (Csv.to_csv d) pd = Ok d' ->
  exists s', get_col k d' = Some s' /\ read_cells pd k (Csv.cells_of_series s) = Ok s'.
Proof.
  intros Hrect Hk. unfold Csv.read_csv, Csv.to_csv.
  destruct (get_col_nth _ _ _ Hk) as (j & Hj & Hname).
  destruct (columns d) as [|k0 names] eqn:Ec; [discriminate|]. rewrite <- Ec in *.
  destruct (Csv.has_dup (columns d)) eqn:Hdup; [discriminate|].
  destruct (negb (forallb _ pd)); [discriminate|].
  destruct (negb (forallb _ (Csv.csv_rows d))); [discriminate|].
  intros Hread.
  destruct (read_columns_forward _ _ _ 0%nat j d' k Hread Hdup Hname) as (s' & Hs & Hg).
  exists s'. split; [exact Hg|]. cbn [Nat.add] in Hs.
  rewrite (column_cells_csv_rows d j k _ Hrect Hj) in Hs. exact Hs.
Qed.

Lemma save_then_load_column (df l : loc) (d : DataFrame) (k : string) (s : Series)
    (w w2 : world) :
  w_heap w !! df = Some d ->
  rectangular d ->
  get_col k d = Some s ->
  (save_data df DATA_PATH;; load_data DATA_PATH) w = (Ok l, w2) ->
  exists d' s',
    w_heap w2 !! l = Some d' /\ get_col k d' = Some s'
    /\ read_cells ["Debut"; "Expiration"] k (Csv.cells_of_series s) = Ok s'.
Proof.
  intros Hdf Hrect Hcol. rewrite bind_run, (save_data_run _ _ _ _ Hdf).
  destruct (w_disk w); try discriminate.
  set (w1 := with_cache _ _).
  assert (Hc : w_cache w1 !! DATA_PATH = None) by (subst w1; cbn; apply lookup_empty).
  assert (Hf : w_fs w1 !! DATA_PATH = Some (Csv.to_csv d))
    by (subst w1; cbn; apply lookup_insert_eq).
  rewrite (load_data_uncached _ _ _ Hc Hf).
  destruct (Csv.read_csv (Csv.to_csv d) ["Debut"; "Expiration"]) as [d'|e] eqn:Er;
    [|discriminate].
  intros E. injection E as <- <-.
  destruct (read_csv_to_csv_column d d' _ k s Hrect Hcol Er) as (s' & Hg & Hs).
  exists d', s'. split; [cbn; apply lookup_insert_eq|]. split; assumption.
Qed.

(** ** Text columns *)

Lemma all_some_none {A B} (f : A -> option B) (l : list A) (a : A) :
  In a l -> f a = None -> all_some f l = None.
Proof.
  intros Hin Ha. induction l as [|x l IH]; [destruct Hin|].
  cbn [all_some]. destruct Hin as [->|Hin].
  - rewrite Ha. reflexivity.
  - rewrite (IH Hin). destruct (f x); reflexivity.
Qed.

Lemma forallb_false {A} (p : A -> bool) (l : list A) (a : A) :
  In a l -> p a = false -> forallb p l = false.
Proof.
  intros Hin Ha. destruct (forallb p l) eqn:E; [|reflexivity].
  rewrite forallb_forall in E. rewrite (E a Hin) in Ha. discriminate.
Qed.

(** A column with at least one cell that can only be text is read as a text
    column: every cell comes back as written, except the missing-value
    markers, which come back as NaN. *)
Lemma infer_text_column (cells : list string) (c0 : string) :
  In c0 cells -> plain_text c0 ->
  Csv.infer_column cells = Ok (SObject (map text_read_back cells)).
Proof.
  intros Hin (Hna & Hint & Hfloat & Hbool). unfold Csv.infer_column.
  destruct cells as [|c cells]; [destruct Hin|].
  set (cs := c :: cells) in *. clearbody cs.
  assert (Hp : In c0 (List.filter (fun c => negb (Csv.is_na c)) cs))
    by (apply filter_In; split; [exact Hin | rewrite Hna; reflexivity]).
  destruct (List.filter (fun c => negb (Csv.is_na c)) cs) as [|p present] eqn:Ep;
    [destruct Hp|].
  rewrite <- Ep in *. clear Ep p present.
  rewrite (forallb_false Csv.int_like _ c0 Hp) by (unfold Csv.int_like; rewrite Hint; reflexivity).
  cbn [andb].
  rewrite (all_some_none Csv.int_of_token cs c0 Hin)
    by (unfold Csv.int_of_token; rewrite Hint; reflexivity).
  rewrite (all_some_none Csv.float_of_cell cs c0 Hin)
    by (unfold Csv.float_of_cell; rewrite Hna; exact Hfloat).
  rewrite (all_some_none Csv.parse_bool cs c0 Hin Hbool).
  rewrite (forallb_false _ _ c0 Hp) by (rewrite Hbool; reflexivity).
  f_equal. f_equal. apply List.map_ext. intros a.
  unfold Csv.obj_of_cell, text_read_back. destruct (Csv.is_na a); [reflexivity|].
  destruct (Csv.parse_bool a); reflexivity.
Qed.

End AnyColumn.



(** ** Integer columns *)

Lemma span_digits_read (s : string) :
  forall (a : Z) (seen : bool) (v : Z),
    PyStr.read_digits s a = Some v -> s <> "" \/ seen = true ->
    Csv.span_digits s a seen = (Some v, "").
Proof.
  induction s as [|c r IH]; intros a seen v Hread Hs; cbn [PyStr.read_digits] in Hread.
  - destruct Hs as [Hs | ->]; [contradiction|]. injection Hread as <-. reflexivity.
  - cbn [Csv.span_digits]. destruct (PyStr.is_digit c); [|discriminate].
    apply IH; [exact Hread | right; reflexivity].
Qed.

(** A digit is neither a blank nor a sign. *)
Lemma digit_first (c : ascii) (r : string) :
  PyStr.is_digit c = true ->
  Csv.skip_spaces (String c r) = String c r
  /\ match String c r with
     | String "-" r' => (true, r')
     | String "+" r' => (false, r')
     | _ => (false, String c r)
     end = (false, String c r).
Proof.
  destruct c as [x0 x1 x2 x3 x4 x5 x6 x7].
  destruct x0, x1, x2, x3, x4, x5, x6, x7; try discriminate; intros _; split; reflexivity.
Qed.

Lemma parse_int64_digits (s : string) (v : Z) :
  s <> "" -> PyStr.read_digits s 0 = Some v ->
  Csv.INT64_MIN <= v <= Csv.INT64_MAX ->
  Csv.parse_int64 s = Csv.IntOk v.
Proof.
  intros Hne Hread [Hlo Hhi]. destruct s as [|c r]; [contradiction|].
  assert (Hd : PyStr.is_digit c = true).
  { cbn [PyStr.read_digits] in Hread. destruct (PyStr.is_digit c); [reflexivity|discriminate]. }
  destruct (digit_first c r Hd) as [Hskip Hsign].
  unfold Csv.parse_int64. rewrite Hskip, Hsign.
  rewrite (span_digits_read _ 0 false v Hread) by (left; discriminate).
  cbn [Csv.skip_spaces].
  apply Z.leb_le in Hlo. apply Z.leb_le in Hhi. rewrite Hlo, Hhi. reflexivity.
Qed.

(** The decimal text of an int64 is read back as the same integer. *)
Lemma parse_int64_str_int (n : Z) :
  Csv.INT64_MIN <= n <= Csv.INT64_MAX -> Csv.parse_int64 (PyStr.str_int n) = Csv.IntOk n.
Proof.
  intros Hn. unfold PyStr.str_int. destruct (n <? 0) eqn:E.
  - apply Z.ltb_lt in E.
    destruct (str_nat_spec (- n) ltac:(lia)) as (k & Hk & Hlen & _ & _ & Hread).
    assert (Hne : PyStr.str_nat (- n) <> "")
      by (intros E0; rewrite E0 in Hlen; cbn in Hlen; lia).
    unfold Csv.parse_int64. cbn [Csv.skip_spaces].
    change (Csv.c_space "-") with false. cbv iota.
    rewrite (span_digits_read _ 0 false (- n) Hread) by (left; exact Hne).
    cbn [Csv.skip_spaces]. rewrite Z.opp_involutive.
    destruct Hn as [Hlo Hhi]. apply Z.leb_le in Hlo. apply Z.leb_le in Hhi.
    rewrite Hlo, Hhi. reflexivity.
  - apply Z.ltb_ge in E.
    destruct (str_nat_spec n E) as (k & Hk & Hlen & _ & _ & Hread).
    apply parse_int64_digits; [|exact Hread|exact Hn].
    intros E0. rewrite E0 in Hlen. cbn in Hlen. lia.
Qed.

Lemma is_na_not_int (s : string) : Csv.is_na s = true -> Csv.parse_int64 s = Csv.NotInt.
Proof.
  unfold Csv.is_na. intros E. apply existsb_exists in E as (x & Hin & Heq).
  apply String.eqb_eq in Heq. subst x. unfold Csv.NA_VALUES in Hin. cbn [In] in Hin.
  repeat (destruct Hin as [<-|Hin]; [reflexivity|]). destruct Hin.
Qed.

Lemma all_some_map {A B} (f : A -> option B) (g : B -> A) (vs : list B) :
  (forall v, In v vs -> f (g v) = Some v) -> all_some f (map g vs) = Some vs.
Proof.
  induction vs as [|v vs IH]; intros Hf; [reflexivity|].
  cbn [map all_some]. rewrite (Hf v (or_introl eq_refl)), IH; [reflexivity|].
  intros x Hx. apply Hf. right. exact Hx.
Qed.

(** A column of int64 values, written in decimal, is read as the same
    int64 column. *)
Lemma infer_int_column `{Float64Lib} (vs : list Z) :
  vs <> [] ->
  List.Forall (fun n => Csv.INT64_MIN <= n <= Csv.INT64_MAX) vs ->
  Csv.infer_column (map PyStr.str_int vs) = Ok (SInt64 vs).
Proof.
  intros Hne Hall. rewrite List.Forall_forall in Hall.
  assert (Hcell : forall c, In c (map PyStr.str_int vs) ->
                            exists n, c = PyStr.str_int n /\ Csv.parse_int64 c = Csv.IntOk n).
  { intros c Hc. apply in_map_iff in Hc as (n & <- & Hn).
    exists n. split; [reflexivity | apply parse_int64_str_int, Hall, Hn]. }
  unfold Csv.infer_column.
  destruct vs as [|v0 vs]; [contradiction|].
  set (cells := map PyStr.str_int (v0 :: vs)) in *.
  assert (Hc0 : In (PyStr.str_int v0) cells) by (left; reflexivity).
  change (match cells with [] => Ok (SObject []) | _ :: _ => ?X end) with X.
  cbn [map] in cells. subst cells. cbv iota.
  set (cells := PyStr.str_int v0 :: map PyStr.str_int vs) in *.
  set (present := List.filter (fun c => negb (Csv.is_na c)) cells).
  assert (Hp0 : In (PyStr.str_int v0) present).
  { apply filter_In. split; [exact Hc0|].
    destruct (Csv.is_na (PyStr.str_int v0)) eqn:E; [|reflexivity].
    apply is_na_not_int in E. destruct (Hcell _ Hc0) as (n & _ & Hn). congruence. }
  destruct present as [|p present'] eqn:Ep; [destruct Hp0|].
  rewrite <- Ep. clear Ep Hp0 p present'. 
  assert (Hok : forallb (fun c => match Csv.parse_int64 c with
                                   | Csv.IntOk _ => true
                                   | _ => false
                                   end) present = true).
  { apply forallb_forall. intros c Hc. apply filter_In in Hc as [Hc _].
    destruct (Hcell c Hc) as (n & _ & ->). reflexivity. }
  rewrite Hok. cbn [negb]. rewrite andb_false_r.
  subst cells.
  change (PyStr.str_int v0 :: map PyStr.str_int vs) with (map PyStr.str_int (v0 :: vs)).
  rewrite (all_some_map Csv.int_of_token PyStr.str_int (v0 :: vs)); [reflexivity|].
  intros n Hn. unfold Csv.int_of_token. rewrite parse_int64_str_int; [reflexivity|].
  apply Hall. exact Hn.
Qed.



(** ** Text that reads as numbers *)

Lemma all_some_forall2 {A B} (f : A -> option B) (l : list A) (vs : list B) :
  Forall2 (fun a v => f a = Some v) l vs -> all_some f l = Some vs.
Proof.
  induction 1 as [|a v l vs Ha _ IH]; [reflexivity|].
  cbn [all_some]. rewrite Ha, IH. reflexivity.
Qed.

(** A column all of whose cells read as int64 numerals is read as an int64
    column of their values. *)
Lemma infer_numeric_text `{Float64Lib} (texts : list string) (ns : list Z) :
  texts <> [] ->
  Forall2 (fun c n => Csv.parse_int64 c = Csv.IntOk n) texts ns ->
  Csv.infer_column texts = Ok (SInt64 ns).
Proof.
  intros Hne Hall.
  assert (Hcell : forall c, In c texts -> exists n, Csv.parse_int64 c = Csv.IntOk n).
  { intros c Hc. clear Hne. induction Hall as [|a v l vs Ha _ IH]; [destruct Hc|].
    destruct Hc as [<-|Hc]; [eauto | auto]. }
  unfold Csv.infer_column. destruct texts as [|c0 texts]; [contradiction|].
  assert (Hc0 : exists c, In c (c0 :: texts) /\ Csv.is_na c = false).
  { exists c0. split; [left; reflexivity|].
    destruct (Hcell c0 (or_introl eq_refl)) as (n & Hn).
    destruct (Csv.is_na c0) eqn:E; [|reflexivity]. apply is_na_not_int in E. congruence. }
  set (cells := c0 :: texts) in *.
  change (match cells with [] => Ok (SObject []) | _ :: _ => ?X end) with X.
  clearbody cells.
  destruct Hc0 as (c & Hc & Hna).
  set (present := List.filter (fun c => negb (Csv.is_na c)) cells).
  assert (Hp : In c present) by (apply filter_In; split; [exact Hc | rewrite Hna; reflexivity]).
  destruct present as [|p present'] eqn:Ep; [destruct Hp|].
  rewrite <- Ep. clear Ep Hp p present'.
  assert (Hok : forallb (fun c => match Csv.parse_int64 c with
                                   | Csv.IntOk _ => true
                                   | _ => false
                                   end) present = true).
  { apply forallb_forall. intros x Hx. apply filter_In in Hx as [Hx _].
    destruct (Hcell x Hx) as (n & ->). reflexivity. }
  rewrite Hok. cbn [negb]. rewrite andb_false_r.
  rewrite (all_some_forall2 Csv.int_of_token cells ns); [reflexivity|].
  eapply Forall2_impl; [exact Hall|].
  intros a v Ha. unfold Csv.int_of_token. rewrite Ha. reflexivity.
Qed.



(** * The records already there *)

Section EarlierRecords.
Context `{Float64Lib}.

(** A column both frames have is the concatenation of the two columns. *)
Lemma get_col_concat (d row : DataFrame) (k : string) (s sb : Series) :
  get_col k d = Some s ->
  get_col k row = Some sb ->
  get_col k (concat d row) = Some (concat_series s sb).
Proof.
  intros Hd Hr. unfold concat.
  set (tail := map _ (List.filter _ row)). clearbody tail.
  induction d as [|[k0 s0] d IH]; cbn [get_col map app fst snd] in *; [discriminate|].
  destruct (String.eqb k0 k) eqn:Ek.
  - apply String.eqb_eq in Ek. subst k0. injection Hd as ->. rewrite Hr.
    cbn [fst snd get_col]. rewrite String.eqb_refl. reflexivity.
  - destruct (get_col k0 row); cbn [fst get_col]; rewrite Ek; apply IH; exact Hd.
Qed.

Lemma series_values_empty (s : Series) : series_len s = 0%nat -> series_values s = [].
Proof.
  destruct s as [vs|vs|vs|vs|vs]; cbn [series_len series_values]; intros E;
    apply length_zero_iff_nil in E; subst vs; reflexivity.
Qed.

(** A text cell appended to a column, whatever the column's type: the cells
    that were there, then the new one. *)
Lemma series_values_concat_text (s : Series) (v : pyval) :
  series_values (concat_series s (SObject [v])) = (series_values s ++ [v])%list.
Proof.
  unfold concat_series. destruct (series_len s =? 0)%nat eqn:E.
  - apply Nat.eqb_eq in E. rewrite (series_values_empty s E). reflexivity.
  - cbn [series_len length Nat.eqb]. destruct s; reflexivity.
Qed.

End EarlierRecords.

(** X18. An append keeps the earlier records: in the frame the handler
    leaves, each of the text columns (ID, Nom, Telephone, Abonnement,
    Remarques) holds the cells it held, in order, followed by the new
    record's cell; the frame appended to is itself left as it was. *)
Theorem append_keeps_earlier_records `{Float64Lib}
    (df df' : loc) (d : DataFrame) (f : form) (duree : Z) (w w' : world)
    (k : string) (s : Series) (v : string) :
  PyStr.truthy (PyStr.strip (nom f)) = true ->
  w_heap w !! df = Some d ->
  on_enregistrer df f duree w = (Ok df', w') ->
  In (k, v) [("ID", w_uuid w (w_drawn w)); ("Nom", PyStr.strip (nom f));
             ("Telephone", PyStr.strip (tel f)); ("Abonnement", abo_choice f);
             ("Remarques", PyStr.strip (rem f))] ->
  get_col k d = Some s ->
  exists d' s',
    w_heap w' !! df' = Some d'
    /\ get_col k d' = Some s'
    /\ series_values s' = (series_values s ++ [PStr v])%list
    /\ w_heap w' !! df = Some d.
Proof.
  intros Hname Hdf Hrun Hin Hcol.
  destruct (on_enregistrer_inv _ _ _ _ _ _ Hname Hrun) as (d0 & Hd0 & _ & _ & -> & ->).
  rewrite Hdf in Hd0. injection Hd0 as <-.
  set (row := created_row f duree (w_uuid w (w_drawn w))).
  assert (Hrow : get_col k row = Some (SObject [PStr v])).
  { cbn [In] in Hin.
    repeat (destruct Hin as [E|Hin]; [injection E as <- <-; reflexivity|]). destruct Hin. }
  exists (concat d row), (concat_series s (SObject [PStr v])).
  split; [cbn; apply lookup_insert_eq|].
  split; [apply get_col_concat; assumption|].
  split; [apply series_values_concat_text|].
  cbn. rewrite lookup_insert_ne; [exact Hdf|].
  apply fresh_differs with (d := d). exact Hdf.
Qed.

Lemma append_keeps_earlier_records_witness :
  let w := stocked_world 738886 DiskOk in
  let w' := appended (H := RefFloat.lib) w sample_record (created_row lina_form 10 "id-1") in
  exists d' s',
    w_heap w' !! fresh (dom (w_heap w)) = Some d'
    /\ get_col "Nom" d' = Some s'
    /\ series_values s' = (series_values (SObject [PStr "Amine"]) ++ [PStr "Lina"])%list
    /\ w_heap w' !! 1%positive = Some sample_record.
Proof.
  intros w w'.
  refine (append_keeps_earlier_records (H := RefFloat.lib) 1%positive (fresh (dom (w_heap w)))
            sample_record lina_form 10 w w' "Nom" (SObject [PStr "Amine"]) "Lina" _ _ _ _ _).
  - reflexivity.
  - reflexivity.
  - apply (on_enregistrer_run (H := RefFloat.lib) 1%positive sample_record lina_form 10 w);
      reflexivity.
  - right. left. reflexivity.
  - reflexivity.
Defined.

(** * An append that cannot be written *)

(** X19. When the file cannot be written, the handler raises [OSError]
    after building the new frame: the success message is not shown, the
    cache is not cleared, the frame appended to is unchanged and, when the
    file could not be opened, no file is changed. *)
Theorem failed_append_shows_no_success `{Float64Lib}
    (df : loc) (d : DataFrame) (f : form) (duree : Z) (w : world) :
  PyStr.truthy (PyStr.strip (nom f)) = true ->
  w_heap w !! df = Some d ->
  w_disk w <> DiskOk ->
  Calendar.ts_in_bounds ((debut f - Calendar.EPOCH_ORDINAL) * Calendar.NS_PER_DAY) = true ->
  Calendar.ts_in_bounds ((debut f - Calendar.EPOCH_ORDINAL) * Calendar.NS_PER_DAY
                         + duree * Calendar.NS_PER_DAY) = true ->
  - Calendar.MAX_DELTA_DAYS <= duree <= Calendar.MAX_DELTA_DAYS ->
  fst (on_enregistrer df f duree w) = Raise OSError
  /\ w_ui (snd (on_enregistrer df f duree w)) = w_ui w
  /\ w_cache (snd (on_enregistrer df f duree w)) = w_cache w
  /\ w_heap (snd (on_enregistrer df f duree w)) !! df = Some d
  /\ (w_disk w = PermissionDenied -> w_fs (snd (on_enregistrer df f duree w)) = w_fs w).
Proof.
  intros Hname Hdf Hdisk Hs He Hd.
  unfold on_enregistrer. rewrite Hname. cbn [negb].
  run_ok (new_row_run f duree w Hs He Hd).
  assert (H1 : w_heap (with_drawn (S (w_drawn w)) w) !! df = Some d) by exact Hdf.
  run_ok (deref_run _ _ _ H1).
  rewrite bind_run, alloc_run. cbn [w_heap with_drawn].
  set (row := created_row _ _ _).
  set (df1 := fresh (dom (w_heap w))).
  set (w2 := with_heap _ _).
  assert (H2 : w_heap w2 !! df1 = Some (concat d row))
    by (subst w2; cbn; apply lookup_insert_eq).
  rewrite bind_run, (save_data_run _ _ _ _ H2).
  replace (w_disk w2) with (w_disk w) by reflexivity.
  assert (Hold : w_heap w2 !! df = Some d).
  { subst w2. cbn. rewrite lookup_insert_ne; [exact Hdf|].
    apply fresh_differs with (d := d). exact Hdf. }
  destruct (w_disk w) as [| |n] eqn:E; [contradiction| |]; cbn [fst snd].
  - repeat split; auto.
  - repeat split; auto. discriminate.
Qed.

Lemma failed_append_shows_no_success_witness :
  let w := stocked_world 738886 PermissionDenied in
  fst (on_enregistrer (H := RefFloat.lib) 1%positive lina_form 10 w) = Raise OSError
  /\ w_ui (snd (on_enregistrer (H := RefFloat.lib) 1%positive lina_form 10 w)) = w_ui w
  /\ w_cache (snd (on_enregistrer (H := RefFloat.lib) 1%positive lina_form 10 w)) = w_cache w
  /\ w_heap (snd (on_enregistrer (H := RefFloat.lib) 1%positive lina_form 10 w)) !! 1%positive
     = Some sample_record
  /\ (w_disk w = PermissionDenied ->
      w_fs (snd (on_enregistrer (H := RefFloat.lib) 1%positive lina_form 10 w)) = w_fs w).
Proof.
  intros w.
  apply (failed_append_shows_no_success (H := RefFloat.lib) 1%positive sample_record
           lina_form 10 w).
  - reflexivity.
  - reflexivity.
  - discriminate.
  - reflexivity.
  - reflexivity.
  - vm_compute; intuition discriminate.
Defined.
